(** * chart-service: the render-and-cache pipeline

    A shallow embedding of [src/services/redis.ts] (the [RedisService]
    cache wrapper and the caching [ChartGeneratorService]) together with
    the parts of the Node.js runtime the two classes lean on: JavaScript
    values and property lookup, [JSON.stringify], MD5, base64 and the
    glob patterns of the Redis [KEYS] command.  Around it stand the
    generator as it was before caching ([src/services/chartGenerator.ts]),
    the [UPDATE] statement of [src/routes/charts.ts], the authentication
    middleware and the colour defaults of the embed page's script. *)

From Stdlib Require Import ZArith Ascii String List Lia Bool.
From stdpp Require Import base option list strings gmap pretty.

Set Warnings "-register-all".

Local Open Scope string_scope.
Local Open Scope list_scope.
Local Open Scope Z_scope.

(** ** JavaScript values *)

Module JS.

(** Numbers are the integer-valued doubles, which is what widths, heights,
    border widths and the sample data of the service are; below 10^21 in
    magnitude JavaScript prints them as their decimal expansion. *)
Inductive value : Type :=
  | VUndefined
  | VNull
  | VBool (b : bool)
  | VNum (n : Z)
  | VStr (s : string)
  | VArr (items : list value)
  | VObj (props : list (string * value))
  | VFun (name : string).

(** An object is its own enumerable properties in the order it enumerates
    them: insertion order, for the names the service uses. *)
Definition object : Type := list (string * value).

(** Exceptions carry the [message] of the JavaScript [Error]. *)
Definition error : Type := string.

Inductive completion (A : Type) : Type :=
  | Return (a : A)
  | Throw (e : error)
  | OutOfFuel.
Arguments Return {A} a.
Arguments Throw {A} e.
Arguments OutOfFuel {A}.

(** [ToBoolean]. *)
Definition truthy (v : value) : bool :=
  match v with
  | VUndefined | VNull => false
  | VBool b => b
  | VNum n => negb (n =? 0)
  | VStr s => negb (String.eqb s "")
  | VArr _ | VObj _ | VFun _ => true
  end.

(** [a || b] on values. *)
Definition or_else (a b : value) : value := if truthy a then a else b.

Fixpoint own_property (props : object) (key : string) : option value :=
  match props with
  | [] => None
  | (k, v) :: rest => if String.eqb k key then Some v else own_property rest key
  end.

(** The function-valued properties every object literal inherits from
    [Object.prototype]. *)
Definition prototype_methods : list string :=
  [ "constructor"; "hasOwnProperty"; "isPrototypeOf"; "propertyIsEnumerable";
    "toLocaleString"; "toString"; "valueOf"; "__defineGetter__";
    "__defineSetter__"; "__lookupGetter__"; "__lookupSetter__" ].

(** [obj[key]] for an object literal [obj]: an own property first, then the
    prototype chain, then [undefined].  [__proto__] yields
    [Object.prototype] itself, an object without enumerable properties. *)
Definition get (props : object) (key : string) : value :=
  match own_property props key with
  | Some v => v
  | None =>
      if existsb (String.eqb key) prototype_methods then VFun key
      else if String.eqb key "__proto__" then VObj []
      else VUndefined
  end.

(** [{ ...obj, key: v }]: an existing key keeps its place, a new one is
    appended. *)
Fixpoint set (props : object) (key : string) (v : value) : object :=
  match props with
  | [] => [(key, v)]
  | (k, x) :: rest =>
      if String.eqb k key then (k, v) :: rest else (k, x) :: set rest key v
  end.

Definition hex_digit (d : Z) : ascii :=
  ascii_of_N (Z.to_N (if d <? 10 then 48 + d else 87 + d)).

Definition code (c : ascii) : Z := Z.of_N (N_of_ascii c).

(** [QuoteJSONString] on the UTF-8 bytes of a string. *)
Definition escape_char (c : ascii) : string :=
  let n := code c in
  if n =? 34 then String "\" (String "034" "")
  else if n =? 92 then "\\"
  else if n =? 8 then "\b"
  else if n =? 9 then "\t"
  else if n =? 10 then "\n"
  else if n =? 12 then "\f"
  else if n =? 13 then "\r"
  else if n <? 32 then
    "\u00" +:+ String (hex_digit (n / 16)) (String (hex_digit (n mod 16)) "")
  else String c "".

Fixpoint escape (s : string) : string :=
  match s with
  | EmptyString => ""
  | String c rest => escape_char c +:+ escape rest
  end.

Definition quote (s : string) : string :=
  String "034" (escape s +:+ String "034" "").

Fixpoint join (sep : string) (parts : list string) : string :=
  match parts with
  | [] => ""
  | [p] => p
  | p :: rest => p +:+ sep +:+ join sep rest
  end.

(** [JSON.stringify(v)]: [None] is JavaScript's [undefined].  A property
    whose value is [undefined] or a function is left out of an object and
    printed as [null] inside an array; properties are printed in the order
    the object enumerates them. *)
Fixpoint stringify (v : value) : option string :=
  match v with
  | VUndefined | VFun _ => None
  | VNull => Some "null"
  | VBool b => Some (if b then "true" else "false")
  | VNum n => Some (pretty n)
  | VStr s => Some (quote s)
  | VArr items =>
      Some ("[" +:+ join "," (map (fun x => default "null" (stringify x)) items) +:+ "]")
  | VObj props =>
      Some ("{" +:+ join ","
              (omap (fun p => match stringify (snd p) with
                              | Some t => Some (quote (fst p) +:+ ":" +:+ t)
                              | None => None
                              end) props) +:+ "}")
  end.

(** Template-literal interpolation [`${n}`] of a number: the decimal digits
    of an integer.  This is what JavaScript prints below 10^21 in absolute
    value; from there on it prints the exponent form ([1e+21]), which this
    definition does not. *)
Definition number_to_string (n : Z) : string := pretty n.

End JS.

(** ** MD5 ([crypto.createHash('md5')]), RFC 1321 *)

Module MD5.

Definition mask32 : Z := 4294967295.
Definition wrap32 (x : Z) : Z := Z.land x mask32.
Definition add32 (x y : Z) : Z := wrap32 (x + y).
Definition not32 (x : Z) : Z := Z.lxor x mask32.
Definition rotl32 (x : Z) (s : Z) : Z :=
  wrap32 (Z.lor (Z.shiftl x s) (Z.shiftr x (32 - s))).

Definition shifts : list Z :=
  [ 7; 12; 17; 22; 7; 12; 17; 22; 7; 12; 17; 22; 7; 12; 17; 22;
    5; 9; 14; 20; 5; 9; 14; 20; 5; 9; 14; 20; 5; 9; 14; 20;
    4; 11; 16; 23; 4; 11; 16; 23; 4; 11; 16; 23; 4; 11; 16; 23;
    6; 10; 15; 21; 6; 10; 15; 21; 6; 10; 15; 21; 6; 10; 15; 21 ].

Definition sines : list Z :=
  [ 3614090360; 3905402710; 606105819; 3250441966; 4118548399; 1200080426;
    2821735955; 4249261313; 1770035416; 2336552879; 4294925233; 2304563134;
    1804603682; 4254626195; 2792965006; 1236535329; 4129170786; 3225465664;
    643717713; 3921069994; 3593408605; 38016083; 3634488961; 3889429448;
    568446438; 3275163606; 4107603335; 1163531501; 2850285829; 4243563512;
    1735328473; 2368359562; 4294588738; 2272392833; 1839030562; 4259657740;
    2763975236; 1272893353; 4139469664; 3200236656; 681279174; 3936430074;
    3572445317; 76029189; 3654602809; 3873151461; 530742520; 3299628645;
    4096336452; 1126891415; 2878612391; 4237533241; 1700485571; 2399980690;
    4293915773; 2240044497; 1873313359; 4264355552; 2734768916; 1309151649;
    4149444226; 3174756917; 718787259; 3951481745 ].

Record state : Type := mkState { sa : Z; sb : Z; sc : Z; sd : Z }.

Definition initial : state :=
  mkState 1732584193 4023233417 2562383102 271733878.

Definition bytes_of_string (s : string) : list Z :=
  map JS.code (list_ascii_of_string s).

Fixpoint le_bytes (count : nat) (x : Z) : list Z :=
  match count with
  | O => []
  | S count' => (x mod 256) :: le_bytes count' (x / 256)
  end.

(** The message, a [1] bit, zeros up to 56 modulo 64, and the bit length on
    eight little-endian bytes. *)
Definition pad (msg : list Z) : list Z :=
  let len := Z.of_nat (length msg) in
  let zeros := Z.to_nat ((55 - len) mod 64) in
  msg ++ 128 :: repeat 0 zeros ++ le_bytes 8 ((8 * len) mod 2 ^ 64).

Fixpoint le_word (bs : list Z) : Z :=
  match bs with
  | [] => 0
  | b :: rest => b + 256 * le_word rest
  end.

Fixpoint words (count : nat) (bs : list Z) : list Z :=
  match count with
  | O => []
  | S count' => le_word (take 4 bs) :: words count' (drop 4 bs)
  end.

Definition round (block : list Z) (st : state) (i : nat) : state :=
  let '(mkState a b c d) := st in
  let '(f, g) :=
    if (i <? 16)%nat then (Z.lor (Z.land b c) (Z.land (not32 b) d), i)
    else if (i <? 32)%nat
      then (Z.lor (Z.land d b) (Z.land (not32 d) c), ((5 * i + 1) mod 16)%nat)
    else if (i <? 48)%nat
      then (Z.lxor (Z.lxor b c) d, ((3 * i + 5) mod 16)%nat)
    else (Z.lxor c (Z.lor b (not32 d)), ((7 * i) mod 16)%nat) in
  let f' := add32 (add32 (add32 f a) (nth i sines 0)) (nth g block 0) in
  mkState d (add32 b (rotl32 f' (nth i shifts 0))) b c.

Definition compress (st : state) (block : list Z) : state :=
  let st' := fold_left (round block) (seq 0 64) st in
  mkState (add32 (sa st) (sa st')) (add32 (sb st) (sb st'))
          (add32 (sc st) (sc st')) (add32 (sd st) (sd st')).

Fixpoint blocks (count : nat) (bs : list Z) : list (list Z) :=
  match count with
  | O => []
  | S count' => words 16 (take 64 bs) :: blocks count' (drop 64 bs)
  end.

Definition digest (msg : list Z) : list Z :=
  let padded := pad msg in
  let st := fold_left compress (blocks (length padded / 64) padded) initial in
  le_bytes 4 (sa st) ++ le_bytes 4 (sb st) ++ le_bytes 4 (sc st) ++ le_bytes 4 (sd st).

Definition hex_byte (b : Z) : string :=
  String (JS.hex_digit (b / 16)) (String (JS.hex_digit (b mod 16)) "").

(** [createHash('md5').update(text).digest('hex')]. *)
Definition hex (text : string) : string :=
  String.concat "" (map hex_byte (digest (bytes_of_string text))).

End MD5.

(** ** Base64 as [Buffer] does it *)

Module Base64.

Definition alphabet : list ascii :=
  list_ascii_of_string
    "ABCDEFGHIJKLMNOPQRSTUVWXYZabcdefghijklmnopqrstuvwxyz0123456789+/".

Definition chr (sextet : Z) : ascii := nth (Z.to_nat sextet) alphabet "="%char.

Definition octet (b : Byte.byte) : Z := Z.of_N (Byte.to_N b).

Definition byte_of (n : Z) : Byte.byte :=
  default Byte.x00 (Byte.of_N (Z.to_N (n mod 256))).

(** [buffer.toString('base64')]: the standard alphabet with [=] padding. *)
Fixpoint encode (bs : list Byte.byte) : list ascii :=
  match bs with
  | [] => []
  | [a] =>
      let a := octet a in
      [chr (a / 4); chr ((a mod 4) * 16); "="%char; "="%char]
  | [a; b] =>
      let a := octet a in
      let b := octet b in
      [chr (a / 4); chr ((a mod 4) * 16 + b / 16); chr ((b mod 16) * 4); "="%char]
  | a :: b :: c :: rest =>
      let a := octet a in
      let b := octet b in
      let c := octet c in
      chr (a / 4) :: chr ((a mod 4) * 16 + b / 16)
        :: chr ((b mod 16) * 4 + c / 64) :: chr (c mod 64) :: encode rest
  end.

(** The decoder's table: both the standard and the URL-safe alphabet. *)
Definition unbase64 (c : ascii) : option Z :=
  let n := JS.code c in
  if (65 <=? n) && (n <=? 90) then Some (n - 65)
  else if (97 <=? n) && (n <=? 122) then Some (n - 71)
  else if (48 <=? n) && (n <=? 57) then Some (n + 4)
  else if (n =? 43) || (n =? 45) then Some 62
  else if (n =? 47) || (n =? 95) then Some 63
  else None.

(** Characters outside the table are skipped; the first [=] ends the input. *)
Fixpoint sextets (cs : list ascii) : list Z :=
  match cs with
  | [] => []
  | c :: rest =>
      match unbase64 c with
      | Some v => v :: sextets rest
      | None => if Ascii.eqb c "=" then [] else sextets rest
      end
  end.

Fixpoint octets (vs : list Z) : list Byte.byte :=
  match vs with
  | s1 :: s2 :: s3 :: s4 :: rest =>
      byte_of (s1 * 4 + s2 / 16) :: byte_of ((s2 mod 16) * 16 + s3 / 4)
        :: byte_of ((s3 mod 4) * 64 + s4) :: octets rest
  | [s1; s2; s3] =>
      [byte_of (s1 * 4 + s2 / 16); byte_of ((s2 mod 16) * 16 + s3 / 4)]
  | [s1; s2] => [byte_of (s1 * 4 + s2 / 16)]
  | _ => []
  end.

(** [Buffer.from(text, 'base64')]. *)
Definition decode (cs : list ascii) : list Byte.byte := octets (sextets cs).

Definition to_string (bs : list Byte.byte) : string :=
  string_of_list_ascii (encode bs).

Definition of_string (text : string) : list Byte.byte :=
  decode (list_ascii_of_string text).

End Base64.

(** ** Glob patterns of the Redis [KEYS] command *)

Module Glob.

Inductive token : Type :=
  | Star
  | AnyChar
  | Literal (c : ascii)
  | Class (negated : bool) (ranges : list (ascii * ascii)).

(** The pattern is read left to right; [inside] holds the bracket class
    being collected, if any.  Inside a class a backslash quotes the next
    character, [a-b] is a range, and a class the pattern never closes ends
    with the pattern. *)
Fixpoint scan (inside : option (bool * list (ascii * ascii))) (p : list ascii)
  : list token :=
  match inside with
  | None =>
      match p with
      | [] => []
      | "*"%char :: rest => Star :: scan None rest
      | "?"%char :: rest => AnyChar :: scan None rest
      | "["%char :: "^"%char :: rest => scan (Some (true, [])) rest
      | "["%char :: rest => scan (Some (false, [])) rest
      | "\"%char :: c :: rest => Literal c :: scan None rest
      | c :: rest => Literal c :: scan None rest
      end
  | Some (negated, ranges) =>
      match p with
      | [] => [Class negated ranges]
      | "\"%char :: c :: rest => scan (Some (negated, ranges ++ [(c, c)])) rest
      | "]"%char :: rest => Class negated ranges :: scan None rest
      | a :: "-"%char :: b :: rest => scan (Some (negated, ranges ++ [(a, b)])) rest
      | a :: rest => scan (Some (negated, ranges ++ [(a, a)])) rest
      end
  end.

Definition in_range (c : ascii) (r : ascii * ascii) : bool :=
  let lo := Z.min (JS.code (fst r)) (JS.code (snd r)) in
  let hi := Z.max (JS.code (fst r)) (JS.code (snd r)) in
  (lo <=? JS.code c) && (JS.code c <=? hi).

Fixpoint matches (ts : list token) : list ascii -> bool :=
  match ts with
  | [] => fun s => match s with [] => true | _ => false end
  | Star :: ts' =>
      fix star (s : list ascii) : bool :=
        matches ts' s || match s with [] => false | _ :: s' => star s' end
  | AnyChar :: ts' =>
      fun s => match s with [] => false | _ :: s' => matches ts' s' end
  | Literal c :: ts' =>
      fun s => match s with
               | [] => false
               | c' :: s' => Ascii.eqb c c' && matches ts' s'
               end
  | Class negated ranges :: ts' =>
      fun s => match s with
               | [] => false
               | c' :: s' =>
                   xorb negated (existsb (in_range c') ranges) && matches ts' s'
               end
  end.

Definition glob (pattern key : string) : bool :=
  matches (scan None (list_ascii_of_string pattern)) (list_ascii_of_string key).

End Glob.

(** ** The world the service runs in *)

Module Runtime.

Definition buffer : Type := list Byte.byte.

Inductive step : Type :=
  | Succeeds
  | Fails (message : JS.error).

(** How the headless browser behaves during one request: the outcome of each
    call the service makes on it, the selector poll being asked once per
    attempt. *)
Record browser : Type := Browser {
  on_launch : step;
  on_newPage : step;
  on_setViewport : step;
  on_networkidle0 : step;
  on_domcontentloaded : step;
  on_waitForSelector : nat -> step;
  on_screenshot : buffer + JS.error;
  on_close : step }.

Inductive event : Type :=
  | Ping (ok : bool)
  | Get (key : string) (ok : bool)
  | SetEx (key : string) (ttl : Z) (text : string) (ok : bool)
  | Keys (pattern : string) (ok : bool)
  | Del (keys : list string) (ok : bool)
  | Connect (ok : bool)
  | Disconnect (ok : bool)
  | Launch (ok : bool)
  | NewPage (ok : bool)
  | SetViewport (width height : Z) (ok : bool)
  | SetContent (waitUntil : string) (timeout : Z) (ok : bool)
  | WaitForSelector (selector : string) (timeout : Z) (ok : bool)
  | Sleep (ms : Z)
  | Screenshot (ok : bool)
  | Close (ok : bool).

(** The Redis server ([store]: key to text and expiry instant, in
    milliseconds), the clock, the fault the Redis client raises on its n-th
    call if any ([faults], [calls]), the browser and the number of selector
    polls it has answered, and the calls made so far.  The clock moves only
    when the code sleeps: a call to Redis or to the browser takes no time
    here, so the instant of a call is the clock of the world it runs in. *)
Record world : Type := World {
  store : gmap string (string * Z);
  clock : Z;
  faults : nat -> option JS.error;
  calls : nat;
  chromium : browser;
  polls : nat;
  trace : list event }.

Definition log (e : event) (w : world) : world :=
  World (store w) (clock w) (faults w) (calls w) (chromium w) (polls w)
        (trace w ++ [e]).

Definition tick (w : world) : world :=
  World (store w) (clock w) (faults w) (S (calls w)) (chromium w) (polls w)
        (trace w).

Definition with_store (f : gmap string (string * Z) -> gmap string (string * Z))
    (w : world) : world :=
  World (f (store w)) (clock w) (faults w) (calls w) (chromium w) (polls w)
        (trace w).

Definition advance (ms : Z) (w : world) : world :=
  World (store w) (clock w + ms) (faults w) (calls w) (chromium w) (polls w)
        (trace w).

Definition polled (w : world) : world :=
  World (store w) (clock w) (faults w) (calls w) (chromium w) (S (polls w))
        (trace w).

(** An [async] function: it runs on the world and completes or throws. *)
Definition M (A : Type) : Type := world -> JS.completion A * world.

#[global] Instance M_ret : MRet M := fun A a w => (JS.Return a, w).

#[global] Instance M_bind : MBind M := fun A B f m w =>
  match m w with
  | (JS.Return a, w') => f a w'
  | (JS.Throw e, w') => (JS.Throw e, w')
  | (JS.OutOfFuel, w') => (JS.OutOfFuel, w')
  end.

Definition throw {A : Type} (e : JS.error) : M A := fun w => (JS.Throw e, w).

Definition out_of_fuel {A : Type} : M A := fun w => (JS.OutOfFuel, w).

Definition lift {A : Type} (c : JS.completion A) : M A := fun w => (c, w).

(** [try { body } catch (e) { handler }]. *)
Definition try_catch {A : Type} (body : M A) (handler : JS.error -> M A) : M A :=
  fun w =>
    match body w with
    | (JS.Throw e, w') => handler e w'
    | other => other
    end.

(** [try { body } finally { cleanup }]. *)
Definition try_finally {A : Type} (body : M A) (cleanup : M unit) : M A :=
  fun w =>
    let '(r, w') := body w in
    match cleanup w' with
    | (JS.Return _, w'') => (r, w'')
    | (JS.Throw e, w'') => (JS.Throw e, w'')
    | (JS.OutOfFuel, w'') => (JS.OutOfFuel, w'')
    end.

(** [await new Promise(resolve => setTimeout(resolve, ms))]. *)
Definition sleep (ms : Z) : M unit :=
  fun w => (JS.Return tt, log (Sleep ms) (advance ms w)).

(** *** The Redis client *)

Definition client {A : Type} (ev : bool -> event) (run : world -> A * world)
  : M A :=
  fun w =>
    match faults w (calls w) with
    | Some e => (JS.Throw e, log (ev false) (tick w))
    | None => let '(a, w') := run w in (JS.Return a, log (ev true) (tick w'))
    end.

Definition live (w : world) (key : string) : option string :=
  match store w !! key with
  | Some (text, deadline) => if clock w <? deadline then Some text else None
  | None => None
  end.

Definition client_connect : M unit := client Connect (fun w => (tt, w)).
Definition client_disconnect : M unit := client Disconnect (fun w => (tt, w)).
Definition client_ping : M unit := client Ping (fun w => (tt, w)).

Definition client_get (key : string) : M (option string) :=
  client (Get key) (fun w => (live w key, w)).

(** [SETEX key ttl text]: the entry expires [ttl] seconds after the instant
    of this call. *)
Definition client_setEx (key : string) (ttl : Z) (text : string) : M unit :=
  client (SetEx key ttl text)
         (fun w => (tt, with_store (insert key (text, clock w + 1000 * ttl)) w)).

(** The keys [KEYS pattern] answers with. *)
Definition matching (pattern : string) (w : world) : list string :=
  filter (fun k => Glob.glob pattern k = true /\ is_Some (live w k))
         (map fst (map_to_list (store w))).

Definition client_keys (pattern : string) : M (list string) :=
  client (Keys pattern) (fun w => (matching pattern w, w)).

Definition client_del (keys : list string) : M unit :=
  client (Del keys) (fun w => (tt, with_store (fun m => foldr delete m keys) w)).

(** *** Puppeteer *)

Definition call (ev : bool -> event) (outcome : step) : M unit :=
  fun w =>
    match outcome with
    | Succeeds => (JS.Return tt, log (ev true) w)
    | Fails e => (JS.Throw e, log (ev false) w)
    end.

(** [puppeteer.launch(options)].  The options (executable, flags) are not
    modelled: the outcome is [on_launch] of the world's browser, whichever
    generator launches it. *)
Definition puppeteer_launch : M unit :=
  fun w => call Launch (on_launch (chromium w)) w.

Definition browser_newPage : M unit :=
  fun w => call NewPage (on_newPage (chromium w)) w.

Definition browser_close : M unit :=
  fun w => call Close (on_close (chromium w)) w.

Definition page_setViewport (width height : Z) : M unit :=
  fun w => call (SetViewport width height) (on_setViewport (chromium w)) w.

(** [page.setContent(html, { waitUntil, timeout })].  The outcome is chosen
    by [waitUntil] alone; the [timeout] is recorded in the event and has no
    part in the outcome. *)
Definition page_setContent (waitUntil : string) (timeout : Z) : M unit :=
  fun w =>
    call (SetContent waitUntil timeout)
         (if String.eqb waitUntil "networkidle0"
          then on_networkidle0 (chromium w)
          else on_domcontentloaded (chromium w)) w.

Definition page_waitForSelector (selector : string) (timeout : Z) : M unit :=
  fun w =>
    call (WaitForSelector selector timeout)
         (on_waitForSelector (chromium w) (polls w)) (polled w).

Definition page_screenshot : M buffer :=
  fun w =>
    match on_screenshot (chromium w) with
    | inl png => (JS.Return png, log (Screenshot true) w)
    | inr e => (JS.Throw e, log (Screenshot false) w)
    end.

End Runtime.

(** ** [class RedisService] *)

Module RedisService.
Import Runtime.

Definition connect : M unit :=
  try_catch client_connect (fun e => throw e).

Definition disconnect : M unit :=
  try_catch client_disconnect (fun _ => mret tt).

Definition get (key : string) : M (option buffer) :=
  try_catch
    (result ← client_get key;
     mret (match result with
           | Some text =>
               if JS.truthy (JS.VStr text) then Some (Base64.of_string text)
               else None
           | None => None
           end))
    (fun _ => mret None).

Definition set (key : string) (value : buffer) (ttlSeconds : Z) : M unit :=
  try_catch
    (let base64Value := Base64.to_string value in
     client_setEx key ttlSeconds base64Value)
    (fun _ => mret tt).

Definition del (key : string) : M unit :=
  try_catch (client_del [key]) (fun _ => mret tt).

Definition delPattern (pattern : string) : M unit :=
  try_catch
    (keys ← client_keys pattern;
     if (0 <? length keys)%nat then client_del keys else mret tt)
    (fun _ => mret tt).

Definition isAvailable : M bool :=
  try_catch (client_ping;; mret true) (fun _ => mret false).

End RedisService.

(** ** [class ChartGeneratorService] (the caching variant) *)

Module ChartGeneratorService.
Import Runtime.

(** [type Theme = 'light' | 'dark' | 'custom'].  Chart types stay strings:
    [mapCustomChartType] and the palettes look them up by name and provide
    for names outside [CustomChartType]. *)
Inductive Theme : Type := light | dark | custom.

Definition theme_name (t : Theme) : string :=
  match t with
  | light => "light"
  | dark => "dark"
  | custom => "custom"
  end.

(** The argument of [generateChart]: every field may be left out. *)
Record RequestOptions : Type := {
  req_width : option Z;
  req_height : option Z;
  req_theme : option Theme;
  req_title : option string;
  req_backgroundColor : option string }.

(** The options after destructuring with defaults. *)
Record Options : Type := {
  width : Z;
  height : Z;
  theme : Theme;
  title : option string;
  backgroundColor : string }.

#[global] Instance completion_ret : MRet JS.completion := fun A a => JS.Return a.

#[global] Instance completion_bind : MBind JS.completion := fun A B f c =>
  match c with
  | JS.Return a => f a
  | JS.Throw e => JS.Throw e
  | JS.OutOfFuel => JS.OutOfFuel
  end.

(** [throw new TypeError(message)]: only the message travels on. *)
Definition type_error {A : Type} (message : string) : JS.completion A :=
  JS.Throw message.

(** [v.key] for the property names the service reads ([labels], [datasets],
    [backgroundColor], [borderColor], [borderWidth]): only objects own such
    properties, and reading any property of [undefined] or [null] throws. *)
Definition member (v : JS.value) (key : string) : JS.completion JS.value :=
  match v with
  | JS.VUndefined =>
      type_error ("Cannot read properties of undefined (reading '" +:+ key +:+ "')")
  | JS.VNull =>
      type_error ("Cannot read properties of null (reading '" +:+ key +:+ "')")
  | JS.VObj props => JS.Return (JS.get props key)
  | _ => JS.Return (JS.get [] key)
  end.

(** [{ ...v }]: the own enumerable properties of [v].  An array and a string
    spread into their indices (a string by UTF-16 unit, here by byte). *)
Definition spread (v : JS.value) : JS.object :=
  match v with
  | JS.VObj props => props
  | JS.VArr items => imap (fun i x => (pretty i, x)) items
  | JS.VStr s =>
      imap (fun i c => (pretty i, JS.VStr (String c ""))) (list_ascii_of_string s)
  | _ => []
  end.

Definition object_of_options (options : Options) : JS.value :=
  JS.VObj [ ("width", JS.VNum (width options));
            ("height", JS.VNum (height options));
            ("theme", JS.VStr (theme_name (theme options)));
            ("title", match title options with
                      | Some t => JS.VStr t
                      | None => JS.VUndefined
                      end);
            ("backgroundColor", JS.VStr (backgroundColor options)) ].

Definition generateCacheKey (chartType : string) (data : JS.value)
    (options : Options) : string :=
  let dataHash :=
    MD5.hex (default ""
               (JS.stringify (JS.VObj [ ("data", data);
                                        ("options", object_of_options options) ]))) in
  "chart_cache:" +:+ chartType +:+ ":" +:+ JS.number_to_string (width options)
    +:+ ":" +:+ JS.number_to_string (height options)
    +:+ ":" +:+ theme_name (theme options) +:+ ":" +:+ dataHash.

Definition typeMap : JS.object :=
  [ ("line", JS.VStr "line"); ("bar", JS.VStr "bar"); ("pie", JS.VStr "pie");
    ("doughnut", JS.VStr "doughnut"); ("radar", JS.VStr "radar");
    ("polarArea", JS.VStr "polarArea"); ("scatter", JS.VStr "scatter");
    ("bubble", JS.VStr "bubble"); ("mixed", JS.VStr "line") ].

Definition mapCustomChartType (customType : string) : JS.value :=
  JS.or_else (JS.get typeMap customType) (JS.VStr "line").

Definition chartTypes : list string :=
  [ "line"; "bar"; "pie"; "doughnut"; "radar"; "polarArea"; "scatter";
    "bubble"; "mixed" ].

Definition light_palette : JS.value :=
  JS.VArr (map JS.VStr
             [ "#3b82f6"; "#ef4444"; "#10b981"; "#f59e0b"; "#8b5cf6"; "#ec4899" ]).

Definition dark_palette : JS.value :=
  JS.VArr (map JS.VStr
             [ "#60a5fa"; "#f87171"; "#34d399"; "#fbbf24"; "#a78bfa"; "#f472b6" ]).

(** [colorPalettes[theme]]: the table has no entry for [custom]. *)
Definition colorPalettes (t : Theme) : option JS.object :=
  match t with
  | light => Some (map (fun chartType => (chartType, light_palette)) chartTypes)
  | dark => Some (map (fun chartType => (chartType, dark_palette)) chartTypes)
  | custom => None
  end.

Definition getBackgroundColors (providedColors : JS.value) (chartType : string)
    (t : Theme) : JS.completion JS.value :=
  if JS.truthy providedColors then JS.Return providedColors
  else
    match colorPalettes t with
    | None =>
        type_error ("Cannot read properties of undefined (reading '"
                      +:+ chartType +:+ "')")
    | Some palettes =>
        JS.Return (JS.or_else (JS.get palettes chartType) (JS.get palettes "line"))
    end.

Definition getBorderColors (providedColors : JS.value) (chartType : string)
    (t : Theme) : JS.completion JS.value :=
  if JS.truthy providedColors then JS.Return providedColors
  else getBackgroundColors JS.VUndefined chartType t.

(** [getScaleOptions]: the axes and their tick and grid colours. *)
Record ScaleOptions : Type := {
  axes : list string;
  tickColor : string;
  gridColor : string }.

Definition getScaleOptions (chartType : string) (t : Theme) : ScaleOptions :=
  let textColor := match t with dark => "#ffffff" | _ => "#000000" end in
  let gridColor := match t with dark => "#374151" | _ => "#e5e7eb" end in
  if String.eqb chartType "radar"
  then {| axes := ["r"]; tickColor := textColor; gridColor := gridColor |}
  else {| axes := ["x"; "y"]; tickColor := textColor; gridColor := gridColor |}.

(** The configuration handed to [new Chart]; the constant entries
    ([responsive], fonts, point and line elements) are left out. *)
Record ChartJsConfig : Type := {
  type : JS.value;
  labels : JS.value;
  datasets : list JS.object;
  legend_display : bool;
  legend_color : string;
  title_display : bool;
  title_text : option string;
  scales : ScaleOptions }.

(** The callback of [data.datasets.map]. *)
Definition resolveDataset (chartType : string) (t : Theme) (dataset : JS.value)
  : JS.completion JS.object :=
  provided ← member dataset "backgroundColor";
  background ← getBackgroundColors provided chartType t;
  provided ← member dataset "borderColor";
  border ← getBorderColors provided chartType t;
  borderWidth ← member dataset "borderWidth";
  mret (JS.set (JS.set (JS.set (spread dataset) "backgroundColor" background)
                       "borderColor" border)
               "borderWidth" (JS.or_else borderWidth (JS.VNum 2))).

Fixpoint mapM {A B : Type} (f : A -> JS.completion B) (xs : list A)
  : JS.completion (list B) :=
  match xs with
  | [] => JS.Return []
  | x :: rest => y ← f x; ys ← mapM f rest; mret (y :: ys)
  end.

Definition createChartJsConfig (chartType : string) (data : JS.value)
    (options : Options) : JS.completion ChartJsConfig :=
  let type := mapCustomChartType chartType in
  labels ← member data "labels";
  datasets ← member data "datasets";
  match datasets with
  | JS.VArr items =>
      resolved ← mapM (resolveDataset chartType (theme options)) items;
      mret {| type := type;
              labels := JS.or_else labels (JS.VArr []);
              datasets := resolved;
              legend_display := (1 <? length items)%nat;
              legend_color := match theme options with
                              | dark => "#ffffff"
                              | _ => "#000000"
                              end;
              title_display := match title options with
                               | Some t => JS.truthy (JS.VStr t)
                               | None => false
                               end;
              title_text := title options;
              scales := getScaleOptions chartType (theme options) |}
  | JS.VUndefined =>
      type_error "Cannot read properties of undefined (reading 'map')"
  | JS.VNull => type_error "Cannot read properties of null (reading 'map')"
  | _ => type_error "data.datasets.map is not a function"
  end.

(** The generated page: the template is fixed, these are its holes. *)
Record Html : Type := {
  html_config : ChartJsConfig;
  html_width : Z;
  html_height : Z;
  html_background : string }.

Definition generateHtmlContent (chartConfig : ChartJsConfig) (options : Options)
  : Html :=
  {| html_config := chartConfig;
     html_width := width options;
     html_height := height options;
     html_background := backgroundColor options |}.

Fixpoint includes (hay needle : string) : bool :=
  String.prefix needle hay
  || match hay with
     | EmptyString => false
     | String _ rest => includes rest needle
     end.

(** The [catch] clause of [generateChart]. *)
Definition describe (message : JS.error) : JS.error :=
  if includes message "Target closed"
  then "Browser target closed unexpectedly. This may be due to resource constraints or timeout."
  else if includes message "Protocol error"
  then "Browser protocol error. The browser instance may have crashed."
  else "Chart generation failed: " +:+ message.

Definition maxRetries : nat := 3.

(** [while (!chartRendered && retryCount < maxRetries) { ... }]. *)
Fixpoint waitForChart (fuel : nat) (chartRendered : bool) (retryCount : nat)
  : M unit :=
  if negb chartRendered && (retryCount <? maxRetries)%nat then
    match fuel with
    | O => out_of_fuel
    | S fuel' =>
        '(chartRendered', retryCount') ←
          try_catch
            (page_waitForSelector "#chart-container canvas" 5000;;
             mret (true, retryCount))
            (fun _ =>
               let retryCount := S retryCount in
               if (maxRetries <=? retryCount)%nat
               then throw ("Failed to render chart after " +:+ pretty maxRetries
                             +:+ " attempts")
               else sleep 1000;; mret (chartRendered, retryCount));
        waitForChart fuel' chartRendered' retryCount'
    end
  else mret tt.

(** The cache lookup that opens [generateChart]. *)
Definition lookup (cacheKey : string) : M (option buffer) :=
  try_catch
    (redisAvailable ← RedisService.isAvailable;
     if (redisAvailable : bool) then RedisService.get cacheKey
     else (mret None : M (option buffer)))
    (fun _ =>
       try_catch (RedisService.disconnect;; RedisService.connect)
                 (fun _ => mret tt);;
       mret None).

(** The cache write that follows the screenshot. *)
Definition remember (cacheKey : string) (screenshotBuffer : buffer) : M unit :=
  try_catch
    (redisAvailable ← RedisService.isAvailable;
     if (redisAvailable : bool) then RedisService.set cacheKey screenshotBuffer 3600
     else (mret tt : M unit))
    (fun _ =>
       try_catch
         (RedisService.disconnect;; RedisService.connect;;
          RedisService.set cacheKey screenshotBuffer 3600)
         (fun _ => mret tt)).

(** The [try] block up to and including [puppeteer.launch]: the logger call
    evaluates [data.datasets.length] first, which throws when [data] or
    [data.datasets] is [undefined] or [null]; the length itself is only
    logged. *)
Definition launch (data : JS.value) : M unit :=
  lift (datasets ← member data "datasets"; member datasets "length");;
  puppeteer_launch.

(** [{ width, height, theme, ...(title && { title }), backgroundColor }]: an
    empty title is dropped. *)
Definition titled (options : Options) : Options :=
  {| width := width options; height := height options; theme := theme options;
     title := match title options with
              | Some t => if JS.truthy (JS.VStr t) then Some t else None
              | None => None
              end;
     backgroundColor := backgroundColor options |}.

(** The [try] block after the launch. *)
Definition render (chartType : string) (data : JS.value) (options : Options)
    (cacheKey : string) : M buffer :=
  browser_newPage;;
  try_catch (page_setViewport (width options) (height options))
            (fun _ => mret tt);;
  chartJsConfig ← lift (createChartJsConfig chartType data (titled options));
  let htmlContent := generateHtmlContent chartJsConfig options in
  try_catch (page_setContent "networkidle0" 15000)
            (fun _ => page_setContent "domcontentloaded" 10000);;
  waitForChart maxRetries false 0;;
  screenshotBuffer ←
    try_catch page_screenshot
              (fun message => throw ("Screenshot failed: " +:+ message));
  remember cacheKey screenshotBuffer;;
  mret screenshotBuffer.

(** [let browser; try { ... } catch (error) { ... } finally { ... }]: the
    browser is assigned by the launch, so a failure before or in the launch
    leaves [finally] with nothing to close. *)
Definition engine (chartType : string) (data : JS.value) (options : Options)
    (cacheKey : string) : M buffer :=
  fun w =>
    match launch data w with
    | (JS.Return browser, w') =>
        try_finally
          (try_catch (render chartType data options cacheKey)
                     (fun message => throw (describe message)))
          (try_catch browser_close (fun _ => mret tt)) w'
    | (JS.Throw message, w') => throw (describe message) w'
    | (JS.OutOfFuel, w') => (JS.OutOfFuel, w')
    end.

Definition resolve (options : RequestOptions) : Options :=
  let width := default 800 (req_width options) in
  let height := default 600 (req_height options) in
  let theme := default light (req_theme options) in
  let title := req_title options in
  let backgroundColor :=
    default (match theme with dark => "#1a1a1a" | _ => "#ffffff" end)
            (req_backgroundColor options) in
  {| width := width; height := height; theme := theme; title := title;
     backgroundColor := backgroundColor |}.

Definition generateChart (chartType : string) (data : JS.value)
    (options : RequestOptions) : M buffer :=
  let resolved := resolve options in
  let cacheKey := generateCacheKey chartType data resolved in
  cachedChart ← lookup cacheKey;
  match cachedChart with
  | Some cached => mret cached
  | None => engine chartType data resolved cacheKey
  end.

Definition invalidateChartCache (chartHash : string) : M unit :=
  try_catch
    (let pattern := "chart_cache:*:*:*:*:*" +:+ chartHash +:+ "*" in
     RedisService.delPattern pattern)
    (fun _ => mret tt).

Definition invalidateAllCache : M unit :=
  try_catch
    (let pattern := "chart_cache:*" in RedisService.delPattern pattern)
    (fun _ => mret tt).

End ChartGeneratorService.

(** ** Observing a run *)

Module Observe.
Import Runtime.

(** What [RedisService.get] finds under a key when the read goes through. *)
Definition cached (w : world) (key : string) : option buffer :=
  match live w key with
  | Some text =>
      if JS.truthy (JS.VStr text) then Some (Base64.of_string text) else None
  | None => None
  end.

(** [c] leaves the browser and the fault schedule alone and appends to the
    trace only events that are [allowed]. *)
Definition emits {A : Type} (allowed : event -> Prop) (c : M A) : Prop :=
  forall w,
    chromium (snd (c w)) = chromium w
    /\ faults (snd (c w)) = faults w
    /\ exists evs, trace (snd (c w)) = trace w ++ evs /\ Forall allowed evs.

(** [c] never throws. *)
Definition total {A : Type} (c : M A) : Prop :=
  forall w e, fst (c w) <> JS.Throw e.

(** [c] ends: it does not run out of fuel. *)
Definition halts {A : Type} (c : M A) : Prop :=
  forall w, fst (c w) <> JS.OutOfFuel.

Definition cache_io (e : event) : bool :=
  match e with
  | Ping _ | Get _ _ | SetEx _ _ _ _ | Keys _ _ | Del _ _ => true
  | _ => false
  end.

Definition reconnect (e : event) : bool :=
  match e with
  | Connect _ | Disconnect _ => true
  | _ => false
  end.

Definition page_io (e : event) : bool :=
  match e with
  | NewPage _ | SetViewport _ _ _ | SetContent _ _ _ | WaitForSelector _ _ _
  | Sleep _ | Screenshot _ => true
  | _ => false
  end.

Definition engine_io (e : event) : bool := page_io e || cache_io e.

(** Events that neither start a browser process nor close one. *)
Definition process_free (e : event) : bool :=
  match e with
  | Launch true | Close _ => false
  | _ => true
  end.

(** Whether [browser.close()] ends the process of this browser: it does
    unless the call rejects. *)
Definition released (b : browser) : bool :=
  match on_close b with
  | Succeeds => true
  | Fails _ => false
  end.

Definition is_poll (e : event) : bool :=
  match e with
  | WaitForSelector _ _ _ => true
  | _ => false
  end.

Definition timeout_message : JS.error := "Failed to render chart after 3 attempts".

Definition poll (ok : bool) : event :=
  WaitForSelector "#chart-container canvas" 5000 ok.

(** What [generateChartHash] of [routes/charts.ts] produces
    ([crypto.randomBytes(16).toString('hex')]): 32 hexadecimal digits. *)
Definition hex_char (c : ascii) : bool :=
  existsb (Ascii.eqb c) (list_ascii_of_string "0123456789abcdef").

Definition is_chart_hash (h : string) : bool :=
  (String.length h =? 32)%nat && forallb hex_char (list_ascii_of_string h).

(** The stretches of [n] characters of a text (shorter ones at its end). *)
Fixpoint windows (n : nat) (s : list ascii) : list (list ascii) :=
  take n s :: match s with
              | [] => []
              | _ :: rest => windows n rest
              end.

(** Three polls that fail, one second apart. *)
Definition three_polls : list event :=
  [poll false; Sleep 1000; poll false; Sleep 1000; poll false].

(** The world after one poll of the canvas selector, and after the pause
    between two polls. *)
Definition polled_once (ok : bool) (w : world) : world := log (poll ok) (polled w).

Definition paused (w : world) : world := log (Sleep 1000) (advance 1000 w).

End Observe.

(** ** Sample requests *)

Module Samples.
Import Runtime ChartGeneratorService.

Definition sales : JS.value :=
  JS.VObj [ ("label", JS.VStr "Sales"); ("data", JS.VArr [JS.VNum 10; JS.VNum 20]) ].

Definition costs : JS.value :=
  JS.VObj [ ("label", JS.VStr "Costs"); ("data", JS.VArr [JS.VNum 7; JS.VNum 9]) ].

Definition months : JS.value := JS.VArr [JS.VStr "Jan"; JS.VStr "Feb"].

(** [{labels: [...], datasets: [...]}] and the same object with its two
    properties written in the other order. *)
Definition bar_data : JS.object :=
  [ ("labels", months); ("datasets", JS.VArr [sales]) ].

Definition bar_data_reordered : JS.object :=
  [ ("datasets", JS.VArr [sales]); ("labels", months) ].

Definition two_series : JS.value :=
  JS.VObj [ ("labels", months); ("datasets", JS.VArr [sales; costs]) ].

Definition light_800_600 : Options :=
  {| width := 800; height := 600; theme := light; title := None;
     backgroundColor := "#ffffff" |}.

Definition request_800_600 : RequestOptions :=
  {| req_width := Some 800; req_height := Some 600; req_theme := Some light;
     req_title := None; req_backgroundColor := None |}.

Definition png : buffer := [Byte.x89; Byte.x50; Byte.x4e; Byte.x47].

(** A browser that does everything asked of it. *)
Definition healthy : browser :=
  {| on_launch := Succeeds; on_newPage := Succeeds; on_setViewport := Succeeds;
     on_networkidle0 := Succeeds; on_domcontentloaded := Succeeds;
     on_waitForSelector := fun _ => Succeeds; on_screenshot := inl png;
     on_close := Succeeds |}.

(** A browser in which the canvas never shows up. *)
Definition blank : browser :=
  {| on_launch := Succeeds; on_newPage := Succeeds; on_setViewport := Succeeds;
     on_networkidle0 := Succeeds; on_domcontentloaded := Succeeds;
     on_waitForSelector := fun _ => Fails "TimeoutError: waiting for selector";
     on_screenshot := inl png; on_close := Succeeds |}.

(** A browser whose screenshot fails. *)
Definition shutterless : browser :=
  {| on_launch := Succeeds; on_newPage := Succeeds; on_setViewport := Succeeds;
     on_networkidle0 := Succeeds; on_domcontentloaded := Succeeds;
     on_waitForSelector := fun _ => Succeeds;
     on_screenshot := inr "Protocol error (Page.captureScreenshot): Target closed";
     on_close := Fails "Protocol error: Connection closed" |}.

Definition custom_800_600 : RequestOptions :=
  {| req_width := Some 800; req_height := Some 600; req_theme := Some custom;
     req_title := None; req_backgroundColor := None |}.

(** An empty Redis whose client never fails, raises [ECONNREFUSED] on every
    call, or fails on its second call only. *)
Definition fresh (b : browser) : world :=
  {| store := ∅; clock := 0; faults := fun _ => None; calls := 0;
     chromium := b; polls := 0; trace := [] |}.

Definition unreachable (b : browser) : world :=
  {| store := ∅; clock := 0; faults := fun _ => Some "ECONNREFUSED"; calls := 0;
     chromium := b; polls := 0; trace := [] |}.

Definition flaky (b : browser) : world :=
  {| store := ∅; clock := 0;
     faults := fun n => if (n =? 1)%nat then Some "ECONNRESET" else None;
     calls := 0; chromium := b; polls := 0; trace := [] |}.

End Samples.

(** ** [class ChartGeneratorService] before caching

    [services/chartGenerator.ts]: the same page and the same configuration,
    rendered without Redis and without any of the retries. *)

Module Uncached.
Import Runtime ChartGeneratorService.

(** The [try] block after the launch.  [setContent] is given no timeout and
    runs under Puppeteer's default of 30 seconds. *)
Definition render (chartType : string) (data : JS.value) (options : Options)
  : M buffer :=
  browser_newPage;;
  page_setViewport (width options) (height options);;
  chartJsConfig ← lift (createChartJsConfig chartType data (titled options));
  let htmlContent := generateHtmlContent chartJsConfig options in
  page_setContent "networkidle0" 30000;;
  page_waitForSelector "#chart-container canvas" 10000;;
  screenshotBuffer ← page_screenshot;
  mret screenshotBuffer.

(** The [catch] clause.  What the [try] block throws is an [Error] with its
    message (Puppeteer's errors, a [TypeError]), so the branch for other
    values is not taken. *)
Definition describe (message : JS.error) : JS.error :=
  "Chart generation failed: " +:+ message.

(** [finally { if (browser) { await browser.close(); } }]: nothing catches
    what [close] throws. *)
Definition generateChart (chartType : string) (data : JS.value)
    (options : RequestOptions) : M buffer :=
  fun w =>
    let resolved := resolve options in
    match launch data w with
    | (JS.Return browser, w') =>
        try_finally
          (try_catch (render chartType data resolved)
                     (fun message => throw (describe message)))
          browser_close w'
    | (JS.Throw message, w') => throw (describe message) w'
    | (JS.OutOfFuel, w') => (JS.OutOfFuel, w')
    end.

End Uncached.

(** ** [PUT /:hash] of [routes/charts.ts]: the [UPDATE] statement *)

Module Routes.

(** The body of an update request: a field the request leaves out is
    [undefined]. *)
Record UpdateChartRequest : Type := {
  title : JS.value;
  description : JS.value;
  data : JS.value;
  chartConfig : JS.value;
  width : JS.value;
  height : JS.value;
  theme : JS.value;
  isPublic : JS.value;
  expiresAt : JS.value }.

(** What is passed for a placeholder: a value as it is, the text
    [JSON.stringify] makes of one, [new Date(v)] or [new Date()]. *)
Inductive parameter : Type :=
  | Plain (v : JS.value)
  | Json (text : option string)
  | DateOf (v : JS.value)
  | Now.

(** [v !== undefined]. *)
Definition defined (v : JS.value) : bool :=
  match v with
  | JS.VUndefined => false
  | _ => true
  end.

Record builder : Type := {
  updateFields : list string;
  updateValues : list parameter;
  paramCount : nat }.

(** [if (v !== undefined) { updateFields.push(`column = $${paramCount}`);
    updateValues.push(bound); paramCount++; }]. *)
Definition assign (column : string) (v : JS.value) (bound : parameter)
    (b : builder) : builder :=
  if defined v then
    {| updateFields := updateFields b ++ [column +:+ " = $" +:+ pretty (paramCount b)];
       updateValues := updateValues b ++ [bound];
       paramCount := S (paramCount b) |}
  else b.

(** The statement handed to [databaseService.query]: the template is fixed,
    these are its holes ([SET ...] and [WHERE chart_hash = $...]) and its
    parameters. *)
Record statement : Type := {
  set_clause : list string;
  where_placeholder : nat;
  parameters : list parameter }.

Definition updateStatement (requestData : UpdateChartRequest) (hash : string)
  : statement :=
  let b := {| updateFields := []; updateValues := []; paramCount := 1 |} in
  let b := assign "title" (title requestData) (Plain (title requestData)) b in
  let b := assign "description" (description requestData)
                  (Plain (description requestData)) b in
  let b := assign "chart_data" (data requestData)
                  (Json (JS.stringify (data requestData))) b in
  let b := assign "chart_config" (chartConfig requestData)
                  (Json (JS.stringify (chartConfig requestData))) b in
  let b := assign "width" (width requestData) (Plain (width requestData)) b in
  let b := assign "height" (height requestData) (Plain (height requestData)) b in
  let b := assign "theme" (theme requestData) (Plain (theme requestData)) b in
  let b := assign "is_public" (isPublic requestData) (Plain (isPublic requestData)) b in
  let b := assign "expires_at" (expiresAt requestData)
                  (if JS.truthy (expiresAt requestData)
                   then DateOf (expiresAt requestData)
                   else Plain JS.VNull) b in
  let updateFields := updateFields b ++ ["updated_at = $" +:+ pretty (paramCount b)] in
  let updateValues := updateValues b ++ [Now] in
  let updateValues := updateValues ++ [Plain (JS.VStr hash)] in
  {| set_clause := updateFields;
     where_placeholder := paramCount b;
     parameters := updateValues |}.

(** The fields of a builder are numbered from 1 in the order of its values. *)
Definition aligned (b : builder) : Prop :=
  length (updateValues b) = length (updateFields b)
  /\ paramCount b = S (length (updateFields b))
  /\ forall i field,
       updateFields b !! i = Some field ->
       exists column, field = column +:+ " = $" +:+ pretty (S i).

End Routes.

(** ** The authentication middleware *)

Module Middleware.

(** What a middleware does with a request: hand it on, or answer it. *)
Inductive outcome : Type :=
  | Next
  | Respond (status : Z) (error : string).

(** A header or an environment variable: a string, or [undefined]. *)
Definition text (s : option string) : JS.value :=
  match s with
  | Some s => JS.VStr s
  | None => JS.VUndefined
  end.

(** [authenticateApiKey] of [middleware/auth.ts], on [req.header('x-api-key')]
    and [process.env.API_KEY]. *)
Definition authenticateApiKey (apiKey expectedApiKey : option string) : outcome :=
  if negb (JS.truthy (text expectedApiKey))
  then Respond 500 "Server configuration error"
  else if negb (JS.truthy (text apiKey)) || negb (bool_decide (apiKey = expectedApiKey))
  then Respond 401 "Invalid or missing API key"
  else Next.

(** [s.split(sep)] for a separator of one character. *)
Fixpoint split (sep : ascii) (s : string) : list string :=
  match s with
  | EmptyString => [""]
  | String c rest =>
      if Ascii.eqb c sep then "" :: split sep rest
      else match split sep rest with
           | head :: tail => String c head :: tail
           | [] => [String c ""]
           end
  end.

(** [authHeader && authHeader.split(' ')[1]]. *)
Definition bearer (authHeader : option string) : option string :=
  match authHeader with
  | Some header =>
      if JS.truthy (JS.VStr header) then split " " header !! 1%nat else Some header
  | None => None
  end.

(** [authenticateBearerToken], on [req.headers.authorization] and
    [process.env.BEARER_TOKEN]. *)
Definition authenticateBearerToken (authHeader expectedToken : option string)
  : outcome :=
  let token := bearer authHeader in
  if negb (JS.truthy (text token)) then Respond 401 "Bearer token required"
  else if negb (JS.truthy (text expectedToken))
  then Respond 500 "Server configuration error"
  else if negb (bool_decide (token = expectedToken))
  then Respond 401 "Invalid bearer token"
  else Next.

Definition spaceless (s : string) : bool :=
  forallb (fun c => negb (Ascii.eqb c " ")) (list_ascii_of_string s).

End Middleware.

(** ** The script of the embed page *)

Module Embed.
Import ChartGeneratorService.

Definition colors : list string :=
  [ "rgba(255, 99, 132, 0.2)"; "rgba(54, 162, 235, 0.2)"; "rgba(255, 205, 86, 0.2)";
    "rgba(75, 192, 192, 0.2)"; "rgba(153, 102, 255, 0.2)"; "rgba(255, 159, 64, 0.2)" ].

Definition borderColors : list string :=
  [ "rgba(255, 99, 132, 1)"; "rgba(54, 162, 235, 1)"; "rgba(255, 205, 86, 1)";
    "rgba(75, 192, 192, 1)"; "rgba(153, 102, 255, 1)"; "rgba(255, 159, 64, 1)" ].

(** [palette[index % palette.length]]. *)
Definition pick (palette : list string) (index : nat) : JS.value :=
  match palette !! (index mod length palette)%nat with
  | Some color => JS.VStr color
  | None => JS.VUndefined
  end.

(** The callback of [chartData.datasets.forEach]: three assignments to the
    dataset. *)
Definition paint (index : nat) (dataset : JS.object) : JS.object :=
  JS.set (JS.set (JS.set dataset "backgroundColor" (pick colors index))
                 "borderColor" (pick borderColors index))
         "borderWidth" (JS.VNum 2).

(** [if (chartData.datasets && !chartData.datasets[0].backgroundColor)
    { chartData.datasets.forEach(...) }], on [chartData.datasets] as the page
    gets it: left out, or an array of dataset objects. *)
Definition defaultColors (datasets : option (list JS.object))
  : JS.completion (option (list JS.object)) :=
  match datasets with
  | None => mret None
  | Some items =>
      first ← member (match items !! 0%nat with
                      | Some dataset => JS.VObj dataset
                      | None => JS.VUndefined
                      end) "backgroundColor";
      if negb (JS.truthy first) then mret (Some (imap paint items))
      else mret (Some items)
  end.

End Embed.

(** ** What a request costs, touches and depends on *)

Module Budget.
Import Runtime Observe.

(** [w'] is reached from [w] with at most [n] polls of the canvas selector
    and at most [ms] milliseconds on the clock. *)
Definition within (n : nat) (ms : Z) (w w' : world) : Prop :=
  clock w <= clock w' <= clock w + ms
  /\ exists evs, trace w' = trace w ++ evs
                 /\ (length (filter (fun e => is_poll e = true) evs) <= n)%nat.

Definition spends {A : Type} (n : nat) (ms : Z) (c : M A) : Prop :=
  forall w, within n ms w (snd (c w)).

End Budget.

Module Footprint.
Import Runtime.

(** The events a request under [key] may leave behind: the browser's, and
    cache traffic that probes the server or reads and writes [key], the
    write for an hour. *)
Definition own_traffic (key : string) (e : event) : bool :=
  match e with
  | Get k _ => String.eqb k key
  | SetEx k ttl _ _ => String.eqb k key && (ttl =? 3600)
  | Keys _ _ | Del _ _ | Connect _ | Disconnect _ => false
  | _ => true
  end.

(** Two browsers that launch, open a page, load content, show the canvas
    and take the screenshot in the same way; they may differ in how
    [setViewport] and [close] go. *)
Definition same_page (b b' : browser) : Prop :=
  on_launch b = on_launch b'
  /\ on_newPage b = on_newPage b'
  /\ on_networkidle0 b = on_networkidle0 b'
  /\ on_domcontentloaded b = on_domcontentloaded b'
  /\ (forall attempt, on_waitForSelector b attempt = on_waitForSelector b' attempt)
  /\ on_screenshot b = on_screenshot b'.

(** Two worlds with such browsers, at the same poll; their Redis, their
    clocks and what has happened in them so far may differ. *)
Definition alike (w w' : world) : Prop :=
  same_page (chromium w) (chromium w') /\ polls w = polls w'.

(** [c] sees of the world only what [alike] worlds share. *)
Definition blind {A : Type} (c : M A) : Prop :=
  forall w w', alike w w' ->
    fst (c w) = fst (c w') /\ alike (snd (c w)) (snd (c w')).

(** A text without colon. *)
Definition plain (s : list ascii) : Prop := Forall (fun c => c <> ":"%char) s.

(** [c] leaves the store as it is. *)
Definition steady {A : Type} (c : M A) : Prop :=
  forall w, store (snd (c w)) = store w.

(** What a run from [w] may have done to the store: nothing, or, having
    returned an image, put it under [key]. *)
Definition own_write (key : string) (w : world)
    (run : JS.completion buffer * world) : Prop :=
  store (snd run) = store w
  \/ exists png deadline,
       fst run = JS.Return png
       /\ store (snd run) = <[key := (Base64.to_string png, deadline)]> (store w).

End Footprint.

Module Colours.
Import ChartGeneratorService.

(** A dataset brings both colours. *)
Definition colored (dataset : JS.value) : bool :=
  match member dataset "backgroundColor", member dataset "borderColor" with
  | JS.Return background, JS.Return border => JS.truthy background && JS.truthy border
  | _, _ => false
  end.

End Colours.

(** ** More sample requests *)

Module Cases.
Import Runtime ChartGeneratorService.

(** A dataset with a colour of its own, no border colour, and border width
    zero. *)
Definition red_costs : JS.object :=
  [ ("label", JS.VStr "Costs"); ("backgroundColor", JS.VStr "#ff0000");
    ("borderWidth", JS.VNum 0) ].

Definition styled_series : JS.value :=
  JS.VObj [ ("labels", Samples.months);
            ("datasets", JS.VArr [Samples.sales; JS.VObj red_costs]) ].

(** Chart data without datasets. *)
Definition no_datasets : JS.value := JS.VObj [ ("labels", Samples.months) ].

Definition custom_options : Options := resolve Samples.custom_800_600.

(** A browser that renders and then refuses to close. *)
Definition stuck : browser :=
  {| on_launch := Succeeds; on_newPage := Succeeds; on_setViewport := Succeeds;
     on_networkidle0 := Succeeds; on_domcontentloaded := Succeeds;
     on_waitForSelector := fun _ => Succeeds; on_screenshot := inl Samples.png;
     on_close := Fails "Protocol error: Connection closed" |}.

(** A browser that renders, but fails to set the viewport and to close. *)
Definition clumsy : browser :=
  {| on_launch := Succeeds; on_newPage := Succeeds;
     on_setViewport := Fails "Protocol error (Emulation.setDeviceMetricsOverride)";
     on_networkidle0 := Succeeds; on_domcontentloaded := Succeeds;
     on_waitForSelector := fun _ => Succeeds; on_screenshot := inl Samples.png;
     on_close := Fails "Protocol error: Connection closed" |}.

(** A browser in which only [setViewport] fails. *)
Definition fixed_size : browser :=
  {| on_launch := Succeeds; on_newPage := Succeeds;
     on_setViewport := Fails "Protocol error (Emulation.setDeviceMetricsOverride)";
     on_networkidle0 := Succeeds; on_domcontentloaded := Succeeds;
     on_waitForSelector := fun _ => Succeeds; on_screenshot := inl Samples.png;
     on_close := Succeeds |}.

Definition bar_key : string :=
  generateCacheKey "bar" (JS.VObj Samples.bar_data) (resolve Samples.request_800_600).

(** The world after one render on an empty, healthy Redis. *)
Definition rendered : world :=
  snd (generateChart "bar" (JS.VObj Samples.bar_data) Samples.request_800_600
         (Samples.fresh Samples.healthy)).

(** That world with a Redis client whose next call but one, the read that
    follows the probe, is refused. *)
Definition get_refused : world :=
  {| store := store rendered; clock := clock rendered;
     faults := fun n => if (n =? S (calls rendered))%nat then Some "ECONNRESET" else None;
     calls := calls rendered; chromium := chromium rendered; polls := polls rendered;
     trace := trace rendered |}.

(** A healthy Redis that holds the empty text under the key. *)
Definition emptied : world :=
  {| store := {[ bar_key := ("", 3600000) ]}; clock := 0; faults := fun _ => None;
     calls := 0; chromium := Samples.healthy; polls := 0; trace := [] |}.

End Cases.

(** * Properties *)

Example md5_empty : MD5.hex "" = "d41d8cd98f00b204e9800998ecf8427e".
Proof. vm_compute. reflexivity. Qed.

Example md5_abc : MD5.hex "abc" = "900150983cd24fb0d6963f7d28e17f72".
Proof. vm_compute. reflexivity. Qed.

Example md5_two_blocks :
  MD5.hex "aaaaaaaaaaaaaaaaaaaaaaaaaaaaaaaaaaaaaaaaaaaaaaaaaaaaaaaaaaaaaaaaaaaaaa"
  = "0f5c6c4e740bfcc08c3c26ccb2673d46".
Proof. vm_compute. reflexivity. Qed.

Example stringify_sample :
  JS.stringify (JS.VObj [("a", JS.VNum 1); ("t", JS.VUndefined);
                         ("b", JS.VArr [JS.VStr "x\y"; JS.VUndefined; JS.VNum (-3)])])
  = Some (String.concat (String "034" "") ["{"; "a"; ":1,"; "b"; ":["; "x\\y"; ",null,-3]}"]).
Proof. vm_compute. reflexivity. Qed.

Example base64_samples :
  map (fun s => Base64.to_string (list_byte_of_string s)) ["f"; "fo"; "foo"; "foob"]
  = ["Zg=="; "Zm8="; "Zm9v"; "Zm9vYg=="].
Proof. vm_compute. reflexivity. Qed.

Example glob_samples :
  map (Glob.glob "chart_cache:*:*:*:*:*ab*")
      ["chart_cache:bar:800:600:light:ffabff"; "chart_cache:bar:800:600:light:ffff";
       "chart_cache:bar:800:600:ab"; "x:chart_cache:a:b:c:d:ab"]
  = [true; false; false; false].
Proof. vm_compute. reflexivity. Qed.

(** ** Base64 *)

Section Base64Facts.
Import Base64.

Lemma triples_ind (A : Type) (P : list A -> Prop) :
  P [] -> (forall a, P [a]) -> (forall a b, P [a; b]) ->
  (forall a b c rest, P rest -> P (a :: b :: c :: rest)) ->
  forall l, P l.
Proof.
  intros H0 H1 H2 H3.
  fix IH 1. intros [|a [|b [|c rest]]];
    [exact H0 | apply H1 | apply H2 | apply H3, IH].
Qed.

Lemma unbase64_chr (x : Z) : 0 <= x < 64 -> unbase64 (chr x) = Some x.
Proof.
  intros Hx. rewrite <- (Z2Nat.id x) at 2 by lia.
  assert (Hn : (Z.to_nat x < 64)%nat) by lia.
  unfold chr. generalize dependent (Z.to_nat x). clear.
  intros n Hn.
  do 64 (destruct n as [|n]; [vm_compute; reflexivity|]).
  lia.
Qed.

Lemma octet_range (b : Byte.byte) : 0 <= octet b < 256.
Proof. unfold octet. pose proof (Byte.to_N_bounded b). lia. Qed.

Lemma byte_of_octet (b : Byte.byte) : byte_of (octet b) = b.
Proof.
  unfold byte_of. rewrite Z.mod_small by apply octet_range.
  unfold octet. rewrite N2Z.id, Byte.of_to_N. reflexivity.
Qed.

Lemma byte_of_eq (x : Z) (b : Byte.byte) : x = octet b -> byte_of x = b.
Proof. intros ->. apply byte_of_octet. Qed.

Lemma sextets_chr (x : Z) (rest : list ascii) :
  0 <= x < 64 -> sextets (chr x :: rest) = x :: sextets rest.
Proof. intros Hx. simpl. rewrite unbase64_chr by exact Hx. reflexivity. Qed.

Lemma sextets_pad (rest : list ascii) : sextets ("="%char :: rest) = [].
Proof. reflexivity. Qed.

Ltac sextet_arith := Z.div_mod_to_equations; lia.

(** Decoding inverts encoding, for every buffer. *)
Lemma decode_encode (bs : list Byte.byte) : decode (encode bs) = bs.
Proof.
  unfold decode. induction bs as [|a|a b|a b c rest IH] using triples_ind.
  - reflexivity.
  - pose proof (octet_range a) as Ha. cbn [encode].
    rewrite !sextets_chr, sextets_pad by sextet_arith.
    cbn [octets]. f_equal. apply byte_of_eq. sextet_arith.
  - pose proof (octet_range a) as Ha. pose proof (octet_range b) as Hb.
    cbn [encode].
    rewrite !sextets_chr, sextets_pad by sextet_arith.
    cbn [octets].
    f_equal; [|f_equal]; apply byte_of_eq; sextet_arith.
  - pose proof (octet_range a) as Ha. pose proof (octet_range b) as Hb.
    pose proof (octet_range c) as Hc. cbn [encode].
    rewrite !sextets_chr by sextet_arith.
    cbn [octets]. rewrite IH.
    f_equal; [|f_equal; [|f_equal]]; apply byte_of_eq; sextet_arith.
Qed.

Lemma of_string_to_string (bs : list Byte.byte) : of_string (to_string bs) = bs.
Proof.
  unfold of_string, to_string.
  rewrite list_ascii_of_string_of_list_ascii. apply decode_encode.
Qed.

Lemma to_string_nonempty (bs : list Byte.byte) :
  bs <> [] -> JS.truthy (JS.VStr (to_string bs)) = true.
Proof.
  destruct bs as [|a [|b [|c rest]]]; [congruence | | |]; intros _; reflexivity.
Qed.

End Base64Facts.

(** ** JavaScript objects *)

Section ObjectFacts.
Import JS.

Lemma own_property_set_eq (props : object) (key : string) (v : value) :
  own_property (set props key v) key = Some v.
Proof.
  induction props as [|[k x] rest IH]; simpl.
  - rewrite String.eqb_refl. reflexivity.
  - destruct (String.eqb_spec k key) as [->|Hne]; simpl.
    + rewrite String.eqb_refl. reflexivity.
    + rewrite (proj2 (String.eqb_neq k key) Hne). exact IH.
Qed.

Lemma own_property_set_ne (props : object) (key key' : string) (v : value) :
  key <> key' -> own_property (set props key v) key' = own_property props key'.
Proof.
  intros Hne. induction props as [|[k x] rest IH]; simpl.
  - rewrite (proj2 (String.eqb_neq key key') Hne). reflexivity.
  - destruct (String.eqb_spec k key) as [->|Hk]; simpl.
    + rewrite (proj2 (String.eqb_neq key key') Hne). reflexivity.
    + rewrite IH. reflexivity.
Qed.

Lemma get_own (props : object) (key : string) (v : value) :
  own_property props key = Some v -> get props key = v.
Proof. unfold get. intros ->. reflexivity. Qed.

End ObjectFacts.

(** ** The cache key *)

Section CacheKey.
Import ChartGeneratorService.

(** The digest is 128 bits, written as 32 hexadecimal digits. *)
Lemma md5_hex_length (text : string) : String.length (MD5.hex text) = 32%nat.
Proof.
  unfold MD5.hex, MD5.digest.
  generalize (fold_left MD5.compress
                (MD5.blocks (length (MD5.pad (MD5.bytes_of_string text)) / 64)
                            (MD5.pad (MD5.bytes_of_string text)))
                MD5.initial).
  intros st. reflexivity.
Qed.

(** The key reads [chart_cache:type:width:height:theme:digest]. *)
Lemma generateCacheKey_shape (chartType : string) (data : JS.value)
    (options : Options) :
  exists digest,
    String.length digest = 32%nat
    /\ generateCacheKey chartType data options
       = "chart_cache:" +:+ chartType +:+ ":" +:+ pretty (width options) +:+ ":"
         +:+ pretty (height options) +:+ ":" +:+ theme_name (theme options)
         +:+ ":" +:+ digest.
Proof.
  eexists. split; [apply md5_hex_length | reflexivity].
Qed.

(** C1 (as amended): [generateCacheKey] is a function of its arguments, and
    of those only through the chart type, the width, the height, the theme
    and the text [JSON.stringify] makes of [{ data, options }]: two requests
    that agree on these get the same key.  The text keeps each object's own
    property order, so nothing is promised across different orders. *)
Theorem generateCacheKey_deterministic (chartType : string)
    (data data' : JS.value) (options options' : Options) :
  width options = width options' ->
  height options = height options' ->
  theme options = theme options' ->
  JS.stringify (JS.VObj [ ("data", data); ("options", object_of_options options) ])
  = JS.stringify (JS.VObj [ ("data", data'); ("options", object_of_options options') ]) ->
  generateCacheKey chartType data options = generateCacheKey chartType data' options'.
Proof.
  intros Hw Hh Ht Htext. unfold generateCacheKey.
  rewrite Hw, Hh, Ht, Htext. reflexivity.
Qed.

(** An [undefined] property does not reach the text, hence not the key. *)
Lemma generateCacheKey_deterministic_witness :
  generateCacheKey "bar"
    (JS.VObj (Samples.bar_data ++ [("comment", JS.VUndefined)])) Samples.light_800_600
  = generateCacheKey "bar" (JS.VObj Samples.bar_data) Samples.light_800_600.
Proof.
  apply generateCacheKey_deterministic; reflexivity.
Defined.

(** C1 fails as stated: the same chart data with its two properties in the
    other order gets another key. *)
Lemma generateCacheKey_order_sensitive :
  Samples.bar_data ≡ₚ Samples.bar_data_reordered
  /\ generateCacheKey "bar" (JS.VObj Samples.bar_data) Samples.light_800_600
     = "chart_cache:bar:800:600:light:7ddfca51edc3cd6f5445f5ac882fdc13"
  /\ generateCacheKey "bar" (JS.VObj Samples.bar_data_reordered) Samples.light_800_600
     = "chart_cache:bar:800:600:light:a367de75cdcdeb8e022a74a5dc4acdd1"
  /\ generateCacheKey "bar" (JS.VObj Samples.bar_data) Samples.light_800_600
     <> generateCacheKey "bar" (JS.VObj Samples.bar_data_reordered) Samples.light_800_600.
Proof.
  split; [apply perm_swap|].
  split; [vm_compute; reflexivity|].
  split; [vm_compute; reflexivity|].
  vm_compute. discriminate.
Qed.

End CacheKey.

(** ** Chart types *)

Section ChartTypes.
Import ChartGeneratorService.

Ltac by_name customType name :=
  destruct (String.eqb_spec name customType) as [<-|?]; [vm_compute; reflexivity|].

(** C10 (as amended): [mixed] is drawn as a line chart, every other declared
    chart type as itself, and a name outside the table as a line chart too,
    unless it names a property every object inherits ([constructor],
    [toString], [__proto__] and the like): the lookup then finds the inherited
    value, which is truthy, and returns it. *)
Theorem mapCustomChartType_cases (customType : string) :
  mapCustomChartType customType =
    if String.eqb customType "mixed" then JS.VStr "line"
    else if existsb (String.eqb customType) chartTypes then JS.VStr customType
    else if existsb (String.eqb customType) JS.prototype_methods
         then JS.VFun customType
    else if String.eqb customType "__proto__" then JS.VObj []
    else JS.VStr "line".
Proof.
  by_name customType "line". by_name customType "bar". by_name customType "pie".
  by_name customType "doughnut". by_name customType "radar".
  by_name customType "polarArea". by_name customType "scatter".
  by_name customType "bubble". by_name customType "mixed".
  unfold mapCustomChartType, JS.get, typeMap, chartTypes.
  cbn [JS.own_property existsb].
  repeat match goal with
         | H : ?k <> customType |- _ =>
             rewrite (proj2 (String.eqb_neq k customType) H);
             rewrite (proj2 (String.eqb_neq customType k) (not_eq_sym H));
             clear H
         end.
  cbn [orb].
  destruct (existsb (String.eqb customType) JS.prototype_methods); [reflexivity|].
  destruct (String.eqb customType "__proto__"); reflexivity.
Qed.

(** C10 fails as stated: [constructor] is outside the table and is not
    mapped to [line]. *)
Lemma mapCustomChartType_constructor :
  ~ In "constructor" chartTypes
  /\ mapCustomChartType "constructor" = JS.VFun "constructor"
  /\ mapCustomChartType "constructor" <> JS.VStr "line".
Proof.
  split; [|split].
  - cbv [chartTypes In]. intros H. repeat destruct H as [H|H]; congruence.
  - reflexivity.
  - discriminate.
Qed.

(** The type [mapCustomChartType] answers is the one written into the
    configuration, and so into the page. *)
Lemma createChartJsConfig_type (chartType : string) (data : JS.value)
    (options : Options) (cfg : ChartJsConfig) :
  createChartJsConfig chartType data options = JS.Return cfg ->
  type (html_config (generateHtmlContent cfg options)) = mapCustomChartType chartType.
Proof.
  unfold createChartJsConfig, mbind, completion_bind. intros H.
  destruct (member data "labels"); try discriminate.
  destruct (member data "datasets") as [[| | | | |items| |]| |]; try discriminate.
  destruct (mapM _ items); try discriminate.
  injection H as <-. reflexivity.
Qed.

End ChartTypes.

(** ** Default series styling *)

Section Styling.
Import ChartGeneratorService.

Lemma mapM_lookup {A B : Type} (f : A -> JS.completion B) (xs : list A)
    (ys : list B) (i : nat) (x : A) :
  mapM f xs = JS.Return ys -> xs !! i = Some x ->
  exists y, ys !! i = Some y /\ f x = JS.Return y.
Proof.
  revert ys i. induction xs as [|x0 rest IH]; intros ys i Hm Hi; [discriminate|].
  simpl in Hm. unfold mbind, completion_bind in Hm.
  destruct (f x0) as [y0| |] eqn:Hy0; try discriminate.
  destruct (mapM f rest) as [ys0| |] eqn:Hrest; try discriminate.
  injection Hm as <-.
  destruct i as [|i]; simpl in Hi |- *.
  - injection Hi as <-. eauto.
  - eapply IH; eauto.
Qed.

Lemma palette_of_declared_type (t : Theme) (palettes : JS.object) (chartType : string) :
  colorPalettes t = Some palettes -> In chartType chartTypes ->
  JS.or_else (JS.get palettes chartType) (JS.get palettes "line")
  = match t with dark => dark_palette | _ => light_palette end.
Proof.
  intros Hp Hin. destruct t; simpl in Hp; try discriminate;
    injection Hp as <-;
    cbv [chartTypes In] in Hin;
    repeat destruct Hin as [<-|Hin]; try reflexivity; contradiction.
Qed.

Lemma member_omitted (props : JS.object) (key : string) :
  JS.own_property props key = None ->
  key = "backgroundColor" \/ key = "borderColor" \/ key = "borderWidth" ->
  member (JS.VObj props) key = JS.Return JS.VUndefined.
Proof.
  intros Hnone Hkey. unfold member, JS.get. rewrite Hnone.
  destruct Hkey as [->|[->| ->]]; reflexivity.
Qed.

(** C4 (as amended): in a configuration built for a declared chart type, a
    dataset that brings no background colour, border colour or border width
    gets, at whatever position it stands, the whole six-colour palette of the
    theme as background colour, the same palette as border colour, and
    border width 2; the theme is then light or dark, and the two palettes
    differ. *)
Theorem default_series_styling (chartType : string) (data : JS.value)
    (options : Options) (cfg : ChartJsConfig) (items : list JS.value)
    (position : nat) (props : JS.object) :
  In chartType chartTypes ->
  createChartJsConfig chartType data options = JS.Return cfg ->
  member data "datasets" = JS.Return (JS.VArr items) ->
  items !! position = Some (JS.VObj props) ->
  JS.own_property props "backgroundColor" = None ->
  JS.own_property props "borderColor" = None ->
  JS.own_property props "borderWidth" = None ->
  exists resolved palette,
    datasets cfg !! position = Some resolved
    /\ palette = match theme options with dark => dark_palette | _ => light_palette end
    /\ theme options <> custom
    /\ JS.get resolved "backgroundColor" = palette
    /\ JS.get resolved "borderColor" = palette
    /\ JS.get resolved "borderWidth" = JS.VNum 2
    /\ light_palette <> dark_palette.
Proof.
  intros Hin Hcfg Hdata Hitem Hbg Hbc Hbw.
  unfold createChartJsConfig in Hcfg. unfold mbind, completion_bind in Hcfg.
  destruct (member data "labels") as [labels| |]; try discriminate.
  rewrite Hdata in Hcfg.
  destruct (mapM _ items) as [resolved| |] eqn:Hmap; try discriminate.
  injection Hcfg as <-. cbn [datasets].
  destruct (mapM_lookup _ _ _ _ _ Hmap Hitem) as (r & Hr & Hres).
  unfold resolveDataset in Hres.
  rewrite !member_omitted in Hres by auto.
  unfold mbind, completion_bind, getBorderColors, getBackgroundColors in Hres.
  cbn [JS.truthy] in Hres.
  destruct (colorPalettes (theme options)) as [palettes|] eqn:Hp; [|discriminate].
  rewrite (palette_of_declared_type _ _ _ Hp Hin) in Hres.
  injection Hres as <-.
  eexists _, _. split; [exact Hr|]. split; [reflexivity|].
  split; [intros Hc; rewrite Hc in Hp; discriminate|].
  split; [|split; [|split]].
  - apply get_own. rewrite !own_property_set_ne by discriminate.
    apply own_property_set_eq.
  - apply get_own. rewrite own_property_set_ne by discriminate.
    apply own_property_set_eq.
  - apply get_own. apply own_property_set_eq.
  - discriminate.
Qed.

(** C4 fails as stated: both datasets of a two-dataset light request get the
    whole palette, not the colour at their position. *)
Lemma default_colors_are_whole_palette :
  exists cfg d0 d1,
    createChartJsConfig "bar" Samples.two_series Samples.light_800_600 = JS.Return cfg
    /\ datasets cfg = [d0; d1]
    /\ JS.get d0 "backgroundColor" = light_palette
    /\ JS.get d1 "backgroundColor" = light_palette
    /\ JS.get d0 "backgroundColor" <> JS.VStr "#3b82f6"
    /\ JS.get d1 "backgroundColor" <> JS.VStr "#ef4444".
Proof.
  eexists _, _, _. split; [vm_compute; reflexivity|].
  split; [reflexivity|]. repeat split; discriminate.
Qed.

Lemma default_series_styling_witness :
  exists cfg,
    createChartJsConfig "bar" Samples.two_series Samples.light_800_600 = JS.Return cfg
    /\ exists resolved palette,
         datasets cfg !! 1%nat = Some resolved
         /\ palette = light_palette
         /\ light <> custom
         /\ JS.get resolved "backgroundColor" = palette
         /\ JS.get resolved "borderColor" = palette
         /\ JS.get resolved "borderWidth" = JS.VNum 2
         /\ light_palette <> dark_palette.
Proof.
  eexists. split; [vm_compute; reflexivity|].
  apply (default_series_styling "bar" Samples.two_series Samples.light_800_600 _
           [Samples.sales; Samples.costs] 1
           [ ("label", JS.VStr "Costs"); ("data", JS.VArr [JS.VNum 7; JS.VNum 9]) ]).
  - cbv [chartTypes In]. auto.
  - reflexivity.
  - reflexivity.
  - reflexivity.
  - reflexivity.
  - reflexivity.
  - reflexivity.
Defined.
End Styling.

(** ** Traces *)

Section Traces.
Import Runtime Observe.

Lemma bind_run {A B : Type} (m : M A) (f : A -> M B) (w : world) :
  (m ≫= f) w = match m w with
               | (JS.Return a, w') => f a w'
               | (JS.Throw e, w') => (JS.Throw e, w')
               | (JS.OutOfFuel, w') => (JS.OutOfFuel, w')
               end.
Proof. reflexivity. Qed.

Lemma emits_nothing {A : Type} (allowed : event -> Prop) (c : M A) :
  (forall w, exists r, c w = (r, w)) -> emits allowed c.
Proof.
  intros H w. destruct (H w) as [r ->]. simpl. split; [reflexivity|].
  split; [reflexivity|]. exists []. rewrite app_nil_r. split; [reflexivity | constructor].
Qed.

Lemma emits_one {A : Type} (allowed : event -> Prop) (c : M A) :
  (forall w, chromium (snd (c w)) = chromium w
             /\ faults (snd (c w)) = faults w
             /\ exists e, trace (snd (c w)) = trace w ++ [e] /\ allowed e) ->
  emits allowed c.
Proof.
  intros H w. destruct (H w) as (Hc & Hf & e & Ht & He).
  split; [exact Hc|]. split; [exact Hf|]. exists [e]. split; [exact Ht|].
  constructor; [exact He | constructor].
Qed.

Lemma emits_ext {A : Type} (allowed : event -> Prop) (c c' : M A) :
  (forall w, c w = c' w) -> emits allowed c' -> emits allowed c.
Proof. intros Heq H w. rewrite Heq. apply H. Qed.

Lemma emits_weaken {A : Type} (allowed allowed' : event -> Prop) (c : M A) :
  (forall e, allowed e -> allowed' e) -> emits allowed c -> emits allowed' c.
Proof.
  intros Himp H w. destruct (H w) as (Hc & Hf & evs & Ht & Hall).
  split; [exact Hc|]. split; [exact Hf|]. exists evs.
  split; [exact Ht|]. eapply Forall_impl; eauto.
Qed.

Lemma emits_then {A B : Type} (allowed : event -> Prop) (c : M A)
    (k : JS.completion A -> M B) :
  emits allowed c -> (forall r, emits allowed (k r)) ->
  emits allowed (fun w => k (fst (c w)) (snd (c w))).
Proof.
  intros Hc Hk w. destruct (Hc w) as (Hc1 & Hf1 & evs1 & Ht1 & Hall1).
  destruct (Hk (fst (c w)) (snd (c w))) as (Hc2 & Hf2 & evs2 & Ht2 & Hall2).
  split; [congruence|]. split; [congruence|].
  exists (evs1 ++ evs2). split.
  - rewrite Ht2, Ht1, app_assoc. reflexivity.
  - apply Forall_app. split; assumption.
Qed.

Lemma emits_ret {A : Type} (allowed : event -> Prop) (a : A) :
  emits allowed (mret a : M A).
Proof. apply emits_nothing. intros w. eexists. reflexivity. Qed.

Lemma emits_throw {A : Type} (allowed : event -> Prop) (e : JS.error) :
  emits allowed (throw e : M A).
Proof. apply emits_nothing. intros w. eexists. reflexivity. Qed.

Lemma emits_lift {A : Type} (allowed : event -> Prop) (c : JS.completion A) :
  emits allowed (lift c).
Proof. apply emits_nothing. intros w. eexists. reflexivity. Qed.

Lemma emits_bind {A B : Type} (allowed : event -> Prop) (m : M A) (f : A -> M B) :
  emits allowed m -> (forall a, emits allowed (f a)) -> emits allowed (m ≫= f).
Proof.
  intros Hm Hf.
  apply (emits_ext _ _
           (fun w => (fun r : JS.completion A =>
                        match r with
                        | JS.Return a => f a
                        | other => lift (match other with
                                         | JS.Throw e => JS.Throw e
                                         | _ => JS.OutOfFuel
                                         end)
                        end) (fst (m w)) (snd (m w)))).
  - intros w. rewrite bind_run. destruct (m w) as [[a|e|] w']; reflexivity.
  - apply (emits_then allowed m
             (fun r => match r with
                       | JS.Return a => f a
                       | other => lift (match other with
                                        | JS.Throw e => JS.Throw e
                                        | _ => JS.OutOfFuel
                                        end)
                       end)); [exact Hm|].
    intros [a|e|]; [apply Hf | apply emits_lift | apply emits_lift].
Qed.

Lemma emits_try_catch {A : Type} (allowed : event -> Prop) (body : M A)
    (handler : JS.error -> M A) :
  emits allowed body -> (forall e, emits allowed (handler e)) ->
  emits allowed (try_catch body handler).
Proof.
  intros Hb Hh.
  apply (emits_ext _ _
           (fun w => (fun r : JS.completion A =>
                        match r with
                        | JS.Throw e => handler e
                        | other => lift other
                        end) (fst (body w)) (snd (body w)))).
  - intros w. unfold try_catch. destruct (body w) as [[a|e|] w']; reflexivity.
  - apply (emits_then allowed body
             (fun r => match r with
                       | JS.Throw e => handler e
                       | other => lift other
                       end)); [exact Hb|].
    intros [a|e|]; [apply emits_lift | apply Hh | apply emits_lift].
Qed.

Lemma emits_client {A : Type} (allowed : event -> Prop) (ev : bool -> event)
    (run : world -> A * world) :
  (forall ok, allowed (ev ok)) ->
  (forall w, chromium (snd (run w)) = chromium w
             /\ faults (snd (run w)) = faults w
             /\ trace (snd (run w)) = trace w) ->
  emits allowed (client ev run).
Proof.
  intros Hev Hrun. apply emits_one. intros w. unfold client.
  destruct (faults w (calls w)).
  - simpl. eauto 6.
  - destruct (Hrun w) as (Hc & Hf & Ht). destruct (run w) as [a w']. simpl in *.
    rewrite Hc, Hf, Ht. eauto 6.
Qed.

Lemma emits_call (allowed : event -> Prop) (ev : bool -> event)
    (outcome : world -> step) (before : world -> world) :
  (forall ok, allowed (ev ok)) ->
  (forall w, chromium (before w) = chromium w /\ faults (before w) = faults w
             /\ trace (before w) = trace w) ->
  emits allowed (fun w => call ev (outcome w) (before w)).
Proof.
  intros Hev Hbefore. apply emits_one. intros w. unfold call.
  destruct (Hbefore w) as (Hc & Hf & Ht).
  destruct (outcome w); simpl; rewrite Hc, Hf, Ht; eauto 6.
Qed.

Lemma emits_sleep (allowed : event -> Prop) (ms : Z) :
  allowed (Sleep ms) -> emits allowed (sleep ms).
Proof. intros H. apply emits_one. intros w. simpl. eauto 6. Qed.

Lemma emits_screenshot (allowed : event -> Prop) :
  (forall ok, allowed (Screenshot ok)) -> emits allowed page_screenshot.
Proof.
  intros H. apply emits_one. intros w. unfold page_screenshot.
  destruct (on_screenshot (chromium w)); simpl; eauto 6.
Qed.

Lemma total_catch_all {A : Type} (body : M A) (fallback : A) :
  total (try_catch body (fun _ => mret fallback)).
Proof.
  intros w e. unfold try_catch. destruct (body w) as [[a|e'|] w']; discriminate.
Qed.

Lemma try_catch_total {A : Type} (body : M A) (handler : JS.error -> M A) (w : world) :
  total body -> try_catch body handler w = body w.
Proof.
  intros Hb. unfold try_catch. specialize (Hb w).
  destruct (body w) as [[a|e|] w']; try reflexivity.
  exfalso. apply (Hb e). reflexivity.
Qed.

Lemma total_bind {A B : Type} (m : M A) (f : A -> M B) :
  total m -> (forall a, total (f a)) -> total (m ≫= f).
Proof.
  intros Hm Hf w e. rewrite bind_run. specialize (Hm w).
  destruct (m w) as [[a|e'|] w']; simpl in *.
  - apply Hf.
  - exfalso. apply (Hm e'). reflexivity.
  - discriminate.
Qed.

Lemma total_ret {A : Type} (a : A) : total (mret a : M A).
Proof. intros w e. discriminate. Qed.

Lemma halts_ret {A : Type} (a : A) : halts (mret a : M A).
Proof. intros w. discriminate. Qed.

Lemma halts_throw {A : Type} (e : JS.error) : halts (throw e : M A).
Proof. intros w. discriminate. Qed.

Lemma halts_lift {A : Type} (c : JS.completion A) :
  c <> JS.OutOfFuel -> halts (lift c).
Proof. intros H w. exact H. Qed.

Lemma halts_bind {A B : Type} (m : M A) (f : A -> M B) :
  halts m -> (forall a, halts (f a)) -> halts (m ≫= f).
Proof.
  intros Hm Hf w. rewrite bind_run. specialize (Hm w).
  destruct (m w) as [[a|e|] w']; [apply Hf | discriminate |].
  exfalso. apply Hm. reflexivity.
Qed.

Lemma halts_try_catch {A : Type} (body : M A) (handler : JS.error -> M A) :
  halts body -> (forall e, halts (handler e)) -> halts (try_catch body handler).
Proof.
  intros Hb Hh w. unfold try_catch. specialize (Hb w).
  destruct (body w) as [[a|e|] w']; [discriminate | apply Hh | exact Hb].
Qed.

Lemma halts_try_finally {A : Type} (body : M A) (cleanup : M unit) :
  halts body -> halts cleanup -> halts (try_finally body cleanup).
Proof.
  intros Hb Hc w. unfold try_finally. specialize (Hb w).
  destruct (body w) as [r w']. specialize (Hc w').
  destruct (cleanup w') as [[u|e|] w'']; [exact Hb | discriminate |].
  exfalso. apply Hc. reflexivity.
Qed.

Lemma halts_client {A : Type} (ev : bool -> event) (run : world -> A * world) :
  halts (client ev run).
Proof.
  intros w. unfold client.
  destruct (faults w (calls w)); [|destruct (run w)]; discriminate.
Qed.

Lemma halts_call (ev : bool -> event) (outcome : world -> step)
    (before : world -> world) :
  halts (fun w => call ev (outcome w) (before w)).
Proof. intros w. unfold call. destruct (outcome w); discriminate. Qed.

Lemma halts_screenshot : halts page_screenshot.
Proof.
  intros w. unfold page_screenshot.
  destruct (on_screenshot (chromium w)); discriminate.
Qed.

End Traces.

(** ** The cache *)

Section Cache.
Import Runtime Observe ChartGeneratorService.

Lemma isAvailable_run (w : world) :
  RedisService.isAvailable w
  = match faults w (calls w) with
    | Some _ => (JS.Return false, log (Ping false) (tick w))
    | None => (JS.Return true, log (Ping true) (tick w))
    end.
Proof.
  unfold RedisService.isAvailable, try_catch, client_ping, client.
  rewrite bind_run. destruct (faults w (calls w)); reflexivity.
Qed.

Lemma get_run (key : string) (w : world) :
  RedisService.get key w
  = match faults w (calls w) with
    | Some _ => (JS.Return None, log (Get key false) (tick w))
    | None => (JS.Return (cached w key), log (Get key true) (tick w))
    end.
Proof.
  unfold RedisService.get, try_catch, client_get, client, cached.
  rewrite bind_run. destruct (faults w (calls w)); reflexivity.
Qed.

Lemma set_run (key : string) (value : buffer) (ttl : Z) (w : world) :
  RedisService.set key value ttl w
  = match faults w (calls w) with
    | Some _ =>
        (JS.Return tt, log (SetEx key ttl (Base64.to_string value) false) (tick w))
    | None =>
        (JS.Return tt,
         log (SetEx key ttl (Base64.to_string value) true)
             (tick (with_store
                      (insert key (Base64.to_string value, clock w + 1000 * ttl)) w)))
    end.
Proof.
  unfold RedisService.set, try_catch, client_setEx, client.
  destruct (faults w (calls w)); reflexivity.
Qed.

Lemma lookup_run (key : string) (w : world) :
  lookup key w
  = match faults w (calls w) with
    | Some _ => (JS.Return None, log (Ping false) (tick w))
    | None => RedisService.get key (log (Ping true) (tick w))
    end.
Proof.
  unfold lookup, try_catch. rewrite bind_run, isAvailable_run.
  destruct (faults w (calls w)); [reflexivity|].
  rewrite get_run. destruct (faults _ _); reflexivity.
Qed.

Lemma remember_run (key : string) (png : buffer) (w : world) :
  remember key png w
  = match faults w (calls w) with
    | Some _ => (JS.Return tt, log (Ping false) (tick w))
    | None => RedisService.set key png 3600 (log (Ping true) (tick w))
    end.
Proof.
  unfold remember, try_catch. rewrite bind_run, isAvailable_run.
  destruct (faults w (calls w)); [reflexivity|].
  rewrite set_run. destruct (faults _ _); reflexivity.
Qed.

Lemma emits_lookup (key : string) : emits cache_io (lookup key).
Proof.
  intros w. rewrite lookup_run, get_run. simpl.
  destruct (faults w (calls w)); [|destruct (faults w (S (calls w)))]; simpl;
    (split; [reflexivity|]); (split; [reflexivity|]).
  - exists [Ping false]. split; [reflexivity|]. repeat constructor.
  - exists [Ping true; Get key false]. rewrite <- app_assoc. split; [reflexivity|].
    repeat constructor.
  - exists [Ping true; Get key true]. rewrite <- app_assoc. split; [reflexivity|].
    repeat constructor.
Qed.

Lemma emits_remember (key : string) (png : buffer) : emits cache_io (remember key png).
Proof.
  intros w. rewrite remember_run, set_run. simpl.
  destruct (faults w (calls w)); [|destruct (faults w (S (calls w)))]; simpl;
    (split; [reflexivity|]); (split; [reflexivity|]).
  - exists [Ping false]. split; [reflexivity|]. repeat constructor.
  - eexists [Ping true; SetEx _ _ _ false]. rewrite <- app_assoc. split; [reflexivity|].
    repeat constructor.
  - eexists [Ping true; SetEx _ _ _ true]. rewrite <- app_assoc. split; [reflexivity|].
    repeat constructor.
Qed.

Lemma lookup_clock (key : string) (w : world) :
  clock (snd (lookup key w)) = clock w.
Proof.
  rewrite lookup_run, get_run.
  destruct (faults w (calls w)); [reflexivity|]. simpl.
  destruct (faults w (S (calls w))); reflexivity.
Qed.

Lemma total_lookup (key : string) : total (lookup key).
Proof.
  intros w e. rewrite lookup_run, get_run.
  destruct (faults w (calls w)); [discriminate|]. simpl.
  destruct (faults w (S (calls w))); discriminate.
Qed.

Lemma total_remember (key : string) (png : buffer) : total (remember key png).
Proof.
  intros w e. rewrite remember_run, set_run.
  destruct (faults w (calls w)); [discriminate|]. simpl.
  destruct (faults w (S (calls w))); discriminate.
Qed.

(** A cache entry is found by [RedisService.get] exactly when it is live and
    its text is not empty. *)
Lemma get_hit (key : string) (w : world) (text : string) (deadline : Z) :
  faults w (calls w) = None -> store w !! key = Some (text, deadline) ->
  clock w < deadline -> text <> "" ->
  fst (RedisService.get key w) = JS.Return (Some (Base64.of_string text)).
Proof.
  intros Hok Hstore Hlive Htext. rewrite get_run, Hok. unfold cached, live.
  rewrite Hstore. rewrite (proj2 (Z.ltb_lt _ _) Hlive). cbn [JS.truthy fst].
  rewrite (proj2 (String.eqb_neq _ _) Htext). reflexivity.
Qed.

(** C2 (as amended): when the derived key has an entry that has not expired
    and is not the empty text, and both the probe and the read go through,
    [generateChart] returns the bytes of the entry, and the probe and the
    read are all it does: no browser is launched. *)
Theorem cache_short_circuit (chartType : string) (data : JS.value)
    (options : RequestOptions) (w : world) (text : string) (deadline : Z) :
  store w !! generateCacheKey chartType data (resolve options) = Some (text, deadline) ->
  clock w < deadline ->
  text <> "" ->
  faults w (calls w) = None ->
  faults w (S (calls w)) = None ->
  fst (generateChart chartType data options w) = JS.Return (Base64.of_string text)
  /\ trace (snd (generateChart chartType data options w))
     = trace w ++ [Ping true;
                   Get (generateCacheKey chartType data (resolve options)) true]
  /\ store (snd (generateChart chartType data options w)) = store w.
Proof.
  unfold generateChart.
  generalize (generateCacheKey chartType data (resolve options)). intros key.
  intros Hentry Hlive Htext Hping Hget.
  rewrite bind_run, lookup_run, Hping.
  pose proof (get_hit key (log (Ping true) (tick w)) text deadline Hget Hentry Hlive
                Htext) as Hhit.
  rewrite get_run in Hhit |- *. cbn [faults calls log tick] in Hhit |- *.
  rewrite Hget in Hhit |- *. cbn [fst] in Hhit. injection Hhit as ->.
  split; [reflexivity|]. split; [|reflexivity].
  unfold mret, M_ret. cbn [snd trace log tick]. rewrite <- app_assoc. reflexivity.
Qed.

Lemma cache_short_circuit_witness :
  fst (generateChart "bar" (JS.VObj Samples.bar_data) Samples.request_800_600
         Cases.rendered)
  = JS.Return (Base64.of_string "iVBORw==")
  /\ trace (snd (generateChart "bar" (JS.VObj Samples.bar_data) Samples.request_800_600
                   Cases.rendered))
     = trace Cases.rendered
       ++ [Ping true;
           Get (generateCacheKey "bar" (JS.VObj Samples.bar_data)
                  (resolve Samples.request_800_600)) true]
  /\ store (snd (generateChart "bar" (JS.VObj Samples.bar_data) Samples.request_800_600
                   Cases.rendered))
     = store Cases.rendered.
Proof.
  apply (cache_short_circuit "bar" (JS.VObj Samples.bar_data) Samples.request_800_600
           Cases.rendered "iVBORw==" 3600000).
  - vm_compute. reflexivity.
  - vm_compute. reflexivity.
  - discriminate.
  - vm_compute. reflexivity.
  - vm_compute. reflexivity.
Defined.

(** C2 fails as stated: an entry under the key and a probe that succeeds do
    not keep the browser away.  In the first world the entry of an earlier
    render is live and the probe goes through, but the read is refused; in
    the second the entry is the empty text.  Both requests launch the
    browser. *)
Lemma cache_entry_present_yet_rendered :
  live Cases.get_refused Cases.bar_key = Some "iVBORw=="
  /\ fst (RedisService.isAvailable Cases.get_refused) = JS.Return true
  /\ drop 11 (trace (snd (generateChart "bar" (JS.VObj Samples.bar_data)
                            Samples.request_800_600 Cases.get_refused)))
     = [ Ping true; Get Cases.bar_key false; Launch true; NewPage true;
         SetViewport 800 600 true; SetContent "networkidle0" 15000 true; poll true;
         Screenshot true; Ping true; SetEx Cases.bar_key 3600 "iVBORw==" true;
         Close true ]
  /\ live Cases.emptied Cases.bar_key = Some ""
  /\ fst (RedisService.isAvailable Cases.emptied) = JS.Return true
  /\ trace (snd (generateChart "bar" (JS.VObj Samples.bar_data)
                   Samples.request_800_600 Cases.emptied))
     = [ Ping true; Get Cases.bar_key true; Launch true; NewPage true;
         SetViewport 800 600 true; SetContent "networkidle0" 15000 true; poll true;
         Screenshot true; Ping true; SetEx Cases.bar_key 3600 "iVBORw==" true;
         Close true ].
Proof.
  repeat split; vm_compute; reflexivity.
Qed.

(** C9 (as amended): a non-empty buffer stored by [set] comes back from [get]
    byte for byte, as long as the entry is still the one [set] wrote, has
    not expired, and neither call hits a backend error. *)
Theorem cache_value_round_trip (key : string) (value : buffer) (ttl : Z)
    (w w' : world) :
  value <> [] ->
  faults w (calls w) = None ->
  store w' !! key = store (snd (RedisService.set key value ttl w)) !! key ->
  clock w' < clock w + 1000 * ttl ->
  faults w' (calls w') = None ->
  fst (RedisService.get key w') = JS.Return (Some value).
Proof.
  intros Hvalue Hset Hstore Hlive Hget.
  rewrite set_run, Hset in Hstore. cbn [snd store log tick with_store] in Hstore.
  rewrite lookup_insert_eq in Hstore.
  rewrite (get_hit key w' _ _ Hget Hstore Hlive).
  - rewrite of_string_to_string. reflexivity.
  - intros Hempty. pose proof (to_string_nonempty value Hvalue) as Htruthy.
    rewrite Hempty in Htruthy. discriminate.
Qed.

Lemma cache_value_round_trip_witness :
  fst (RedisService.get "chart"
         (snd (RedisService.set "chart" Samples.png 3600 (Samples.fresh Samples.healthy))))
  = JS.Return (Some Samples.png).
Proof.
  apply (cache_value_round_trip "chart" Samples.png 3600 (Samples.fresh Samples.healthy)).
  - discriminate.
  - reflexivity.
  - reflexivity.
  - reflexivity.
  - reflexivity.
Defined.

(** C9 fails as stated: the empty buffer is stored as the empty text, which
    [get] takes for no entry at all. *)
Lemma empty_buffer_reads_as_absent :
  store (snd (RedisService.set "chart" [] 3600 (Samples.fresh Samples.healthy)))
    !! "chart" = Some ("", 3600000)
  /\ fst (RedisService.get "chart"
            (snd (RedisService.set "chart" [] 3600 (Samples.fresh Samples.healthy))))
     = JS.Return None
  /\ fst (RedisService.get "chart"
            (snd (RedisService.set "chart" [] 3600 (Samples.fresh Samples.healthy))))
     <> JS.Return (Some []).
Proof.
  split; [vm_compute; reflexivity|].
  split; [vm_compute; reflexivity|].
  vm_compute. discriminate.
Qed.

End Cache.

(** ** The engine *)

Section Engine.
Import Runtime Observe ChartGeneratorService.

Lemma waitForChart_run (w : world) :
  waitForChart maxRetries false 0 w
  = match on_waitForSelector (chromium w) (polls w) with
    | Succeeds => (JS.Return tt, polled_once true w)
    | Fails _ =>
        let w1 := paused (polled_once false w) in
        match on_waitForSelector (chromium w) (S (polls w)) with
        | Succeeds => (JS.Return tt, polled_once true w1)
        | Fails _ =>
            let w2 := paused (polled_once false w1) in
            match on_waitForSelector (chromium w) (S (S (polls w))) with
            | Succeeds => (JS.Return tt, polled_once true w2)
            | Fails _ => (JS.Throw timeout_message, polled_once false w2)
            end
        end
    end.
Proof.
  unfold maxRetries. cbn -[pretty].
  unfold mbind, M_bind, try_catch, page_waitForSelector, call. cbn -[pretty].
  destruct (on_waitForSelector (chromium w) (polls w)); [reflexivity|].
  cbn -[pretty].
  destruct (on_waitForSelector (chromium w) (S (polls w))); [reflexivity|].
  cbn -[pretty].
  destruct (on_waitForSelector (chromium w) (S (S (polls w)))); [reflexivity|].
  cbn -[pretty]. unfold throw. reflexivity.
Qed.

Lemma createChartJsConfig_datasets (chartType : string) (data : JS.value)
    (options : Options) (cfg : ChartJsConfig) :
  createChartJsConfig chartType data options = JS.Return cfg ->
  exists items, member data "datasets" = JS.Return (JS.VArr items).
Proof.
  unfold createChartJsConfig, mbind, completion_bind. intros H.
  destruct (member data "labels"); try discriminate.
  destruct (member data "datasets") as [[| | | | |items| |]| |]; try discriminate.
  eauto.
Qed.

Ltac world_simpl :=
  cbn [chromium faults calls polls trace store clock log tick polled advance
       with_store polled_once paused fst snd].

Lemma close_run (w : world) :
  try_catch browser_close (fun _ => mret tt) w
  = (JS.Return tt,
     log (Close match on_close (chromium w) with Succeeds => true | Fails _ => false end) w).
Proof.
  unfold try_catch, browser_close, call. destruct (on_close (chromium w)); reflexivity.
Qed.

Lemma finally_close_run {A : Type} (body : M A) (w : world) :
  try_finally body (try_catch browser_close (fun _ => mret tt)) w
  = (fst (body w),
     log (Close match on_close (chromium (snd (body w))) with
                | Succeeds => true
                | Fails _ => false
                end) (snd (body w))).
Proof.
  unfold try_finally. destruct (body w) as [r w']. rewrite close_run. reflexivity.
Qed.

Lemma waitForChart_appears (w : world) :
  (exists attempt, (attempt < 3)%nat
     /\ on_waitForSelector (chromium w) (polls w + attempt) = Succeeds) ->
  exists w', waitForChart maxRetries false 0 w = (JS.Return tt, w')
             /\ chromium w' = chromium w /\ faults w' = faults w
             /\ calls w' = calls w.
Proof.
  intros (attempt & Hlt & Hok). rewrite waitForChart_run.
  destruct (on_waitForSelector (chromium w) (polls w)) eqn:H0;
    [eexists; split; [reflexivity|]; repeat split|].
  destruct (on_waitForSelector (chromium w) (S (polls w))) eqn:H1;
    [eexists; split; [reflexivity|]; repeat split|].
  destruct (on_waitForSelector (chromium w) (S (S (polls w)))) eqn:H2;
    [eexists; split; [reflexivity|]; repeat split|].
  exfalso.
  destruct attempt as [|[|[|attempt]]]; [| | |lia].
  - rewrite Nat.add_0_r in Hok. congruence.
  - replace (polls w + 1)%nat with (S (polls w)) in Hok by lia. congruence.
  - replace (polls w + 2)%nat with (S (S (polls w))) in Hok by lia. congruence.
Qed.

Lemma render_success (chartType : string) (data : JS.value) (options : Options)
    (key : string) (w : world) (cfg : ChartJsConfig) (png : buffer) :
  on_newPage (chromium w) = Succeeds ->
  createChartJsConfig chartType data (titled options) = JS.Return cfg ->
  on_networkidle0 (chromium w) = Succeeds
  \/ on_domcontentloaded (chromium w) = Succeeds ->
  (exists attempt, (attempt < 3)%nat
     /\ on_waitForSelector (chromium w) (polls w + attempt) = Succeeds) ->
  on_screenshot (chromium w) = inl png ->
  fst (render chartType data options key w) = JS.Return png.
Proof.
  intros Hpage Hcfg Hcontent Hpoll Hshot.
  unfold render. rewrite bind_run. unfold browser_newPage, call. rewrite Hpage.
  rewrite bind_run.
  assert (Hview : exists w1,
             try_catch (page_setViewport (width options) (height options))
                       (fun _ => mret tt) (log (NewPage true) w) = (JS.Return tt, w1)
             /\ chromium w1 = chromium w /\ polls w1 = polls w).
  { unfold try_catch, page_setViewport, call. world_simpl.
    destruct (on_setViewport (chromium w)); eexists; split; try reflexivity; split; reflexivity. }
  destruct Hview as (w1 & -> & Hc1 & Hp1).
  rewrite bind_run. unfold lift. rewrite Hcfg. rewrite bind_run.
  assert (Hload : exists w2,
             try_catch (page_setContent "networkidle0" 15000)
                       (fun _ => page_setContent "domcontentloaded" 10000) w1
             = (JS.Return tt, w2)
             /\ chromium w2 = chromium w /\ polls w2 = polls w).
  { unfold try_catch, page_setContent, call. cbn [String.eqb Ascii.eqb Bool.eqb].
    rewrite Hc1.
    destruct (on_networkidle0 (chromium w)) eqn:Hidle.
    - eexists; split; [reflexivity|]. world_simpl. auto.
    - destruct Hcontent as [Hidle'|Hdom]; [congruence|]. world_simpl.
      rewrite Hc1, Hdom. eexists; split; [reflexivity|]. world_simpl. auto. }
  destruct Hload as (w2 & -> & Hc2 & Hp2).
  rewrite bind_run.
  destruct (waitForChart_appears w2) as (w3 & -> & Hc3 & _).
  { rewrite Hc2, Hp2. exact Hpoll. }
  rewrite bind_run. unfold try_catch at 1, page_screenshot. rewrite Hc3, Hc2, Hshot.
  rewrite bind_run.
  pose proof (total_remember key png (log (Screenshot true) w3)) as Htotal.
  destruct (remember key png (log (Screenshot true) w3)) as [[[]|e|] w4] eqn:Hrem.
  - reflexivity.
  - exfalso. apply (Htotal e). reflexivity.
  - exfalso. rewrite remember_run, set_run in Hrem.
    destruct (faults _ _); [discriminate|]. simpl in Hrem.
    destruct (faults _ _); discriminate.
Qed.

Lemma emits_waitForChart : emits page_io (waitForChart maxRetries false 0).
Proof.
  intros w. rewrite waitForChart_run.
  destruct (on_waitForSelector (chromium w) (polls w));
    [|destruct (on_waitForSelector (chromium w) (S (polls w)));
      [|destruct (on_waitForSelector (chromium w) (S (S (polls w))))]];
    world_simpl; (split; [reflexivity|]); (split; [reflexivity|]).
  - exists [poll true]. split; [reflexivity|]. repeat constructor.
  - exists [poll false; Sleep 1000; poll true].
    rewrite <- !app_assoc. split; [reflexivity|]. repeat constructor.
  - exists [poll false; Sleep 1000; poll false; Sleep 1000; poll true].
    rewrite <- !app_assoc. split; [reflexivity|]. repeat constructor.
  - exists [poll false; Sleep 1000; poll false; Sleep 1000; poll false].
    rewrite <- !app_assoc. split; [reflexivity|]. repeat constructor.
Qed.

Lemma emits_render (chartType : string) (data : JS.value) (options : Options)
    (key : string) :
  emits engine_io (render chartType data options key).
Proof.
  assert (Hpage : forall e, page_io e -> engine_io e)
    by (intros e H; apply orb_True; left; exact H).
  assert (Hcache : forall e, cache_io e -> engine_io e)
    by (intros e H; apply orb_True; right; exact H).
  unfold render.
  apply emits_bind; [|intros _].
  { apply (emits_call engine_io NewPage (fun w => on_newPage (chromium w)) (fun w => w));
      [intros ok; exact I | auto]. }
  apply emits_bind; [|intros _].
  { apply emits_try_catch; [|intros _; apply emits_ret].
    apply (emits_call engine_io (SetViewport _ _) (fun w => on_setViewport (chromium w))
             (fun w => w)); [intros ok; exact I | auto]. }
  apply emits_bind; [apply emits_lift | intros chartJsConfig].
  apply emits_bind; [|intros _].
  { apply emits_try_catch; [|intros _].
    - apply (emits_call engine_io (SetContent _ _) (fun w => on_networkidle0 (chromium w))
               (fun w => w)); [intros ok; exact I | auto].
    - apply (emits_call engine_io (SetContent _ _)
               (fun w => on_domcontentloaded (chromium w)) (fun w => w));
        [intros ok; exact I | auto]. }
  apply emits_bind; [|intros _].
  { apply (emits_weaken page_io); [exact Hpage | apply emits_waitForChart]. }
  apply emits_bind; [|intros screenshotBuffer].
  { apply emits_try_catch; [|intros e; apply emits_throw].
    apply emits_screenshot. intros ok; exact I. }
  apply emits_bind; [|intros _; apply emits_ret].
  apply (emits_weaken cache_io); [exact Hcache | apply emits_remember].
Qed.

(** C3: with every cache operation failing, [RedisService.get] answers
    absent instead of throwing, neither the lookup nor the cache write of
    [generateChart] throws, and a request the browser can serve is served:
    the browser is launched and its screenshot returned. *)
Theorem cache_failure_transparent (chartType : string) (data : JS.value)
    (options : RequestOptions) (w : world) (cfg : ChartJsConfig) (png : buffer) :
  (forall n, is_Some (faults w n)) ->
  on_launch (chromium w) = Succeeds ->
  on_newPage (chromium w) = Succeeds ->
  createChartJsConfig chartType data (titled (resolve options)) = JS.Return cfg ->
  on_networkidle0 (chromium w) = Succeeds
  \/ on_domcontentloaded (chromium w) = Succeeds ->
  (exists attempt, (attempt < 3)%nat
     /\ on_waitForSelector (chromium w) (polls w + attempt) = Succeeds) ->
  on_screenshot (chromium w) = inl png ->
  fst (generateChart chartType data options w) = JS.Return png
  /\ In (Launch true) (trace (snd (generateChart chartType data options w)))
  /\ (forall key, fst (RedisService.get key w) = JS.Return None)
  /\ (forall key, total (lookup key))
  /\ (forall key screenshotBuffer, total (remember key screenshotBuffer)).
Proof.
  intros Hall Hlaunch Hpage Hcfg Hcontent Hpoll Hshot.
  assert (Hget : forall key, fst (RedisService.get key w) = JS.Return None).
  { intros key. rewrite get_run. destruct (Hall (calls w)) as [e ->]. reflexivity. }
  enough (Hmain : fst (generateChart chartType data options w) = JS.Return png
                  /\ In (Launch true)
                        (trace (snd (generateChart chartType data options w)))).
  { destruct Hmain as [Hpng Hlaunched]. split; [exact Hpng|].
    split; [exact Hlaunched|]. split; [exact Hget|].
    split; [exact total_lookup | exact total_remember]. }
  unfold generateChart. generalize (generateCacheKey chartType data (resolve options)).
  intros key. rewrite bind_run, lookup_run.
  destruct (Hall (calls w)) as [e0 He0]. rewrite He0.
  unfold engine, launch. rewrite bind_run. unfold lift.
  destruct (createChartJsConfig_datasets _ _ _ _ Hcfg) as [items Hitems].
  rewrite Hitems. cbn [mbind completion_bind member].
  unfold puppeteer_launch, call. world_simpl. rewrite Hlaunch.
  rewrite finally_close_run. cbn [fst snd]. unfold try_catch.
  pose proof (render_success chartType data (resolve options) key
                (log (Launch true) (log (Ping false) (tick w))) cfg png
                Hpage Hcfg Hcontent Hpoll Hshot) as Hrender.
  destruct (emits_render chartType data (resolve options) key
              (log (Launch true) (log (Ping false) (tick w))))
    as (_ & _ & evs & Htrace & _).
  destruct (render _ _ _ _ _) as [r w'] eqn:Hrun. simpl in Hrender, Htrace.
  subst r. split; [reflexivity|].
  world_simpl. rewrite Htrace. world_simpl.
  rewrite !in_app_iff. simpl. tauto.
Qed.

Lemma cache_failure_transparent_witness :
  fst (generateChart "bar" (JS.VObj Samples.bar_data) Samples.request_800_600
         (Samples.unreachable Samples.healthy))
  = JS.Return Samples.png
  /\ In (Launch true)
        (trace (snd (generateChart "bar" (JS.VObj Samples.bar_data)
                       Samples.request_800_600 (Samples.unreachable Samples.healthy))))
  /\ (forall key,
        fst (RedisService.get key (Samples.unreachable Samples.healthy)) = JS.Return None)
  /\ (forall key, total (lookup key))
  /\ (forall key screenshotBuffer, total (remember key screenshotBuffer)).
Proof.
  eapply (cache_failure_transparent "bar" (JS.VObj Samples.bar_data)
            Samples.request_800_600 (Samples.unreachable Samples.healthy)).
  - intros n. eexists. reflexivity.
  - reflexivity.
  - reflexivity.
  - vm_compute. reflexivity.
  - left. reflexivity.
  - exists 0%nat. split; [lia | reflexivity].
  - reflexivity.
Defined.

Lemma launch_run (data : JS.value) (w : world) :
  launch data w
  = match (datasets ← member data "datasets"; member datasets "length") with
    | JS.Return _ =>
        match on_launch (chromium w) with
        | Succeeds => (JS.Return tt, log (Launch true) w)
        | Fails e => (JS.Throw e, log (Launch false) w)
        end
    | JS.Throw e => (JS.Throw e, w)
    | JS.OutOfFuel => (JS.OutOfFuel, w)
    end.
Proof.
  unfold launch. rewrite bind_run. unfold lift, puppeteer_launch, call.
  destruct (_ ≫= _) as [v|e|]; reflexivity.
Qed.

(** The events of one request: cache traffic, then nothing more, or a failed
    launch, or a launch, page and cache traffic, and one close. *)
Lemma generateChart_trace (chartType : string) (data : JS.value)
    (options : RequestOptions) (w : world) :
  exists cache_evs,
    Forall cache_io cache_evs
    /\ (trace (snd (generateChart chartType data options w)) = trace w ++ cache_evs
        \/ trace (snd (generateChart chartType data options w))
           = trace w ++ cache_evs ++ [Launch false]
        \/ exists during,
             trace (snd (generateChart chartType data options w))
             = trace w ++ cache_evs ++ [Launch true] ++ during
               ++ [Close (released (chromium w))]
             /\ Forall engine_io during).
Proof.
  unfold generateChart. generalize (generateCacheKey chartType data (resolve options)).
  intros key. rewrite bind_run.
  destruct (emits_lookup key w) as (Hbrowser & _ & evs & Htrace & Hevs).
  exists evs. split; [exact Hevs|].
  destruct (lookup key w) as [[[png|]|e|] w1]; simpl in Htrace, Hbrowser;
    try (left; exact Htrace).
  unfold engine. rewrite launch_run.
  destruct (_ ≫= _) as [v|e|]; try (left; exact Htrace).
  destruct (on_launch (chromium w1)).
  - right. right. rewrite finally_close_run. world_simpl.
    destruct (emits_try_catch engine_io
                (render chartType data (resolve options) key)
                (fun message => throw (describe message))
                (emits_render _ _ _ _) (fun e => emits_throw _ _)
                (log (Launch true) w1)) as (Hsame & _ & during & Hduring & Hall).
    exists during. split; [|exact Hall].
    rewrite Hduring, Hsame. world_simpl. rewrite Htrace, Hbrowser, <- !app_assoc.
    reflexivity.
  - right. left. unfold throw. world_simpl. rewrite Htrace, <- app_assoc. reflexivity.
Qed.

(** *** Every request ends *)

Lemma member_ends (v : JS.value) (key : string) : member v key <> JS.OutOfFuel.
Proof. destruct v; discriminate. Qed.

Lemma getBackgroundColors_ends (provided : JS.value) (chartType : string) (t : Theme) :
  getBackgroundColors provided chartType t <> JS.OutOfFuel.
Proof.
  unfold getBackgroundColors. destruct (JS.truthy provided); [discriminate|].
  destruct (colorPalettes t); discriminate.
Qed.

Lemma resolveDataset_ends (chartType : string) (t : Theme) (dataset : JS.value) :
  resolveDataset chartType t dataset <> JS.OutOfFuel.
Proof.
  unfold resolveDataset, getBorderColors, mbind, completion_bind.
  pose proof (member_ends dataset "backgroundColor").
  destruct (member dataset "backgroundColor") as [bg| |]; [|discriminate|contradiction].
  pose proof (getBackgroundColors_ends bg chartType t).
  destruct (getBackgroundColors bg chartType t); [|discriminate|contradiction].
  pose proof (member_ends dataset "borderColor").
  destruct (member dataset "borderColor") as [bc| |]; [|discriminate|contradiction].
  destruct (JS.truthy bc).
  - pose proof (member_ends dataset "borderWidth").
    destruct (member dataset "borderWidth"); [discriminate|discriminate|contradiction].
  - pose proof (getBackgroundColors_ends JS.VUndefined chartType t).
    destruct (getBackgroundColors JS.VUndefined chartType t);
      [|discriminate|contradiction].
    pose proof (member_ends dataset "borderWidth").
    destruct (member dataset "borderWidth"); [discriminate|discriminate|contradiction].
Qed.

Lemma mapM_ends {A B : Type} (f : A -> JS.completion B) (xs : list A) :
  (forall x, f x <> JS.OutOfFuel) -> mapM f xs <> JS.OutOfFuel.
Proof.
  intros Hf. induction xs as [|x rest IH]; [discriminate|].
  simpl. unfold mbind, completion_bind. specialize (Hf x).
  destruct (f x); [|discriminate|contradiction].
  destruct (mapM f rest); [discriminate|discriminate|contradiction].
Qed.

Lemma createChartJsConfig_ends (chartType : string) (data : JS.value)
    (options : Options) :
  createChartJsConfig chartType data options <> JS.OutOfFuel.
Proof.
  unfold createChartJsConfig, mbind, completion_bind.
  pose proof (member_ends data "labels").
  destruct (member data "labels"); [|discriminate|contradiction].
  pose proof (member_ends data "datasets").
  destruct (member data "datasets") as [[| | | | |items| |]| |];
    try discriminate; try contradiction.
  pose proof (mapM_ends (resolveDataset chartType (theme options)) items
                (resolveDataset_ends chartType (theme options))).
  destruct (mapM _ items); [discriminate|discriminate|contradiction].
Qed.

Lemma halts_lookup (key : string) : halts (lookup key).
Proof.
  intros w. rewrite lookup_run, get_run.
  destruct (faults w (calls w)); [discriminate|]. simpl.
  destruct (faults w (S (calls w))); discriminate.
Qed.

Lemma halts_remember (key : string) (png : buffer) : halts (remember key png).
Proof.
  intros w. rewrite remember_run, set_run.
  destruct (faults w (calls w)); [discriminate|]. simpl.
  destruct (faults w (S (calls w))); discriminate.
Qed.

(** The loop is run with [maxRetries] units of fuel and never uses them up. *)
Lemma halts_waitForChart : halts (waitForChart maxRetries false 0).
Proof.
  intros w. rewrite waitForChart_run.
  destruct (on_waitForSelector (chromium w) (polls w)); [discriminate|].
  destruct (on_waitForSelector (chromium w) (S (polls w))); [discriminate|].
  destruct (on_waitForSelector (chromium w) (S (S (polls w)))); discriminate.
Qed.

Lemma halts_render (chartType : string) (data : JS.value) (options : Options)
    (key : string) :
  halts (render chartType data options key).
Proof.
  unfold render.
  apply halts_bind; [|intros _].
  { apply (halts_call NewPage (fun w => on_newPage (chromium w)) (fun w => w)). }
  apply halts_bind; [|intros _].
  { apply halts_try_catch; [|intros _; apply halts_ret].
    apply (halts_call (SetViewport _ _) (fun w => on_setViewport (chromium w))
             (fun w => w)). }
  apply halts_bind; [apply halts_lift, createChartJsConfig_ends | intros chartJsConfig].
  apply halts_bind; [|intros _].
  { apply halts_try_catch; [|intros _].
    - apply (halts_call (SetContent _ _) (fun w => on_networkidle0 (chromium w))
               (fun w => w)).
    - apply (halts_call (SetContent _ _) (fun w => on_domcontentloaded (chromium w))
               (fun w => w)). }
  apply halts_bind; [apply halts_waitForChart | intros _].
  apply halts_bind; [|intros screenshotBuffer].
  { apply halts_try_catch; [apply halts_screenshot | intros e; apply halts_throw]. }
  apply halts_bind; [apply halts_remember | intros _; apply halts_ret].
Qed.

(** [generateChart] always completes: it returns bytes or throws. *)
Lemma generateChart_halts (chartType : string) (data : JS.value)
    (options : RequestOptions) :
  halts (generateChart chartType data options).
Proof.
  unfold generateChart. apply halts_bind; [apply halts_lookup|].
  intros [cached|]; [apply halts_ret|].
  intros w. unfold engine. rewrite launch_run.
  pose proof (member_ends data "datasets") as Hdatasets.
  unfold mbind at 1, completion_bind at 1.
  destruct (member data "datasets") as [datasets| |]; [|discriminate|contradiction].
  pose proof (member_ends datasets "length") as Hlength.
  destruct (member datasets "length"); [|discriminate|contradiction].
  destruct (on_launch (chromium w)); [|discriminate].
  apply halts_try_finally.
  - apply halts_try_catch; [apply halts_render | intros e; apply halts_throw].
  - apply halts_try_catch; [|intros _; apply halts_ret].
    apply (halts_call Close (fun w => on_close (chromium w)) (fun w => w)).
Qed.

(** Two failing requests: a screenshot that fails in a browser that then
    refuses to close, and the [custom] theme, for which the palette lookup
    throws once the page is open.  Each closes the browser once. *)
Example screenshot_failure :
  fst (generateChart "bar" (JS.VObj Samples.bar_data) Samples.request_800_600
         (Samples.unreachable Samples.shutterless))
  = JS.Throw "Browser target closed unexpectedly. This may be due to resource constraints or timeout."
  /\ trace (snd (generateChart "bar" (JS.VObj Samples.bar_data) Samples.request_800_600
                   (Samples.unreachable Samples.shutterless)))
     = [ Ping false; Launch true; NewPage true; SetViewport 800 600 true;
         SetContent "networkidle0" 15000 true; poll true; Screenshot false;
         Close false ].
Proof. split; vm_compute; reflexivity. Qed.

Example custom_theme_failure :
  fst (generateChart "bar" (JS.VObj Samples.bar_data) Samples.custom_800_600
         (Samples.unreachable Samples.healthy))
  = JS.Throw "Chart generation failed: Cannot read properties of undefined (reading 'bar')"
  /\ trace (snd (generateChart "bar" (JS.VObj Samples.bar_data) Samples.custom_800_600
                   (Samples.unreachable Samples.healthy)))
     = [ Ping false; Launch true; NewPage true; SetViewport 800 600 true;
         Close true ].
Proof. split; vm_compute; reflexivity. Qed.

(** C6 (as amended): whatever the cache and the browser do, the events of a
    request either start and close no browser process at all, or read:
    events that start and close none, one successful launch, events that
    start and close none, one call of [browser.close()], and nothing after
    it.  That one call releases the process exactly when it does not
    reject: its outcome is the browser's own [on_close], and nothing is
    tried after a rejected close. *)
Theorem browser_closed_exactly_once (chartType : string) (data : JS.value)
    (options : RequestOptions) (w : world) :
  exists evs,
    trace (snd (generateChart chartType data options w)) = trace w ++ evs
    /\ (Forall process_free evs
        \/ exists before during,
             evs = before ++ [Launch true] ++ during
                   ++ [Close (released (chromium w))]
             /\ Forall process_free before /\ Forall process_free during).
Proof.
  assert (Hcache : forall e, cache_io e -> process_free e)
    by (intros [] H; try destruct ok; simpl in *; tauto).
  assert (Hengine : forall e, engine_io e -> process_free e)
    by (intros [] H; try destruct ok; simpl in *; tauto).
  destruct (generateChart_trace chartType data options w)
    as (cache_evs & Hevs & [Ht|[Ht|(during & Ht & Hduring)]]).
  - exists cache_evs. split; [exact Ht|]. left. eapply Forall_impl; eauto.
  - exists (cache_evs ++ [Launch false]). split; [exact Ht|]. left.
    apply Forall_app. split; [eapply Forall_impl; eauto | repeat constructor].
  - exists (cache_evs ++ [Launch true] ++ during ++ [Close (released (chromium w))]).
    split; [exact Ht|].
    right. exists cache_evs, during. split; [reflexivity|].
    split; eapply Forall_impl; eauto.
Qed.

(** C6 fails as stated: this browser renders the chart and then rejects
    [close()].  The request returns the image; its one close fails, the
    error is dropped, and no event after it releases the process. *)
Lemma rejected_close_leaves_process :
  fst (generateChart "bar" (JS.VObj Samples.bar_data) Samples.request_800_600
         (Samples.fresh Cases.stuck))
  = JS.Return Samples.png
  /\ trace (snd (generateChart "bar" (JS.VObj Samples.bar_data) Samples.request_800_600
                   (Samples.fresh Cases.stuck)))
     = [ Ping true; Get Cases.bar_key true; Launch true; NewPage true;
         SetViewport 800 600 true; SetContent "networkidle0" 15000 true; poll true;
         Screenshot true; Ping true; SetEx Cases.bar_key 3600 "iVBORw==" true;
         Close false ]
  /\ released (chromium (Samples.fresh Cases.stuck)) = false.
Proof.
  repeat split; vm_compute; reflexivity.
Qed.

(** No request disconnects from or reconnects to Redis: [RedisService]
    absorbs every client error, so the [catch] clauses of [generateChart]
    that would reconnect are never entered. *)
Lemma generateChart_never_reconnects (chartType : string) (data : JS.value)
    (options : RequestOptions) (w : world) :
  exists evs,
    trace (snd (generateChart chartType data options w)) = trace w ++ evs
    /\ Forall (fun e => reconnect e = false) evs.
Proof.
  assert (Hcache : forall e, cache_io e -> reconnect e = false)
    by (intros [] H; simpl in *; tauto).
  assert (Hengine : forall e, engine_io e -> reconnect e = false)
    by (intros [] H; simpl in *; tauto).
  destruct (generateChart_trace chartType data options w)
    as (cache_evs & Hevs & [Ht|[Ht|(during & Ht & Hduring)]]).
  - exists cache_evs. split; [exact Ht|]. eapply Forall_impl; eauto.
  - exists (cache_evs ++ [Launch false]). split; [exact Ht|].
    apply Forall_app. split; [eapply Forall_impl; eauto | repeat constructor].
  - exists (cache_evs ++ [Launch true] ++ during ++ [Close (released (chromium w))]).
    split; [exact Ht|].
    apply Forall_app. split; [eapply Forall_impl; eauto|].
    constructor; [reflexivity|].
    apply Forall_app. split; [eapply Forall_impl; eauto | repeat constructor].
Qed.
(** C8 fails on the code: the Redis read of this request fails after a
    successful probe; the request renders, probes and writes the cache, and
    at no point disconnects or reconnects. *)
Theorem get_failure_triggers_no_reconnect :
  fst (generateChart "bar" (JS.VObj Samples.bar_data) Samples.request_800_600
         (Samples.flaky Samples.healthy))
  = JS.Return Samples.png
  /\ trace (snd (generateChart "bar" (JS.VObj Samples.bar_data) Samples.request_800_600
                   (Samples.flaky Samples.healthy)))
     = [ Ping true;
         Get "chart_cache:bar:800:600:light:7ddfca51edc3cd6f5445f5ac882fdc13" false;
         Launch true; NewPage true; SetViewport 800 600 true;
         SetContent "networkidle0" 15000 true; poll true; Screenshot true;
         Ping true;
         SetEx "chart_cache:bar:800:600:light:7ddfca51edc3cd6f5445f5ac882fdc13"
               3600 "iVBORw==" true;
         Close true ]
  /\ filter (fun e => reconnect e = true)
            (trace (snd (generateChart "bar" (JS.VObj Samples.bar_data)
                           Samples.request_800_600 (Samples.flaky Samples.healthy))))
     = [].
Proof.
  repeat split; vm_compute; reflexivity.
Qed.

Lemma waitForChart_never (w : world) :
  (forall attempt, on_waitForSelector (chromium w) attempt <> Succeeds) ->
  waitForChart maxRetries false 0 w
  = (JS.Throw timeout_message,
     polled_once false (paused (polled_once false (paused (polled_once false w))))).
Proof.
  intros Hnever. rewrite waitForChart_run.
  destruct (on_waitForSelector (chromium w) (polls w)) eqn:H0;
    [exfalso; eapply Hnever; eassumption|].
  destruct (on_waitForSelector (chromium w) (S (polls w))) eqn:H1;
    [exfalso; eapply Hnever; eassumption|].
  destruct (on_waitForSelector (chromium w) (S (S (polls w)))) eqn:H2;
    [exfalso; eapply Hnever; eassumption|].
  reflexivity.
Qed.

Lemma render_timeout (chartType : string) (data : JS.value) (options : Options)
    (key : string) (w : world) (cfg : ChartJsConfig) :
  on_newPage (chromium w) = Succeeds ->
  createChartJsConfig chartType data (titled options) = JS.Return cfg ->
  on_networkidle0 (chromium w) = Succeeds
  \/ on_domcontentloaded (chromium w) = Succeeds ->
  (forall attempt, on_waitForSelector (chromium w) attempt <> Succeeds) ->
  fst (render chartType data options key w) = JS.Throw timeout_message
  /\ chromium (snd (render chartType data options key w)) = chromium w
  /\ clock (snd (render chartType data options key w)) = clock w + 2000
  /\ exists before,
       trace (snd (render chartType data options key w))
       = trace w ++ before ++ three_polls
       /\ Forall (fun e => is_poll e = false) before.
Proof.
  intros Hpage Hcfg Hcontent Hnever.
  unfold render. rewrite bind_run. unfold browser_newPage, call. rewrite Hpage.
  rewrite bind_run.
  assert (Hview : exists w1 ok,
             try_catch (page_setViewport (width options) (height options))
                       (fun _ => mret tt) (log (NewPage true) w) = (JS.Return tt, w1)
             /\ chromium w1 = chromium w /\ clock w1 = clock w
             /\ trace w1 = trace w ++ [NewPage true;
                                       SetViewport (width options) (height options) ok]).
  { unfold try_catch, page_setViewport, call. world_simpl.
    destruct (on_setViewport (chromium w)); eexists _, _;
      (split; [reflexivity|]); world_simpl; rewrite <- app_assoc; auto. }
  destruct Hview as (w1 & ok1 & -> & Hc1 & Hk1 & Ht1).
  rewrite bind_run. unfold lift. rewrite Hcfg. rewrite bind_run.
  assert (Hload : exists w2 loads,
             try_catch (page_setContent "networkidle0" 15000)
                       (fun _ => page_setContent "domcontentloaded" 10000) w1
             = (JS.Return tt, w2)
             /\ chromium w2 = chromium w /\ clock w2 = clock w
             /\ trace w2 = trace w1 ++ loads
             /\ Forall (fun e => is_poll e = false) loads).
  { unfold try_catch, page_setContent, call. cbn [String.eqb Ascii.eqb Bool.eqb].
    rewrite Hc1.
    destruct (on_networkidle0 (chromium w)) eqn:Hidle.
    - eexists _, [_]. split; [reflexivity|]. world_simpl.
      repeat split; auto; repeat constructor.
    - destruct Hcontent as [Hidle'|Hdom]; [congruence|]. world_simpl.
      rewrite Hc1, Hdom. eexists _, [_; _]. split; [reflexivity|]. world_simpl.
      rewrite <- app_assoc. repeat split; auto; repeat constructor. }
  destruct Hload as (w2 & loads & -> & Hc2 & Hk2 & Ht2 & Hloads).
  rewrite bind_run, waitForChart_never by (rewrite Hc2; exact Hnever).
  world_simpl. split; [reflexivity|]. split; [exact Hc2|]. split; [lia|].
  exists ([NewPage true; SetViewport (width options) (height options) ok1] ++ loads).
  split.
  - rewrite Ht2, Ht1. unfold three_polls. rewrite <- !app_assoc. reflexivity.
  - apply Forall_app. split; [repeat constructor | exact Hloads].
Qed.

(** C5: a request that reaches the wait for the canvas in a browser where
    the canvas never appears polls the selector three times, sleeps one
    second between two polls, closes the browser and fails with the
    render-timeout message; nothing polls the selector before, nothing
    happens after, and the two sleeps are all the time that passes. *)
Theorem render_timeout_after_three_polls (chartType : string) (data : JS.value)
    (options : RequestOptions) (w : world) (cfg : ChartJsConfig) :
  fst (lookup (generateCacheKey chartType data (resolve options)) w) = JS.Return None ->
  on_launch (chromium w) = Succeeds ->
  on_newPage (chromium w) = Succeeds ->
  createChartJsConfig chartType data (titled (resolve options)) = JS.Return cfg ->
  on_networkidle0 (chromium w) = Succeeds
  \/ on_domcontentloaded (chromium w) = Succeeds ->
  (forall attempt, on_waitForSelector (chromium w) attempt <> Succeeds) ->
  fst (generateChart chartType data options w)
  = JS.Throw "Chart generation failed: Failed to render chart after 3 attempts"
  /\ clock (snd (generateChart chartType data options w)) = clock w + 2000
  /\ exists before ok,
       trace (snd (generateChart chartType data options w))
       = trace w ++ before
         ++ [poll false; Sleep 1000; poll false; Sleep 1000; poll false; Close ok]
       /\ Forall (fun e => is_poll e = false) before.
Proof.
  unfold generateChart. generalize (generateCacheKey chartType data (resolve options)).
  intros key Hmiss Hlaunch Hpage Hcfg Hcontent Hnever.
  rewrite bind_run.
  destruct (emits_lookup key w) as (Hc0 & _ & cache_evs & Ht0 & Hcache).
  pose proof (lookup_clock key w) as Hk0.
  destruct (lookup key w) as [r w0]. cbn [fst snd] in Hmiss, Hc0, Ht0, Hk0. subst r.
  unfold engine. rewrite launch_run.
  destruct (createChartJsConfig_datasets _ _ _ _ Hcfg) as [items Hitems].
  rewrite Hitems. cbn [mbind completion_bind member].
  rewrite Hc0, Hlaunch. rewrite finally_close_run. unfold try_catch.
  destruct (render_timeout chartType data (resolve options) key
              (log (Launch true) w0) cfg) as (Hthrow & _ & Hk & before & Ht & Hbefore);
    try (world_simpl; rewrite ?Hc0; assumption).
  destruct (render _ _ _ _ _) as [r w1]. cbn [fst snd] in Hthrow, Hk, Ht. subst r.
  cbn [fst snd]. unfold throw. split; [reflexivity|].
  split; [world_simpl; rewrite Hk; world_simpl; rewrite Hk0; reflexivity|].
  exists (cache_evs ++ [Launch true] ++ before). eexists.
  split.
  - world_simpl. rewrite Ht. world_simpl. rewrite Ht0. unfold three_polls.
    rewrite <- !app_assoc. reflexivity.
  - apply Forall_app. split.
    + eapply Forall_impl; [exact Hcache|]. intros [] H; simpl in *; tauto.
    + constructor; [reflexivity | exact Hbefore].
Qed.

Lemma render_timeout_after_three_polls_witness :
  fst (generateChart "bar" (JS.VObj Samples.bar_data) Samples.request_800_600
         (Samples.fresh Samples.blank))
  = JS.Throw "Chart generation failed: Failed to render chart after 3 attempts"
  /\ clock (snd (generateChart "bar" (JS.VObj Samples.bar_data)
                   Samples.request_800_600 (Samples.fresh Samples.blank)))
     = clock (Samples.fresh Samples.blank) + 2000
  /\ exists before ok,
       trace (snd (generateChart "bar" (JS.VObj Samples.bar_data)
                     Samples.request_800_600 (Samples.fresh Samples.blank)))
       = trace (Samples.fresh Samples.blank) ++ before
         ++ [poll false; Sleep 1000; poll false; Sleep 1000; poll false; Close ok]
       /\ Forall (fun e => is_poll e = false) before.
Proof.
  eapply (render_timeout_after_three_polls "bar" (JS.VObj Samples.bar_data)
            Samples.request_800_600 (Samples.fresh Samples.blank)).
  - vm_compute. reflexivity.
  - reflexivity.
  - reflexivity.
  - vm_compute. reflexivity.
  - left. reflexivity.
  - intros attempt. discriminate.
Defined.

End Engine.

(** ** Glob patterns *)

Section GlobFacts.
Import Glob Observe.

Lemma scan_hex (h q : list ascii) :
  forallb hex_char h = true ->
  scan None (h ++ q) = map Literal h ++ scan None q.
Proof.
  induction h as [|c h IH]; [reflexivity|].
  cbn [forallb]. intros Hc. apply andb_prop in Hc as [Hc Hh].
  cbn [app map]. rewrite <- IH by exact Hh.
  destruct c as [[] [] [] [] [] [] [] []]; try discriminate Hc; reflexivity.
Qed.

Lemma matches_star (ts : list token) (s : list ascii) :
  matches (Star :: ts) s = true -> exists s1 s2, s = s1 ++ s2 /\ matches ts s2 = true.
Proof.
  induction s as [|c s IH]; cbn [matches]; intros H.
  - apply orb_prop in H as [H|H]; [|discriminate]. exists [], []. auto.
  - apply orb_prop in H as [H|H].
    + exists [], (c :: s). auto.
    + destruct (IH H) as (s1 & s2 & -> & H2). exists (c :: s1), s2. auto.
Qed.

Lemma matches_suffix (ts1 ts2 : list token) (s : list ascii) :
  matches (ts1 ++ ts2) s = true ->
  exists s1 s2, s = s1 ++ s2 /\ matches ts2 s2 = true.
Proof.
  revert s. induction ts1 as [|t ts1 IH]; intros s H.
  - exists [], s. auto.
  - destruct t as [| |c|negated ranges].
    + apply matches_star in H as (s1 & s2 & -> & H).
      destruct (IH _ H) as (s3 & s4 & -> & H'). exists (s1 ++ s3), s4.
      rewrite app_assoc. auto.
    + destruct s as [|c' s]; [discriminate|]. cbn [app matches] in H.
      destruct (IH _ H) as (s3 & s4 & -> & H'). exists (c' :: s3), s4. auto.
    + destruct s as [|c' s]; [discriminate|]. cbn [app matches] in H.
      apply andb_prop in H as [_ H].
      destruct (IH _ H) as (s3 & s4 & -> & H'). exists (c' :: s3), s4. auto.
    + destruct s as [|c' s]; [discriminate|]. cbn [app matches] in H.
      apply andb_prop in H as [_ H].
      destruct (IH _ H) as (s3 & s4 & -> & H'). exists (c' :: s3), s4. auto.
Qed.

Lemma matches_literals (h : list ascii) (ts : list token) (s : list ascii) :
  matches (map Literal h ++ ts) s = true -> exists rest, s = h ++ rest.
Proof.
  revert s. induction h as [|c h IH]; intros s H; [exists s; reflexivity|].
  destruct s as [|c' s]; [discriminate|]. cbn [map app matches] in H.
  apply andb_prop in H as [Hc H]. apply Ascii.eqb_eq in Hc as ->.
  destruct (IH _ H) as [rest ->]. exists rest. reflexivity.
Qed.

Lemma list_ascii_of_string_append (a b : string) :
  list_ascii_of_string (a +:+ b) = list_ascii_of_string a ++ list_ascii_of_string b.
Proof. induction a as [|c a IH]; [reflexivity|]. simpl. rewrite IH. reflexivity. Qed.

(** A key that the invalidation pattern of a hexadecimal chart hash matches
    contains that hash. *)
Lemma invalidation_pattern_contains (chartHash key : string) :
  forallb hex_char (list_ascii_of_string chartHash) = true ->
  glob ("chart_cache:*:*:*:*:*" +:+ chartHash +:+ "*") key = true ->
  exists before after,
    list_ascii_of_string key = before ++ list_ascii_of_string chartHash ++ after.
Proof.
  intros Hhex. unfold glob. rewrite !list_ascii_of_string_append.
  change (scan None (list_ascii_of_string "chart_cache:*:*:*:*:*" ++ ?q))
    with (scan None (list_ascii_of_string "chart_cache:*:*:*:*:*") ++ scan None q).
  rewrite scan_hex by exact Hhex. intros H.
  apply matches_suffix in H as (before & s2 & -> & H).
  apply matches_literals in H as [after ->]. eauto.
Qed.

Lemma windows_head (n : nat) (s : list ascii) : In (take n s) (windows n s).
Proof. destruct s; left; reflexivity. Qed.

Lemma window_in (before h after : list ascii) :
  In h (windows (length h) (before ++ h ++ after)).
Proof.
  induction before as [|c before IH].
  - rewrite <- (take_app_length h after) at 1. apply windows_head.
  - simpl. right. exact IH.
Qed.

End GlobFacts.

(** ** Invalidation *)

Section Invalidation.
Import Runtime Observe ChartGeneratorService.

Lemma delPattern_run (pattern : string) (w : world) :
  RedisService.delPattern pattern w
  = match faults w (calls w) with
    | Some _ => (JS.Return tt, log (Keys pattern false) (tick w))
    | None =>
        let w1 := log (Keys pattern true) (tick w) in
        if (0 <? length (matching pattern w))%nat then
          match faults w (S (calls w)) with
          | Some _ => (JS.Return tt, log (Del (matching pattern w) false) (tick w1))
          | None =>
              (JS.Return tt,
               log (Del (matching pattern w) true)
                   (tick (with_store (fun m => foldr delete m (matching pattern w)) w1)))
          end
        else (JS.Return tt, w1)
    end.
Proof.
  unfold RedisService.delPattern, try_catch, client_keys, client_del, client.
  rewrite bind_run.
  destruct (faults w (calls w)); [reflexivity|]. cbn zeta.
  destruct (0 <? length (matching pattern w))%nat; [|reflexivity].
  cbn [faults calls log tick]. destruct (faults w (S (calls w))); reflexivity.
Qed.

Lemma invalidateChartCache_run (chartHash : string) (w : world) :
  invalidateChartCache chartHash w
  = RedisService.delPattern ("chart_cache:*:*:*:*:*" +:+ chartHash +:+ "*") w.
Proof.
  unfold invalidateChartCache, try_catch. rewrite delPattern_run.
  destruct (faults w (calls w)); [reflexivity|]. cbn zeta.
  destruct (0 <? length _)%nat; [|reflexivity].
  destruct (faults w (S (calls w))); reflexivity.
Qed.

Lemma elem_of_matching (pattern key : string) (w : world) :
  key ∈ matching pattern w <-> Glob.glob pattern key = true /\ is_Some (live w key).
Proof.
  unfold matching. rewrite list_elem_of_filter. split; [tauto|].
  intros [Hglob Hlive]. split; [tauto|].
  unfold live in Hlive. destruct (store w !! key) as [[text deadline]|] eqn:Hkey.
  - apply list_elem_of_In, in_map_iff. exists (key, (text, deadline)).
    split; [reflexivity|]. apply list_elem_of_In, elem_of_map_to_list. exact Hkey.
  - destruct Hlive as [? [=]].
Qed.

(** What [invalidateChartCache] deletes is decided by the glob pattern alone:
    a key the pattern does not match keeps its entry. *)
Lemma invalidateChartCache_spares (chartHash key : string) (w : world) :
  Glob.glob ("chart_cache:*:*:*:*:*" +:+ chartHash +:+ "*") key = false ->
  store (snd (invalidateChartCache chartHash w)) !! key = store w !! key.
Proof.
  intros Hglob. rewrite invalidateChartCache_run, delPattern_run.
  destruct (faults w (calls w)); [reflexivity|]. cbn zeta.
  destruct (0 <? length _)%nat; [|reflexivity].
  destruct (faults w (S (calls w))); [reflexivity|].
  cbn [snd store log tick with_store].
  apply lookup_foldr_delete_not_elem_of.
  rewrite elem_of_matching. intros [Hmatch _]. congruence.
Qed.

(** A live key the pattern matches loses its entry when neither [KEYS] nor
    [DEL] fails. *)
Lemma invalidateChartCache_deletes (chartHash key : string) (w : world) :
  faults w (calls w) = None -> faults w (S (calls w)) = None ->
  Glob.glob ("chart_cache:*:*:*:*:*" +:+ chartHash +:+ "*") key = true ->
  is_Some (live w key) ->
  store (snd (invalidateChartCache chartHash w)) !! key = None.
Proof.
  intros Hkeys Hdel Hglob Hlive.
  assert (Hin : key ∈ matching ("chart_cache:*:*:*:*:*" +:+ chartHash +:+ "*") w)
    by (apply elem_of_matching; auto).
  rewrite invalidateChartCache_run, delPattern_run, Hkeys, Hdel. cbn zeta.
  destruct (matching _ w) as [|k ks] eqn:Hm; [inversion Hin|].
  cbn [length Nat.ltb Nat.leb snd store log tick with_store].
  apply lookup_foldr_delete. exact Hin.
Qed.

Lemma sample_key_contains_only_its_digest (chartHash : string) :
  is_chart_hash chartHash = true ->
  Glob.glob ("chart_cache:*:*:*:*:*" +:+ chartHash +:+ "*")
            "chart_cache:bar:800:600:light:7ddfca51edc3cd6f5445f5ac882fdc13" = true ->
  chartHash = "7ddfca51edc3cd6f5445f5ac882fdc13".
Proof.
  unfold is_chart_hash. intros Hh Hglob. apply andb_prop in Hh as [Hlen Hhex].
  apply Nat.eqb_eq in Hlen.
  destruct (invalidation_pattern_contains _ _ Hhex Hglob) as (before & after & Hkey).
  pose proof (window_in before (list_ascii_of_string chartHash) after) as Hin.
  rewrite <- Hkey in Hin.
  replace (length (list_ascii_of_string chartHash)) with 32%nat in Hin.
  2:{ rewrite <- Hlen. clear. induction chartHash; simpl; congruence. }
  vm_compute in Hin.
  repeat (destruct Hin as [Hin|Hin];
          [apply (f_equal string_of_list_ascii) in Hin;
           rewrite string_of_list_ascii_of_string in Hin; subst chartHash;
           first [ reflexivity
                 | vm_compute in Hhex; discriminate
                 | vm_compute in Hlen; discriminate ]|]).
  contradiction.
Qed.

(** Whatever hash the chart has, short of the digest of the request itself,
    invalidating the chart leaves its cached render in place. *)
Lemma rendered_chart_survives_invalidation (chartHash : string) :
  is_chart_hash chartHash = true ->
  chartHash <> "7ddfca51edc3cd6f5445f5ac882fdc13" ->
  store (snd (invalidateChartCache chartHash
                (snd (generateChart "bar" (JS.VObj Samples.bar_data)
                        Samples.request_800_600 (Samples.fresh Samples.healthy)))))
    !! "chart_cache:bar:800:600:light:7ddfca51edc3cd6f5445f5ac882fdc13"
  = Some ("iVBORw==", 3600000).
Proof.
  intros Hhash Hne. rewrite invalidateChartCache_spares; [vm_compute; reflexivity|].
  destruct (Glob.glob _ _) eqn:Hglob; [|reflexivity].
  exfalso. apply Hne. exact (sample_key_contains_only_its_digest _ Hhash Hglob).
Qed.

(** C7 fails on the code: the key a render is cached under is built from the
    chart type, the size, the theme and the digest of the request, and never
    from the chart hash.  Here chart [0123...cdef] is rendered and cached;
    invalidating that chart asks Redis for the matching keys, finds none,
    deletes nothing, and the cached render is still served. *)
Theorem invalidation_misses_rendered_chart :
  generateCacheKey "bar" (JS.VObj Samples.bar_data) (resolve Samples.request_800_600)
  = "chart_cache:bar:800:600:light:7ddfca51edc3cd6f5445f5ac882fdc13"
  /\ cached (snd (generateChart "bar" (JS.VObj Samples.bar_data) Samples.request_800_600
                    (Samples.fresh Samples.healthy)))
            "chart_cache:bar:800:600:light:7ddfca51edc3cd6f5445f5ac882fdc13"
     = Some Samples.png
  /\ drop 11 (trace (snd (invalidateChartCache "0123456789abcdef0123456789abcdef"
                (snd (generateChart "bar" (JS.VObj Samples.bar_data)
                        Samples.request_800_600 (Samples.fresh Samples.healthy))))))
     = [Keys "chart_cache:*:*:*:*:*0123456789abcdef0123456789abcdef*" true]
  /\ cached (snd (invalidateChartCache "0123456789abcdef0123456789abcdef"
                (snd (generateChart "bar" (JS.VObj Samples.bar_data)
                        Samples.request_800_600 (Samples.fresh Samples.healthy)))))
            "chart_cache:bar:800:600:light:7ddfca51edc3cd6f5445f5ac882fdc13"
     = Some Samples.png
  /\ fst (generateChart "bar" (JS.VObj Samples.bar_data) Samples.request_800_600
            (snd (invalidateChartCache "0123456789abcdef0123456789abcdef"
                    (snd (generateChart "bar" (JS.VObj Samples.bar_data)
                            Samples.request_800_600 (Samples.fresh Samples.healthy))))))
     = JS.Return Samples.png.
Proof.
  repeat split; vm_compute; reflexivity.
Qed.

End Invalidation.

(** * Further properties *)

Ltac world_simpl :=
  cbn [Runtime.chromium Runtime.faults Runtime.calls Runtime.polls Runtime.trace
       Runtime.store Runtime.clock Runtime.log Runtime.tick Runtime.polled
       Runtime.advance Runtime.with_store Observe.polled_once Observe.paused
       fst snd].

(** ** [RedisService]: errors and deletions *)

Section RedisFacts.
Import Runtime Observe ChartGeneratorService.

Lemma del_run (key : string) (w : world) :
  RedisService.del key w
  = match faults w (calls w) with
    | Some _ => (JS.Return tt, log (Del [key] false) (tick w))
    | None =>
        (JS.Return tt, log (Del [key] true) (tick (with_store (delete key) w)))
    end.
Proof.
  unfold RedisService.del, try_catch, client_del, client.
  destruct (faults w (calls w)); reflexivity.
Qed.

(** X1: when the Redis client fails, every method of [RedisService] but
    [connect] completes all the same, [get] with [null] and [isAvailable]
    with [false], and leaves the store as it was; [connect] alone hands the
    client's error on. *)
Theorem redis_service_absorbs_client_errors (key : string) (value : buffer)
    (ttl : Z) (pattern : string) (w : world) (e : JS.error) :
  faults w (calls w) = Some e ->
  RedisService.get key w = (JS.Return None, log (Get key false) (tick w))
  /\ RedisService.set key value ttl w
     = (JS.Return tt, log (SetEx key ttl (Base64.to_string value) false) (tick w))
  /\ RedisService.del key w = (JS.Return tt, log (Del [key] false) (tick w))
  /\ RedisService.delPattern pattern w
     = (JS.Return tt, log (Keys pattern false) (tick w))
  /\ RedisService.isAvailable w = (JS.Return false, log (Ping false) (tick w))
  /\ RedisService.disconnect w = (JS.Return tt, log (Disconnect false) (tick w))
  /\ RedisService.connect w = (JS.Throw e, log (Connect false) (tick w)).
Proof.
  intros Hfault.
  rewrite get_run, set_run, del_run, delPattern_run, isAvailable_run, Hfault.
  repeat split.
  - unfold RedisService.disconnect, try_catch, client_disconnect, client.
    rewrite Hfault. reflexivity.
  - unfold RedisService.connect, try_catch, client_connect, client, throw.
    rewrite Hfault. reflexivity.
Qed.

Lemma redis_service_absorbs_client_errors_witness :
  RedisService.get "chart" (Samples.unreachable Samples.healthy)
  = (JS.Return None, log (Get "chart" false) (tick (Samples.unreachable Samples.healthy)))
  /\ RedisService.set "chart" Samples.png 3600 (Samples.unreachable Samples.healthy)
     = (JS.Return tt,
        log (SetEx "chart" 3600 (Base64.to_string Samples.png) false)
            (tick (Samples.unreachable Samples.healthy)))
  /\ RedisService.del "chart" (Samples.unreachable Samples.healthy)
     = (JS.Return tt, log (Del ["chart"] false) (tick (Samples.unreachable Samples.healthy)))
  /\ RedisService.delPattern "chart_cache:*" (Samples.unreachable Samples.healthy)
     = (JS.Return tt,
        log (Keys "chart_cache:*" false) (tick (Samples.unreachable Samples.healthy)))
  /\ RedisService.isAvailable (Samples.unreachable Samples.healthy)
     = (JS.Return false, log (Ping false) (tick (Samples.unreachable Samples.healthy)))
  /\ RedisService.disconnect (Samples.unreachable Samples.healthy)
     = (JS.Return tt, log (Disconnect false) (tick (Samples.unreachable Samples.healthy)))
  /\ RedisService.connect (Samples.unreachable Samples.healthy)
     = (JS.Throw "ECONNREFUSED",
        log (Connect false) (tick (Samples.unreachable Samples.healthy))).
Proof.
  apply (redis_service_absorbs_client_errors "chart" Samples.png 3600 "chart_cache:*"
           (Samples.unreachable Samples.healthy) "ECONNREFUSED").
  reflexivity.
Defined.

(** X2: a [del] that reaches the server removes the entry of its key and
    of no other. *)
Theorem del_removes_only_its_key (key other : string) (w : world) :
  faults w (calls w) = None ->
  live (snd (RedisService.del key w)) other
  = if String.eqb key other then None else live w other.
Proof.
  intros Hok. rewrite del_run, Hok. unfold live. world_simpl.
  destruct (String.eqb_spec key other) as [->|Hne].
  - rewrite lookup_delete_eq. reflexivity.
  - rewrite lookup_delete_ne by exact Hne. reflexivity.
Qed.

Lemma del_removes_only_its_key_witness :
  live (snd (RedisService.del Cases.bar_key Cases.rendered)) Cases.bar_key
  = if String.eqb Cases.bar_key Cases.bar_key then None
    else live Cases.rendered Cases.bar_key.
Proof.
  apply (del_removes_only_its_key Cases.bar_key Cases.bar_key Cases.rendered).
  vm_compute. reflexivity.
Defined.

Lemma live_after_deletions (keys : list string) (key : string) (w w' : world) :
  store w' = foldr delete (store w) keys -> clock w' = clock w ->
  live w' key = if bool_decide (key ∈ keys) then None else live w key.
Proof.
  intros Hs Hc. unfold live. rewrite Hs, Hc.
  destruct (bool_decide_reflect (key ∈ keys)) as [Hin|Hout].
  - rewrite lookup_foldr_delete by exact Hin. reflexivity.
  - rewrite lookup_foldr_delete_not_elem_of by exact Hout. reflexivity.
Qed.

Lemma delPattern_live (pattern key : string) (w : world) :
  faults w (calls w) = None -> faults w (S (calls w)) = None ->
  live (snd (RedisService.delPattern pattern w)) key
  = if Glob.glob pattern key then None else live w key.
Proof.
  intros Hkeys Hdel.
  assert (Hlive : live (snd (RedisService.delPattern pattern w)) key
                  = if bool_decide (key ∈ matching pattern w) then None else live w key).
  { rewrite delPattern_run, Hkeys, Hdel. cbn zeta.
    destruct (matching pattern w) as [|k ks] eqn:Hm.
    - cbn [length Nat.ltb Nat.leb snd].
      rewrite bool_decide_eq_false_2 by apply not_elem_of_nil. reflexivity.
    - cbn [length Nat.ltb Nat.leb snd]. rewrite <- Hm.
      apply live_after_deletions; reflexivity. }
  rewrite Hlive.
  destruct (bool_decide_reflect (key ∈ matching pattern w)) as [Hin|Hout].
  - apply elem_of_matching in Hin as [-> _]. reflexivity.
  - destruct (Glob.glob pattern key) eqn:Hglob; [|reflexivity].
    destruct (live w key) as [text|] eqn:Hl; [|reflexivity].
    exfalso. apply Hout, elem_of_matching. rewrite Hl. split; [exact Hglob | eauto].
Qed.

(** X3: when [KEYS] and [DEL] both go through, [delPattern] leaves no live
    key that the pattern matches and every other key as it was; it sends
    [DEL] only when [KEYS] found something. *)
Theorem delPattern_removes_matching_keys (pattern key : string) (w : world) :
  faults w (calls w) = None -> faults w (S (calls w)) = None ->
  live (snd (RedisService.delPattern pattern w)) key
  = (if Glob.glob pattern key then None else live w key)
  /\ trace (snd (RedisService.delPattern pattern w))
     = trace w ++ Keys pattern true
                  :: match matching pattern w with
                     | [] => []
                     | found => [Del found true]
                     end.
Proof.
  intros Hkeys Hdel. split; [apply delPattern_live; assumption|].
  rewrite delPattern_run, Hkeys, Hdel. cbn zeta.
  destruct (matching pattern w) as [|k ks]; cbn [length Nat.ltb Nat.leb]; world_simpl.
  - reflexivity.
  - rewrite <- app_assoc. reflexivity.
Qed.

Lemma delPattern_removes_matching_keys_witness :
  live (snd (RedisService.delPattern "chart_cache:bar:*" Cases.rendered)) Cases.bar_key
  = (if Glob.glob "chart_cache:bar:*" Cases.bar_key then None
     else live Cases.rendered Cases.bar_key)
  /\ trace (snd (RedisService.delPattern "chart_cache:bar:*" Cases.rendered))
     = trace Cases.rendered
       ++ Keys "chart_cache:bar:*" true
          :: match matching "chart_cache:bar:*" Cases.rendered with
             | [] => []
             | found => [Del found true]
             end.
Proof.
  apply (delPattern_removes_matching_keys "chart_cache:bar:*" Cases.bar_key
           Cases.rendered); vm_compute; reflexivity.
Defined.

End RedisFacts.

(** ** [invalidateAllCache] and the lifetime of a cached render *)

Section CacheLifetime.
Import Runtime Observe ChartGeneratorService.

Lemma matches_star_any (s : list ascii) : Glob.matches [Glob.Star] s = true.
Proof. induction s as [|c s IH]; [reflexivity|]. cbn [Glob.matches orb]. exact IH. Qed.

Lemma matches_literal_prefix (h s : list ascii) :
  Glob.matches (map Glob.Literal h ++ [Glob.Star]) s = true <-> exists rest, s = h ++ rest.
Proof.
  split; [apply matches_literals|].
  intros [rest ->]. induction h as [|c h IH]; [apply matches_star_any|].
  cbn [map app Glob.matches]. rewrite Ascii.eqb_refl. exact IH.
Qed.

(** The pattern of [invalidateAllCache] matches the keys that start with
    [chart_cache:]. *)
Lemma glob_chart_cache (key : string) :
  Glob.glob "chart_cache:*" key = true <-> exists rest, key = "chart_cache:" +:+ rest.
Proof.
  unfold Glob.glob.
  change (Glob.scan None (list_ascii_of_string "chart_cache:*"))
    with (map Glob.Literal (list_ascii_of_string "chart_cache:") ++ [Glob.Star]).
  rewrite matches_literal_prefix. split.
  - intros [rest H]. exists (string_of_list_ascii rest).
    rewrite <- (string_of_list_ascii_of_string key), H.
    reflexivity.
  - intros [rest ->]. exists (list_ascii_of_string rest). reflexivity.
Qed.

Lemma invalidateAllCache_run (w : world) :
  invalidateAllCache w = RedisService.delPattern "chart_cache:*" w.
Proof.
  unfold invalidateAllCache, try_catch. rewrite delPattern_run.
  destruct (faults w (calls w)); [reflexivity|]. cbn zeta.
  destruct (0 <? length _)%nat; [|reflexivity].
  destruct (faults w (S (calls w))); reflexivity.
Qed.

Lemma lookup_absent (key : string) (w : world) :
  live w key = None -> fst (lookup key w) = JS.Return None.
Proof.
  intros Hgone. rewrite lookup_run, get_run. unfold cached.
  destruct (faults w (calls w)); [reflexivity|]. cbn [faults calls log tick].
  destruct (faults w (S (calls w))); [reflexivity|].
  change (live (log (Ping true) (tick w)) key) with (live w key).
  rewrite Hgone. reflexivity.
Qed.

(** X4: when [KEYS] and [DEL] both go through, [invalidateAllCache] removes
    the entry of every key [generateCacheKey] can produce, so that the next
    lookup of any request misses, and leaves the keys outside [chart_cache:]
    alone. *)
Theorem invalidateAllCache_clears_every_render (chartType : string)
    (data : JS.value) (options : Options) (other : string) (w : world) :
  faults w (calls w) = None -> faults w (S (calls w)) = None ->
  Glob.glob "chart_cache:*" other = false ->
  live (snd (invalidateAllCache w)) (generateCacheKey chartType data options) = None
  /\ fst (lookup (generateCacheKey chartType data options) (snd (invalidateAllCache w)))
     = JS.Return None
  /\ live (snd (invalidateAllCache w)) other = live w other.
Proof.
  intros Hkeys Hdel Hother.
  assert (Hkey : Glob.glob "chart_cache:*" (generateCacheKey chartType data options) = true).
  { apply glob_chart_cache. eexists. reflexivity. }
  assert (Hgone : live (snd (invalidateAllCache w))
                       (generateCacheKey chartType data options) = None).
  { rewrite invalidateAllCache_run, delPattern_live, Hkey by assumption. reflexivity. }
  split; [exact Hgone|]. split.
  - apply lookup_absent. exact Hgone.
  - rewrite invalidateAllCache_run, delPattern_live, Hother by assumption. reflexivity.
Qed.

Lemma invalidateAllCache_clears_every_render_witness :
  live (snd (invalidateAllCache Cases.rendered))
       (generateCacheKey "bar" (JS.VObj Samples.bar_data) Samples.light_800_600) = None
  /\ fst (lookup (generateCacheKey "bar" (JS.VObj Samples.bar_data) Samples.light_800_600)
            (snd (invalidateAllCache Cases.rendered)))
     = JS.Return None
  /\ live (snd (invalidateAllCache Cases.rendered)) "session:42"
     = live Cases.rendered "session:42".
Proof.
  apply (invalidateAllCache_clears_every_render "bar" (JS.VObj Samples.bar_data)
           Samples.light_800_600 "session:42" Cases.rendered); vm_compute; reflexivity.
Defined.

Lemma bind_return {A B : Type} (m : M A) (f : A -> M B) (w w' : world) (b : B) :
  (m ≫= f) w = (JS.Return b, w') ->
  exists a w1, m w = (JS.Return a, w1) /\ f a w1 = (JS.Return b, w').
Proof.
  rewrite bind_run. destruct (m w) as [[a|e|] w1]; intros H; try congruence. eauto.
Qed.

Lemma emits_frame {A : Type} (allowed : event -> Prop) (c : M A) (w w' : world)
    (r : JS.completion A) :
  emits allowed c -> c w = (r, w') ->
  faults w' = faults w /\ chromium w' = chromium w.
Proof.
  intros Hc Hrun. destruct (Hc w) as (Hb & Hf & _). rewrite Hrun in Hb, Hf. auto.
Qed.

(** A render that returns has written its bytes to the cache as its last
    step. *)
Lemma render_remembers (chartType : string) (data : JS.value) (options : Options)
    (key : string) (w w' : world) (png : buffer) :
  render chartType data options key w = (JS.Return png, w') ->
  exists w1, faults w1 = faults w /\ remember key png w1 = (JS.Return tt, w').
Proof.
  unfold render. intros H.
  apply bind_return in H as ([] & w1 & H1 & H).
  apply (emits_frame (fun _ => True)) in H1 as [F1 _].
  2:{ apply (emits_call _ NewPage (fun w => on_newPage (chromium w)) (fun w => w)); auto. }
  apply bind_return in H as ([] & w2 & H2 & H).
  apply (emits_frame (fun _ => True)) in H2 as [F2 _].
  2:{ apply emits_try_catch; [|intros _; apply emits_ret].
      apply (emits_call _ (SetViewport _ _) (fun w => on_setViewport (chromium w))
               (fun w => w)); auto. }
  apply bind_return in H as (cfg & w3 & H3 & H).
  apply (emits_frame (fun _ => True)) in H3 as [F3 _]; [|apply emits_lift].
  apply bind_return in H as ([] & w4 & H4 & H).
  apply (emits_frame (fun _ => True)) in H4 as [F4 _].
  2:{ apply emits_try_catch; [|intros _].
      - apply (emits_call _ (SetContent _ _) (fun w => on_networkidle0 (chromium w))
                 (fun w => w)); auto.
      - apply (emits_call _ (SetContent _ _) (fun w => on_domcontentloaded (chromium w))
                 (fun w => w)); auto. }
  apply bind_return in H as ([] & w5 & H5 & H).
  apply (emits_frame page_io) in H5 as [F5 _]; [|apply emits_waitForChart].
  apply bind_return in H as (buf & w6 & H6 & H).
  apply (emits_frame (fun _ => True)) in H6 as [F6 _].
  2:{ apply emits_try_catch; [|intros e; apply emits_throw].
      apply emits_screenshot. auto. }
  apply bind_return in H as ([] & w7 & H7 & H).
  injection H as -> ->.
  exists w6. split; [congruence | exact H7].
Qed.

(** X5: on a Redis without faults, a request that missed the cache and
    rendered a non-empty image has written it under its key with a deadline
    3600 s after the instant of the write, the [SETEX] that precedes
    [browser.close()]; what comes after the write is that one close.  Any
    later request for the key that finds this entry, its probe and read
    going through, is answered from the cache, by the probe and the read and
    without the browser, exactly when its read happens before that deadline;
    from the deadline on the entry has expired and the request goes to the
    browser again. *)
Theorem rendered_chart_is_cached_for_an_hour (chartType : string)
    (data : JS.value) (options : RequestOptions) (w : world) (png : buffer) :
  (forall n, faults w n = None) ->
  fst (lookup (generateCacheKey chartType data (resolve options)) w) = JS.Return None ->
  fst (generateChart chartType data options w) = JS.Return png ->
  png <> [] ->
  exists written ok,
    snd (generateChart chartType data options w)
    = log (Close ok)
        (snd (RedisService.set (generateCacheKey chartType data (resolve options))
                png 3600 written))
    /\ store (snd (generateChart chartType data options w))
         !! generateCacheKey chartType data (resolve options)
       = Some (Base64.to_string png, clock written + 3600000)
    /\ forall later,
         store later !! generateCacheKey chartType data (resolve options)
         = Some (Base64.to_string png, clock written + 3600000) ->
         faults later (calls later) = None ->
         faults later (S (calls later)) = None ->
         generateChart chartType data options later
         = if clock (snd (RedisService.isAvailable later)) <? clock written + 3600000
           then (JS.Return png,
                 log (Get (generateCacheKey chartType data (resolve options)) true)
                   (tick (log (Ping true) (tick later))))
           else engine chartType data (resolve options)
                  (generateCacheKey chartType data (resolve options))
                  (log (Get (generateCacheKey chartType data (resolve options)) true)
                     (tick (log (Ping true) (tick later)))).
Proof.
  unfold generateChart. generalize (generateCacheKey chartType data (resolve options)).
  intros key Hok Hmiss Hpng Hne. rewrite bind_run in Hpng |- *.
  destruct (emits_lookup key w) as (_ & Hf0 & _).
  destruct (lookup key w) as [r w0]. cbn [fst snd] in Hmiss, Hf0. subst r.
  unfold engine in Hpng |- *. rewrite launch_run in Hpng |- *.
  destruct (_ ≫= _) as [v|e|]; try discriminate.
  destruct (on_launch (chromium w0)); [|discriminate].
  rewrite finally_close_run in Hpng |- *. cbn [fst snd] in Hpng |- *.
  unfold try_catch in Hpng |- *.
  destruct (render _ _ _ _ _) as [[buf|e|] w1] eqn:Hrender; try discriminate.
  cbn [fst snd] in Hpng |- *. injection Hpng as ->.
  apply render_remembers in Hrender as (w2 & Hf2 & Hrem).
  cbn [faults log] in Hf2.
  assert (Hall : forall n, faults w2 n = None) by (intros n; rewrite Hf2, Hf0; apply Hok).
  rewrite remember_run, Hall in Hrem.
  exists (log (Ping true) (tick w2)), (released (chromium w1)).
  rewrite Hrem. cbn [snd]. split; [reflexivity|]. split.
  - rewrite set_run in Hrem. cbn [faults calls log tick] in Hrem. rewrite Hall in Hrem.
    injection Hrem as <-. world_simpl. rewrite lookup_insert_eq.
    reflexivity.
  - intros later Hentry Hping Hget.
    rewrite bind_run, lookup_run, Hping, get_run. cbn [faults calls log tick].
    rewrite Hget. rewrite isAvailable_run, Hping. cbn [snd].
    unfold cached, live. cbn [store clock log tick]. rewrite Hentry.
    destruct (_ <? _); [|reflexivity].
    pose proof (to_string_nonempty png Hne) as Htruthy.
    cbn [JS.truthy] in *. destruct (negb _); [|discriminate].
    rewrite of_string_to_string. reflexivity.
Qed.

Lemma rendered_chart_is_cached_for_an_hour_witness :
  exists written ok,
    snd (generateChart "bar" (JS.VObj Samples.bar_data) Samples.request_800_600
           (Samples.fresh Samples.healthy))
    = log (Close ok)
        (snd (RedisService.set
                (generateCacheKey "bar" (JS.VObj Samples.bar_data)
                   (resolve Samples.request_800_600))
                Samples.png 3600 written))
    /\ store (snd (generateChart "bar" (JS.VObj Samples.bar_data)
                     Samples.request_800_600 (Samples.fresh Samples.healthy)))
         !! generateCacheKey "bar" (JS.VObj Samples.bar_data)
              (resolve Samples.request_800_600)
       = Some (Base64.to_string Samples.png, clock written + 3600000)
    /\ forall later,
         store later !! generateCacheKey "bar" (JS.VObj Samples.bar_data)
                          (resolve Samples.request_800_600)
         = Some (Base64.to_string Samples.png, clock written + 3600000) ->
         faults later (calls later) = None ->
         faults later (S (calls later)) = None ->
         generateChart "bar" (JS.VObj Samples.bar_data) Samples.request_800_600 later
         = if clock (snd (RedisService.isAvailable later)) <? clock written + 3600000
           then (JS.Return Samples.png,
                 log (Get (generateCacheKey "bar" (JS.VObj Samples.bar_data)
                             (resolve Samples.request_800_600)) true)
                   (tick (log (Ping true) (tick later))))
           else engine "bar" (JS.VObj Samples.bar_data) (resolve Samples.request_800_600)
                  (generateCacheKey "bar" (JS.VObj Samples.bar_data)
                     (resolve Samples.request_800_600))
                  (log (Get (generateCacheKey "bar" (JS.VObj Samples.bar_data)
                               (resolve Samples.request_800_600)) true)
                     (tick (log (Ping true) (tick later)))).
Proof.
  apply (rendered_chart_is_cached_for_an_hour "bar" (JS.VObj Samples.bar_data)
           Samples.request_800_600 (Samples.fresh Samples.healthy) Samples.png).
  - intros n. reflexivity.
  - vm_compute. reflexivity.
  - vm_compute. reflexivity.
  - discriminate.
Defined.

End CacheLifetime.

(** ** What a request touches, costs and throws *)

Section Requests.
Import Runtime Observe ChartGeneratorService Budget Footprint.

Lemma emits_own_lookup (key : string) : emits (own_traffic key) (lookup key).
Proof.
  intros w. rewrite lookup_run, get_run. simpl.
  destruct (faults w (calls w)); [|destruct (faults w (S (calls w)))]; simpl;
    (split; [reflexivity|]); (split; [reflexivity|]).
  - exists [Ping false]. split; [reflexivity|]. repeat constructor.
  - exists [Ping true; Get key false]. rewrite <- app_assoc. split; [reflexivity|].
    repeat constructor. simpl. rewrite String.eqb_refl. exact I.
  - exists [Ping true; Get key true]. rewrite <- app_assoc. split; [reflexivity|].
    repeat constructor. simpl. rewrite String.eqb_refl. exact I.
Qed.

Lemma emits_own_remember (key : string) (png : buffer) :
  emits (own_traffic key) (remember key png).
Proof.
  intros w. rewrite remember_run, set_run. simpl.
  destruct (faults w (calls w)); [|destruct (faults w (S (calls w)))]; simpl;
    (split; [reflexivity|]); (split; [reflexivity|]).
  - exists [Ping false]. split; [reflexivity|]. repeat constructor.
  - eexists [Ping true; SetEx _ _ _ false]. rewrite <- app_assoc. split; [reflexivity|].
    repeat constructor. simpl. rewrite String.eqb_refl. exact I.
  - eexists [Ping true; SetEx _ _ _ true]. rewrite <- app_assoc. split; [reflexivity|].
    repeat constructor. simpl. rewrite String.eqb_refl. exact I.
Qed.

Lemma emits_own_render (chartType : string) (data : JS.value) (options : Options)
    (key : string) :
  emits (own_traffic key) (render chartType data options key).
Proof.
  unfold render.
  apply emits_bind; [|intros _].
  { apply (emits_call _ NewPage (fun w => on_newPage (chromium w)) (fun w => w));
      [intros ok; exact I | auto]. }
  apply emits_bind; [|intros _].
  { apply emits_try_catch; [|intros _; apply emits_ret].
    apply (emits_call _ (SetViewport _ _) (fun w => on_setViewport (chromium w))
             (fun w => w)); [intros ok; exact I | auto]. }
  apply emits_bind; [apply emits_lift | intros chartJsConfig].
  apply emits_bind; [|intros _].
  { apply emits_try_catch; [|intros _].
    - apply (emits_call _ (SetContent _ _) (fun w => on_networkidle0 (chromium w))
               (fun w => w)); [intros ok; exact I | auto].
    - apply (emits_call _ (SetContent _ _)
               (fun w => on_domcontentloaded (chromium w)) (fun w => w));
        [intros ok; exact I | auto]. }
  apply emits_bind; [|intros _].
  { apply (emits_weaken page_io); [|apply emits_waitForChart].
    intros [] H; simpl in *; tauto. }
  apply emits_bind; [|intros screenshotBuffer].
  { apply emits_try_catch; [|intros e; apply emits_throw].
    apply emits_screenshot. intros ok; exact I. }
  apply emits_bind; [apply emits_own_remember | intros _; apply emits_ret].
Qed.

(** X6: whatever happens, the cache traffic of a request is made of probes,
    reads of its own key and writes of its own key for 3600 seconds: it
    touches no other key, lists and deletes none, and neither disconnects
    nor connects. *)
Theorem generateChart_touches_only_its_own_key (chartType : string)
    (data : JS.value) (options : RequestOptions) (w : world) :
  exists evs,
    trace (snd (generateChart chartType data options w)) = trace w ++ evs
    /\ Forall (own_traffic (generateCacheKey chartType data (resolve options))) evs.
Proof.
  unfold generateChart. generalize (generateCacheKey chartType data (resolve options)).
  intros key. rewrite bind_run.
  destruct (emits_own_lookup key w) as (_ & _ & evs & Htrace & Hevs).
  destruct (lookup key w) as [[[png|]|e|] w1]; cbn [fst snd] in Htrace;
    try (exists evs; split; [exact Htrace | exact Hevs]).
  unfold engine. rewrite launch_run.
  destruct (_ ≫= _) as [v|e|]; try (exists evs; split; [exact Htrace | exact Hevs]).
  destruct (on_launch (chromium w1)).
  - rewrite finally_close_run. world_simpl.
    destruct (emits_try_catch (own_traffic key)
                (render chartType data (resolve options) key)
                (fun message => throw (describe message))
                (emits_own_render _ _ _ _) (fun e => emits_throw _ _)
                (log (Launch true) w1)) as (_ & _ & during & Hduring & Hall).
    eexists (evs ++ [Launch true] ++ during ++ [Close _]). split.
    + rewrite Hduring. world_simpl. rewrite Htrace, <- !app_assoc. reflexivity.
    + apply Forall_app. split; [exact Hevs|]. constructor; [exact I|].
      apply Forall_app. split; [exact Hall | repeat constructor].
  - unfold throw. world_simpl. exists (evs ++ [Launch false]).
    split; [rewrite Htrace, <- app_assoc; reflexivity|].
    apply Forall_app. split; [exact Hevs | repeat constructor].
Qed.

Lemma within_refl (w : world) : within 0 0 w w.
Proof.
  split; [lia|]. exists []. rewrite app_nil_r. split; [reflexivity | apply le_n].
Qed.

Lemma within_trans (n1 n2 : nat) (ms1 ms2 : Z) (w w1 w2 : world) :
  within n1 ms1 w w1 -> within n2 ms2 w1 w2 -> within (n1 + n2) (ms1 + ms2) w w2.
Proof.
  intros (Hc1 & evs1 & Ht1 & Hn1) (Hc2 & evs2 & Ht2 & Hn2). split; [lia|].
  exists (evs1 ++ evs2). split.
  - rewrite Ht2, Ht1, app_assoc. reflexivity.
  - rewrite filter_app, length_app. lia.
Qed.

Lemma within_le (n n' : nat) (ms ms' : Z) (w w' : world) :
  (n <= n')%nat -> ms <= ms' -> within n ms w w' -> within n' ms' w w'.
Proof.
  intros Hn Hms (Hc & evs & Ht & Hlen). split; [lia|]. exists evs. split; [exact Ht | lia].
Qed.

(** One event that is not a poll, and no time. *)
Lemma within_quiet (e : event) (w w' : world) :
  is_poll e = false -> clock w' = clock w -> trace w' = trace w ->
  within 0 0 w (log e w').
Proof.
  intros He Hc Ht. split; [world_simpl; lia|]. exists [e]. world_simpl.
  split; [rewrite Ht; reflexivity|].
  rewrite filter_cons_False by (rewrite He; discriminate). apply le_n.
Qed.

Lemma spends_ret {A : Type} (a : A) : spends 0 0 (mret a : M A).
Proof. intros w. apply within_refl. Qed.

Lemma spends_throw {A : Type} (e : JS.error) : spends 0 0 (throw e : M A).
Proof. intros w. apply within_refl. Qed.

Lemma spends_lift {A : Type} (c : JS.completion A) : spends 0 0 (lift c).
Proof. intros w. apply within_refl. Qed.

Lemma spends_le {A : Type} (n n' : nat) (ms ms' : Z) (c : M A) :
  (n <= n')%nat -> ms <= ms' -> spends n ms c -> spends n' ms' c.
Proof. intros Hn Hms Hc w. eapply within_le; eauto. Qed.

Lemma spends_bind {A B : Type} (n1 n2 : nat) (ms1 ms2 : Z) (m : M A) (f : A -> M B) :
  0 <= ms2 -> spends n1 ms1 m -> (forall a, spends n2 ms2 (f a)) ->
  spends (n1 + n2) (ms1 + ms2) (m ≫= f).
Proof.
  intros Hms Hm Hf w. rewrite bind_run. specialize (Hm w).
  destruct (m w) as [[a|e|] w1]; cbn [snd] in *.
  - eapply within_trans; [exact Hm | apply Hf].
  - eapply within_le; [| |exact Hm]; lia.
  - eapply within_le; [| |exact Hm]; lia.
Qed.

Lemma spends_try_catch {A : Type} (n1 n2 : nat) (ms1 ms2 : Z) (body : M A)
    (handler : JS.error -> M A) :
  0 <= ms2 -> spends n1 ms1 body -> (forall e, spends n2 ms2 (handler e)) ->
  spends (n1 + n2) (ms1 + ms2) (try_catch body handler).
Proof.
  intros Hms Hb Hh w. unfold try_catch. specialize (Hb w).
  destruct (body w) as [[a|e|] w1]; cbn [snd] in *.
  - eapply within_le; [| |exact Hb]; lia.
  - eapply within_trans; [exact Hb | apply Hh].
  - eapply within_le; [| |exact Hb]; lia.
Qed.

Lemma spends_call (ev : bool -> event) (outcome : world -> step) :
  (forall ok, is_poll (ev ok) = false) ->
  spends 0 0 (fun w => call ev (outcome w) w).
Proof.
  intros Hev w. unfold call. destruct (outcome w); cbn [snd]; apply within_quiet; auto.
Qed.

Lemma spends_waitForChart : spends 3 2000 (waitForChart maxRetries false 0).
Proof.
  intros w. rewrite waitForChart_run.
  destruct (on_waitForSelector (chromium w) (polls w));
    [|destruct (on_waitForSelector (chromium w) (S (polls w)));
      [|destruct (on_waitForSelector (chromium w) (S (S (polls w))))]];
    (split; [world_simpl; lia|]); world_simpl.
  - exists [poll true]. split; [reflexivity|]. vm_compute. lia.
  - exists [poll false; Sleep 1000; poll true].
    rewrite <- !app_assoc. split; [reflexivity|]. vm_compute. lia.
  - exists [poll false; Sleep 1000; poll false; Sleep 1000; poll true].
    rewrite <- !app_assoc. split; [reflexivity|]. vm_compute. lia.
  - exists [poll false; Sleep 1000; poll false; Sleep 1000; poll false].
    rewrite <- !app_assoc. split; [reflexivity|]. vm_compute. lia.
Qed.

Lemma spends_lookup (key : string) : spends 0 0 (lookup key).
Proof.
  intros w. rewrite lookup_run.
  destruct (faults w (calls w)); cbn [snd].
  - apply within_quiet; auto.
  - apply (within_trans 0 0 0 0 w (log (Ping true) (tick w))).
    + apply within_quiet; auto.
    + rewrite get_run. destruct (faults _ _); cbn [snd]; apply within_quiet; auto.
Qed.

Lemma spends_remember (key : string) (png : buffer) : spends 0 0 (remember key png).
Proof.
  intros w. rewrite remember_run.
  destruct (faults w (calls w)); cbn [snd].
  - apply within_quiet; auto.
  - apply (within_trans 0 0 0 0 w (log (Ping true) (tick w))).
    + apply within_quiet; auto.
    + rewrite set_run. destruct (faults _ _); cbn [snd]; apply within_quiet; auto.
Qed.

Lemma spends_render (chartType : string) (data : JS.value) (options : Options)
    (key : string) :
  spends 3 2000 (render chartType data options key).
Proof.
  unfold render.
  apply (spends_bind 0 3 0 2000); [lia| |intros _].
  { apply (spends_call NewPage (fun w => on_newPage (chromium w))). auto. }
  apply (spends_bind 0 3 0 2000); [lia| |intros _].
  { apply (spends_try_catch 0 0 0 0); [lia| |intros _; apply spends_ret].
    apply (spends_call (SetViewport _ _) (fun w => on_setViewport (chromium w))). auto. }
  apply (spends_bind 0 3 0 2000); [lia|apply spends_lift|intros chartJsConfig].
  apply (spends_bind 0 3 0 2000); [lia| |intros _].
  { apply (spends_try_catch 0 0 0 0); [lia| |intros _].
    - apply (spends_call (SetContent _ _) (fun w => on_networkidle0 (chromium w))). auto.
    - apply (spends_call (SetContent _ _) (fun w => on_domcontentloaded (chromium w))).
      auto. }
  apply (spends_bind 3 0 2000 0); [lia|apply spends_waitForChart|intros _].
  apply (spends_bind 0 0 0 0); [lia| |intros screenshotBuffer].
  { apply (spends_try_catch 0 0 0 0); [lia| |intros e; apply spends_throw].
    intros w. unfold page_screenshot.
    destruct (on_screenshot (chromium w)); cbn [snd]; apply within_quiet; auto. }
  apply (spends_bind 0 0 0 0); [lia|apply spends_remember|intros _; apply spends_ret].
Qed.

Lemma spends_generateChart (chartType : string) (data : JS.value)
    (options : RequestOptions) :
  spends 3 2000 (generateChart chartType data options).
Proof.
  unfold generateChart.
  apply (spends_bind 0 3 0 2000); [lia|apply spends_lookup|].
  intros [cached|]; [apply (spends_le 0 3 0 2000); [lia|lia|apply spends_ret]|].
  intros w. unfold engine. rewrite launch_run.
  destruct (_ ≫= _) as [v|e|].
  - destruct (on_launch (chromium w)).
    + rewrite finally_close_run. cbn [snd].
      apply (within_trans 0 3 0 2000 w (log (Launch true) w)); [apply within_quiet; auto|].
      apply (within_trans 3 0 2000 0 _
               (snd (try_catch (render chartType data (resolve options)
                                  (generateCacheKey chartType data (resolve options)))
                       (fun message => throw (describe message))
                       (log (Launch true) w)))).
      * apply (spends_try_catch 3 0 2000 0); [lia|apply spends_render|].
        intros e. apply spends_throw.
      * apply within_quiet; auto.
    + unfold throw. cbn [snd].
      apply (within_le 0 3 0 2000); [lia|lia|]. apply within_quiet; auto.
  - apply (within_le 0 3 0 2000); [lia|lia|]. apply within_refl.
  - apply (within_le 0 3 0 2000); [lia|lia|]. apply within_refl.
Qed.

(** X7: every request ends, having polled the canvas selector at most three
    times and let at most two seconds pass on the clock in its own waits,
    whatever the cache and the browser do. *)
Theorem generateChart_polls_and_sleeps_are_bounded (chartType : string)
    (data : JS.value) (options : RequestOptions) (w : world) :
  fst (generateChart chartType data options w) <> JS.OutOfFuel
  /\ clock w <= clock (snd (generateChart chartType data options w)) <= clock w + 2000
  /\ exists evs,
       trace (snd (generateChart chartType data options w)) = trace w ++ evs
       /\ (length (filter (fun e => is_poll e = true) evs) <= 3)%nat.
Proof.
  split; [apply generateChart_halts|].
  exact (spends_generateChart chartType data options w).
Qed.

Lemma describe_cases (message : JS.error) :
  describe message
  = "Browser target closed unexpectedly. This may be due to resource constraints or timeout."
  \/ describe message
     = "Browser protocol error. The browser instance may have crashed."
  \/ describe message = "Chart generation failed: " +:+ message.
Proof.
  unfold describe. destruct (includes message "Target closed"); [auto|].
  destruct (includes message "Protocol error"); auto.
Qed.

(** The engine throws only what its [catch] clause has rewritten. *)
Lemma engine_throws (chartType : string) (data : JS.value) (options : Options)
    (key : string) (w : world) (e : JS.error) :
  fst (engine chartType data options key w) = JS.Throw e ->
  exists cause, e = describe cause.
Proof.
  unfold engine. rewrite launch_run.
  destruct (_ ≫= _) as [v|cause|]; [| |discriminate].
  - destruct (on_launch (chromium w)) as [|cause].
    + rewrite finally_close_run. cbn [fst]. unfold try_catch.
      destruct (render _ _ _ _ _) as [[png|cause|] w1]; try discriminate.
      unfold throw. cbn [fst]. intros [= <-]. eauto.
    + unfold throw. cbn [fst]. intros [= <-]. eauto.
  - unfold throw. cbn [fst]. intros [= <-]. eauto.
Qed.

(** X8: a request that fails fails with one of three messages: the one for
    a closed browser target, the one for a protocol error, or the words
    [Chart generation failed: ] followed by the cause.  No error of Redis,
    of the page or of [browser.close] reaches the caller as it is. *)
Theorem generateChart_error_messages (chartType : string) (data : JS.value)
    (options : RequestOptions) (w : world) (e : JS.error) :
  fst (generateChart chartType data options w) = JS.Throw e ->
  e = "Browser target closed unexpectedly. This may be due to resource constraints or timeout."
  \/ e = "Browser protocol error. The browser instance may have crashed."
  \/ exists cause, e = "Chart generation failed: " +:+ cause.
Proof.
  unfold generateChart. rewrite bind_run.
  pose proof (total_lookup (generateCacheKey chartType data (resolve options)) w) as Htotal.
  destruct (lookup _ w) as [[[png|]|e0|] w0]; cbn [fst] in *; try discriminate.
  - intros H. apply engine_throws in H as [cause ->].
    destruct (describe_cases cause) as [->|[->| ->]]; eauto.
  - exfalso. apply (Htotal e0). reflexivity.
Qed.

Lemma generateChart_error_messages_witness :
  "Chart generation failed: Cannot read properties of undefined (reading 'bar')"
  = "Browser target closed unexpectedly. This may be due to resource constraints or timeout."
  \/ "Chart generation failed: Cannot read properties of undefined (reading 'bar')"
     = "Browser protocol error. The browser instance may have crashed."
  \/ exists cause,
       "Chart generation failed: Cannot read properties of undefined (reading 'bar')"
       = "Chart generation failed: " +:+ cause.
Proof.
  apply (generateChart_error_messages "bar" (JS.VObj Samples.bar_data)
           Samples.custom_800_600 (Samples.unreachable Samples.healthy)).
  vm_compute. reflexivity.
Defined.

(** X9: chart data whose [datasets] cannot be measured ([data] or
    [data.datasets] being [undefined] or [null]) never starts a browser: the
    request is answered from the cache if the lookup hits, and fails
    otherwise, with cache traffic as its only events. *)
Theorem malformed_data_starts_no_browser (chartType : string) (data : JS.value)
    (options : RequestOptions) (w : world) (e : JS.error) :
  (datasets ← member data "datasets"; member datasets "length") = JS.Throw e ->
  (fst (generateChart chartType data options w) = JS.Throw (describe e)
   \/ exists png,
        fst (generateChart chartType data options w) = JS.Return png
        /\ fst (lookup (generateCacheKey chartType data (resolve options)) w)
           = JS.Return (Some png))
  /\ exists evs,
       trace (snd (generateChart chartType data options w)) = trace w ++ evs
       /\ Forall cache_io evs.
Proof.
  intros Hdata. unfold generateChart.
  generalize (generateCacheKey chartType data (resolve options)). intros key.
  rewrite bind_run.
  destruct (emits_lookup key w) as (_ & _ & evs & Htrace & Hevs).
  pose proof (total_lookup key w) as Htotal. pose proof (halts_lookup key w) as Hhalts.
  destruct (lookup key w) as [[[png|]|e0|] w0]; cbn [fst snd] in *.
  - split; [right; eauto | eauto].
  - unfold engine. rewrite launch_run, Hdata. unfold throw. cbn [fst snd].
    split; [left; reflexivity | eauto].
  - exfalso. apply (Htotal e0). reflexivity.
  - exfalso. apply Hhalts. reflexivity.
Qed.

Lemma malformed_data_starts_no_browser_witness :
  (fst (generateChart "bar" Cases.no_datasets Samples.request_800_600
          (Samples.fresh Samples.healthy))
   = JS.Throw (describe "Cannot read properties of undefined (reading 'length')")
   \/ exists png,
        fst (generateChart "bar" Cases.no_datasets Samples.request_800_600
               (Samples.fresh Samples.healthy)) = JS.Return png
        /\ fst (lookup (generateCacheKey "bar" Cases.no_datasets
                          (resolve Samples.request_800_600))
                  (Samples.fresh Samples.healthy))
           = JS.Return (Some png))
  /\ exists evs,
       trace (snd (generateChart "bar" Cases.no_datasets Samples.request_800_600
                     (Samples.fresh Samples.healthy)))
       = trace (Samples.fresh Samples.healthy) ++ evs
       /\ Forall cache_io evs.
Proof.
  apply (malformed_data_starts_no_browser "bar" Cases.no_datasets
           Samples.request_800_600 (Samples.fresh Samples.healthy)).
  reflexivity.
Defined.

End Requests.

(** ** The datasets of a configuration *)

Section Datasets.
Import ChartGeneratorService Colours.

Lemma createChartJsConfig_inv (chartType : string) (data : JS.value)
    (options : Options) (cfg : ChartJsConfig) (items : list JS.value) :
  createChartJsConfig chartType data options = JS.Return cfg ->
  member data "datasets" = JS.Return (JS.VArr items) ->
  mapM (resolveDataset chartType (theme options)) items = JS.Return (datasets cfg)
  /\ legend_display cfg = (1 <? length items)%nat
  /\ title_display cfg = match title options with
                         | Some t => negb (String.eqb t "")
                         | None => false
                         end
  /\ scales cfg = getScaleOptions chartType (theme options).
Proof.
  unfold createChartJsConfig, mbind, completion_bind. intros Hcfg Hdata.
  destruct (member data "labels") as [labels| |]; try discriminate.
  rewrite Hdata in Hcfg.
  destruct (mapM _ items) as [resolved| |]; try discriminate.
  injection Hcfg as <-. auto.
Qed.

Lemma mapM_length {A B : Type} (f : A -> JS.completion B) (xs : list A) (ys : list B) :
  mapM f xs = JS.Return ys -> length ys = length xs.
Proof.
  revert ys. induction xs as [|x rest IH]; intros ys H.
  - injection H as <-. reflexivity.
  - simpl in H. unfold mbind, completion_bind in H.
    destruct (f x); try discriminate.
    destruct (mapM f rest) as [ys0| |]; try discriminate.
    injection H as <-. simpl. rewrite (IH ys0); reflexivity.
Qed.

(** X10: in a light or dark configuration of a declared chart type, each of
    the three styling fields of a dataset is settled on its own: a colour or
    width the dataset brings is kept, a background or border colour it lacks
    becomes the theme's palette (a missing border does not follow the
    dataset's own background), and a border width it lacks, or gives as 0,
    becomes 2.  Every other property of the dataset is passed on as it is. *)
Theorem dataset_styling_is_resolved_per_field (chartType : string)
    (data : JS.value) (options : Options) (cfg : ChartJsConfig)
    (items : list JS.value) (position : nat) (props : JS.object) :
  In chartType chartTypes ->
  theme options <> custom ->
  createChartJsConfig chartType data options = JS.Return cfg ->
  member data "datasets" = JS.Return (JS.VArr items) ->
  items !! position = Some (JS.VObj props) ->
  exists resolved palette,
    datasets cfg !! position = Some resolved
    /\ palette = match theme options with dark => dark_palette | _ => light_palette end
    /\ JS.get resolved "backgroundColor"
       = JS.or_else (JS.get props "backgroundColor") palette
    /\ JS.get resolved "borderColor" = JS.or_else (JS.get props "borderColor") palette
    /\ JS.get resolved "borderWidth"
       = JS.or_else (JS.get props "borderWidth") (JS.VNum 2)
    /\ forall key, ~ In key ["backgroundColor"; "borderColor"; "borderWidth"] ->
                   JS.own_property resolved key = JS.own_property props key.
Proof.
  intros Hin Htheme Hcfg Hdata Hitem.
  destruct (createChartJsConfig_inv _ _ _ _ _ Hcfg Hdata) as (Hmap & _).
  destruct (mapM_lookup _ _ _ _ _ Hmap Hitem) as (r & Hr & Hres).
  unfold resolveDataset in Hres. cbn [member] in Hres.
  unfold mbind, completion_bind, getBorderColors, getBackgroundColors in Hres.
  destruct (colorPalettes (theme options)) as [palettes|] eqn:Hp;
    [|destruct (theme options); try discriminate; contradiction].
  rewrite (palette_of_declared_type _ _ _ Hp Hin) in Hres.
  cbn [JS.truthy] in Hres. unfold JS.or_else.
  exists r. eexists. split; [exact Hr|]. split; [reflexivity|].
  destruct (JS.truthy (JS.get props "backgroundColor")),
           (JS.truthy (JS.get props "borderColor"));
    injection Hres as <-;
    (split; [apply get_own; rewrite !own_property_set_ne by discriminate;
             apply own_property_set_eq|]);
    (split; [apply get_own; rewrite own_property_set_ne by discriminate;
             apply own_property_set_eq|]);
    (split; [apply get_own; apply own_property_set_eq|]);
    intros key Hkey; cbn [spread];
    rewrite !own_property_set_ne; try reflexivity;
    intros <-; apply Hkey; cbn [In]; auto.
Qed.

Lemma dataset_styling_is_resolved_per_field_witness :
  exists cfg,
    createChartJsConfig "bar" Cases.styled_series Samples.light_800_600 = JS.Return cfg
    /\ exists resolved palette,
         datasets cfg !! 1%nat = Some resolved
         /\ palette = light_palette
         /\ JS.get resolved "backgroundColor" = JS.or_else (JS.VStr "#ff0000") palette
         /\ JS.get resolved "borderColor" = JS.or_else JS.VUndefined palette
         /\ JS.get resolved "borderWidth" = JS.or_else (JS.VNum 0) (JS.VNum 2)
         /\ forall key, ~ In key ["backgroundColor"; "borderColor"; "borderWidth"] ->
              JS.own_property resolved key = JS.own_property Cases.red_costs key.
Proof.
  eexists. split; [vm_compute; reflexivity|].
  apply (dataset_styling_is_resolved_per_field "bar" Cases.styled_series
           Samples.light_800_600 _ [Samples.sales; JS.VObj Cases.red_costs] 1
           Cases.red_costs).
  - cbv [chartTypes In]. auto.
  - discriminate.
  - reflexivity.
  - reflexivity.
  - reflexivity.
Defined.

Lemma resolveDataset_custom (chartType : string) (dataset : JS.value) :
  (exists resolved, resolveDataset chartType custom dataset = JS.Return resolved)
  <-> colored dataset = true.
Proof.
  unfold resolveDataset, colored, mbind, completion_bind, getBorderColors,
    getBackgroundColors. cbn [colorPalettes JS.truthy type_error].
  destruct dataset; cbn [member type_error];
    try (split; [intros [? [=]] | discriminate]);
    try (destruct (JS.truthy _); cbn [andb];
         [destruct (JS.truthy _); cbn [andb]|]; split; eauto;
         try discriminate; intros [? [=]]).
Qed.

Lemma mapM_all {A B : Type} (f : A -> JS.completion B) (xs : list A) :
  (exists ys, mapM f xs = JS.Return ys) <-> Forall (fun x => exists y, f x = JS.Return y) xs.
Proof.
  induction xs as [|x rest IH].
  - split; [constructor | eexists; reflexivity].
  - simpl. unfold mbind, completion_bind. split.
    + intros [ys H]. destruct (f x) as [y| |] eqn:Hy; try discriminate.
      destruct (mapM f rest) as [ys0| |] eqn:Hrest; try discriminate.
      constructor; [eauto | apply IH; eauto].
    + intros H. inversion H as [|? ? [y Hy] Hrest]; subst.
      apply IH in Hrest as [ys0 Hys0]. rewrite Hy, Hys0. eexists. reflexivity.
Qed.

Lemma forallb_Forall {A : Type} (p : A -> bool) (xs : list A) :
  forallb p xs = true <-> Forall (fun x => p x = true) xs.
Proof.
  induction xs as [|x rest IH]; cbn [forallb].
  - split; [constructor | reflexivity].
  - rewrite andb_true_iff, IH. split.
    + intros [Hx Hrest]. constructor; assumption.
    + intros H. inversion H; auto.
Qed.

(** X11: with the theme [custom], for which there is no palette, a
    configuration is built exactly when every dataset brings both its
    background and its border colour; one dataset short of a colour makes
    [createChartJsConfig] throw. *)
Theorem custom_theme_needs_every_color (chartType : string) (data : JS.value)
    (options : Options) (items : list JS.value) :
  theme options = custom ->
  member data "datasets" = JS.Return (JS.VArr items) ->
  (exists cfg, createChartJsConfig chartType data options = JS.Return cfg)
  <-> forallb colored items = true.
Proof.
  intros Htheme Hdata.
  assert (Hlabels : exists labels, member data "labels" = JS.Return labels).
  { destruct data; try discriminate; eexists; reflexivity. }
  destruct Hlabels as [labels Hlabels].
  unfold createChartJsConfig, mbind at 1 2 3, completion_bind at 1 2 3.
  rewrite Hlabels, Hdata, Htheme.
  split.
  - intros [cfg H]. destruct (mapM _ items) as [ys| |] eqn:Hmap; try discriminate.
    apply forallb_Forall.
    eapply Forall_impl;
      [apply (proj1 (mapM_all (resolveDataset chartType custom) items)); eauto|].
    intros x Hx. apply (resolveDataset_custom chartType). exact Hx.
  - intros H. apply forallb_Forall in H.
    destruct (proj2 (mapM_all (resolveDataset chartType custom) items)) as [ys ->].
    + eapply Forall_impl; [exact H|].
      intros x Hx. apply resolveDataset_custom. exact Hx.
    + eexists. reflexivity.
Qed.

Lemma custom_theme_needs_every_color_witness :
  (exists cfg,
     createChartJsConfig "bar" Cases.styled_series Cases.custom_options = JS.Return cfg)
  <-> forallb colored [Samples.sales; JS.VObj Cases.red_costs] = true.
Proof.
  apply (custom_theme_needs_every_color "bar" Cases.styled_series Cases.custom_options
           [Samples.sales; JS.VObj Cases.red_costs]); reflexivity.
Defined.

(** X12: a configuration holds one resolved dataset for each dataset of the
    request; its legend is shown exactly when there are two datasets or
    more, its title exactly when the options carry a title that is not
    empty, and its scales are the radial one for [radar] and [x] and [y] for
    every other type. *)
Theorem createChartJsConfig_keeps_every_dataset (chartType : string)
    (data : JS.value) (options : Options) (cfg : ChartJsConfig)
    (items : list JS.value) :
  createChartJsConfig chartType data options = JS.Return cfg ->
  member data "datasets" = JS.Return (JS.VArr items) ->
  length (datasets cfg) = length items
  /\ (legend_display cfg = true <-> (2 <= length items)%nat)
  /\ (title_display cfg = true <-> exists t, title options = Some t /\ t <> "")
  /\ axes (scales cfg) = if String.eqb chartType "radar" then ["r"] else ["x"; "y"].
Proof.
  intros Hcfg Hdata.
  destruct (createChartJsConfig_inv _ _ _ _ _ Hcfg Hdata)
    as (Hmap & Hlegend & Htitle & Hscales).
  split; [exact (mapM_length _ _ _ Hmap)|].
  split; [rewrite Hlegend, Nat.ltb_lt; lia|].
  split.
  - rewrite Htitle. destruct (title options) as [t|].
    + rewrite negb_true_iff, String.eqb_neq. split; [eauto|].
      intros (t' & [= <-] & Hne). exact Hne.
    + split; [discriminate | intros (t' & [=] & _)].
  - rewrite Hscales. unfold getScaleOptions.
    destruct (String.eqb chartType "radar"); reflexivity.
Qed.

Lemma createChartJsConfig_keeps_every_dataset_witness :
  exists cfg,
    createChartJsConfig "radar" Samples.two_series Samples.light_800_600 = JS.Return cfg
    /\ length (datasets cfg) = length [Samples.sales; Samples.costs]
    /\ (legend_display cfg = true <-> (2 <= length [Samples.sales; Samples.costs])%nat)
    /\ (title_display cfg = true
        <-> exists t, title Samples.light_800_600 = Some t /\ t <> "")
    /\ axes (scales cfg) = if String.eqb "radar" "radar" then ["r"] else ["x"; "y"].
Proof.
  eexists. split; [vm_compute; reflexivity|].
  apply (createChartJsConfig_keeps_every_dataset "radar" Samples.two_series
           Samples.light_800_600 _ [Samples.sales; Samples.costs]); reflexivity.
Defined.

End Datasets.

(** ** The generator without cache *)

Section UncachedFacts.
Import Runtime Observe ChartGeneratorService.

Lemma finally_raw_close_run {A : Type} (body : M A) (w : world) :
  try_finally body browser_close w
  = match on_close (chromium (snd (body w))) with
    | Succeeds => (fst (body w), log (Close true) (snd (body w)))
    | Fails e => (JS.Throw e, log (Close false) (snd (body w)))
    end.
Proof.
  unfold try_finally, browser_close, call. destruct (body w) as [r w'].
  cbn [fst snd]. destruct (on_close (chromium w')); reflexivity.
Qed.

Lemma emits_uncached_render (chartType : string) (data : JS.value)
    (options : Options) :
  emits page_io (Uncached.render chartType data options).
Proof.
  unfold Uncached.render.
  apply emits_bind; [|intros _].
  { apply (emits_call page_io NewPage (fun w => on_newPage (chromium w)) (fun w => w));
      [intros ok; exact I | auto]. }
  apply emits_bind; [|intros _].
  { apply (emits_call page_io (SetViewport _ _) (fun w => on_setViewport (chromium w))
             (fun w => w)); [intros ok; exact I | auto]. }
  apply emits_bind; [apply emits_lift | intros chartJsConfig].
  apply emits_bind; [|intros _].
  { apply (emits_call page_io (SetContent _ _) (fun w => on_networkidle0 (chromium w))
             (fun w => w)); [intros ok; exact I | auto]. }
  apply emits_bind; [|intros _].
  { apply (emits_call page_io (WaitForSelector _ _)
             (fun w => on_waitForSelector (chromium w) (polls w)) polled);
      [intros ok; exact I | auto]. }
  apply emits_bind; [|intros screenshotBuffer; apply emits_ret].
  apply emits_screenshot. intros ok; exact I.
Qed.

(** X13: the generator without cache sends nothing to Redis.  Its events are
    none at all (the data cannot be measured), a failed launch, or one
    launch, calls on the page, and one close; and what it throws is either
    what [browser.close] threw or [Chart generation failed: ] followed by the
    cause. *)
Theorem uncached_generateChart_trace (chartType : string) (data : JS.value)
    (options : RequestOptions) (w : world) :
  (trace (snd (Uncached.generateChart chartType data options w)) = trace w
   \/ trace (snd (Uncached.generateChart chartType data options w))
      = trace w ++ [Launch false]
   \/ exists during ok,
        trace (snd (Uncached.generateChart chartType data options w))
        = trace w ++ [Launch true] ++ during ++ [Close ok]
        /\ Forall page_io during)
  /\ forall e,
       fst (Uncached.generateChart chartType data options w) = JS.Throw e ->
       on_close (chromium w) = Fails e
       \/ exists cause, e = "Chart generation failed: " +:+ cause.
Proof.
  unfold Uncached.generateChart. rewrite launch_run.
  destruct (_ ≫= _) as [v|cause|].
  - destruct (on_launch (chromium w)) as [|cause].
    + rewrite finally_raw_close_run.
      destruct (emits_try_catch page_io (Uncached.render chartType data (resolve options))
                  (fun message => throw (Uncached.describe message))
                  (emits_uncached_render _ _ _) (fun e => emits_throw _ _)
                  (log (Launch true) w)) as (Hc & _ & during & Hduring & Hall).
      rewrite Hc. cbn [chromium log]. split.
      * right. right. exists during.
        destruct (on_close (chromium w)); eexists; world_simpl;
          (split; [rewrite Hduring; world_simpl; rewrite <- !app_assoc; reflexivity
                  | exact Hall]).
      * intros e. destruct (on_close (chromium w)) as [|e'].
        -- cbn [fst]. unfold try_catch.
           destruct (Uncached.render _ _ _ _) as [[png|cause|] w1]; try discriminate.
           unfold throw. cbn [fst]. intros [= <-]. right. eexists. reflexivity.
        -- cbn [fst]. intros [= <-]. left. reflexivity.
    + unfold throw. cbn [fst snd]. split; [right; left; reflexivity|].
      intros e [= <-]. right. eexists. reflexivity.
  - unfold throw. cbn [fst snd]. split; [left; reflexivity|].
    intros e [= <-]. right. eexists. reflexivity.
  - cbn [fst snd]. split; [left; reflexivity | discriminate].
Qed.

(** X14: in the generator without cache nothing catches what
    [browser.close] throws: once the browser is launched, a close that fails
    fails the request with the error of the close, whatever the page did;
    a screenshot taken is lost. *)
Theorem uncached_close_failure_fails_the_request (chartType : string)
    (data : JS.value) (options : RequestOptions) (w : world)
    (items : list JS.value) (e : JS.error) :
  member data "datasets" = JS.Return (JS.VArr items) ->
  on_launch (chromium w) = Succeeds ->
  on_close (chromium w) = Fails e ->
  fst (Uncached.generateChart chartType data options w) = JS.Throw e.
Proof.
  intros Hdata Hlaunch Hclose. unfold Uncached.generateChart.
  rewrite launch_run, Hdata. cbn [mbind completion_bind member].
  rewrite Hlaunch, finally_raw_close_run.
  destruct (emits_try_catch page_io (Uncached.render chartType data (resolve options))
              (fun message => throw (Uncached.describe message))
              (emits_uncached_render _ _ _) (fun e => emits_throw _ _)
              (log (Launch true) w)) as (Hc & _).
  rewrite Hc. cbn [chromium log]. rewrite Hclose. reflexivity.
Qed.

Lemma uncached_close_failure_fails_the_request_witness :
  fst (Uncached.generateChart "bar" (JS.VObj Samples.bar_data) Samples.request_800_600
         (Samples.fresh Cases.stuck))
  = JS.Throw "Protocol error: Connection closed".
Proof.
  apply (uncached_close_failure_fails_the_request "bar" (JS.VObj Samples.bar_data)
           Samples.request_800_600 (Samples.fresh Cases.stuck) [Samples.sales]);
    reflexivity.
Defined.

Lemma lookup_frame (key : string) (w : world) :
  chromium (snd (lookup key w)) = chromium w /\ polls (snd (lookup key w)) = polls w.
Proof.
  rewrite lookup_run, get_run.
  destruct (faults w (calls w)); [auto|]. cbn [faults calls log tick].
  destruct (faults w (S (calls w))); auto.
Qed.

(** X15: the two generators launch their browsers apart, with different
    executables, flags and load timeouts.  Suppose the browser of the caching
    generator behaves as the one of the generator without cache: the same
    outcome of the launch, of the new page, of the load under each
    [waitUntil], of each poll for the canvas and of the screenshot.  Then
    whatever the generator without cache serves, the caching generator
    serves too: when the first returns an image, the second, when its
    lookup misses, returns the same image, whatever its Redis does. *)
Theorem caching_generator_serves_what_the_uncached_serves (chartType : string)
    (data : JS.value) (options : RequestOptions) (w w' : world) (png : buffer) :
  Footprint.alike w w' ->
  fst (Uncached.generateChart chartType data options w) = JS.Return png ->
  fst (lookup (generateCacheKey chartType data (resolve options)) w') = JS.Return None ->
  fst (generateChart chartType data options w') = JS.Return png.
Proof.
  unfold Uncached.generateChart, generateChart.
  generalize (generateCacheKey chartType data (resolve options)). intros key.
  intros ((Hlaunch & Hnew & Hidle' & _ & Hpolls & Hshot') & Hcount).
  rewrite launch_run, bind_run.
  destruct (lookup_frame key w') as [Hc0 Hp0].
  destruct (lookup key w') as [r w0]. cbn [fst snd] in *.
  intros Hold ->. unfold engine. rewrite launch_run.
  destruct (_ ≫= _) as [v|cause|]; try discriminate.
  rewrite Hc0, <- Hlaunch. destruct (on_launch (chromium w)); [|discriminate].
  rewrite finally_raw_close_run in Hold. rewrite finally_close_run. cbn [fst].
  destruct (on_close _); [|discriminate]. cbn [fst] in Hold.
  unfold try_catch in Hold.
  destruct (Uncached.render _ _ _ _) as [[buf|cause|] w1] eqn:Hrender; try discriminate.
  cbn [fst] in Hold. injection Hold as ->.
  unfold Uncached.render in Hrender.
  apply bind_return in Hrender as ([] & w2 & H1 & Hrender).
  unfold browser_newPage, call in H1. cbn [chromium log] in H1.
  destruct (on_newPage (chromium w)) eqn:Hpage; [|discriminate]. injection H1 as <-.
  apply bind_return in Hrender as ([] & w3 & H2 & Hrender).
  unfold page_setViewport, call in H2. cbn [chromium log] in H2.
  destruct (on_setViewport (chromium w)) eqn:Hview; [|discriminate]. injection H2 as <-.
  apply bind_return in Hrender as (cfg & w4 & H3 & Hrender).
  unfold lift in H3. injection H3 as Hcfg <-.
  apply bind_return in Hrender as ([] & w5 & H4 & Hrender).
  unfold page_setContent, call in H4.
  cbn [chromium log String.eqb Ascii.eqb Bool.eqb] in H4.
  destruct (on_networkidle0 (chromium w)) eqn:Hidle; [|discriminate]. injection H4 as <-.
  apply bind_return in Hrender as ([] & w6 & H5 & Hrender).
  unfold page_waitForSelector, call in H5. cbn [chromium polls log polled] in H5.
  destruct (on_waitForSelector (chromium w) (polls w)) eqn:Hpoll; [|discriminate].
  injection H5 as <-.
  apply bind_return in Hrender as (buf & w7 & H6 & Hrender).
  unfold page_screenshot in H6. cbn [chromium polls log polled] in H6.
  destruct (on_screenshot (chromium w)) as [shot|] eqn:Hshot; [|discriminate].
  injection H6 as <- <-. injection Hrender as <- _.
  assert (Hserved : fst (render chartType data (resolve options) key
                           (log (Launch true) w0))
                    = JS.Return shot).
  { apply (render_success _ _ _ _ _ cfg); cbn [chromium polls log];
      rewrite ?Hc0, ?Hp0; try congruence.
    - left. congruence.
    - exists 0%nat. split; [lia|]. rewrite Nat.add_0_r, <- Hpolls, <- Hcount.
      exact Hpoll. }
  unfold try_catch. destruct (render _ _ _ _ _) as [r1 w8]. cbn [fst] in Hserved.
  subst r1. reflexivity.
Qed.

Lemma caching_generator_serves_what_the_uncached_serves_witness :
  fst (generateChart "bar" (JS.VObj Samples.bar_data) Samples.request_800_600
         (Samples.unreachable Cases.stuck))
  = JS.Return Samples.png.
Proof.
  apply (caching_generator_serves_what_the_uncached_serves "bar"
           (JS.VObj Samples.bar_data) Samples.request_800_600
           (Samples.fresh Samples.healthy) (Samples.unreachable Cases.stuck)
           Samples.png).
  - repeat split.
  - vm_compute. reflexivity.
  - vm_compute. reflexivity.
Defined.

End UncachedFacts.

(** ** The [UPDATE] statement of [PUT /:hash] *)

Section RouteFacts.
Import Routes.

Lemma empty_aligned :
  aligned {| updateFields := []; updateValues := []; paramCount := 1 |}.
Proof.
  split; [reflexivity|]. split; [reflexivity|]. intros i field Hi. discriminate.
Qed.

Lemma assign_aligned (column : string) (v : JS.value) (bound : parameter)
    (b : builder) :
  aligned b -> aligned (assign column v bound b).
Proof.
  intros (Hlen & Hcount & Hfields). unfold assign.
  destruct (defined v); [|repeat split; assumption].
  repeat split; cbn [updateFields updateValues paramCount].
  - rewrite !length_app, Hlen. reflexivity.
  - rewrite length_app, Hcount. simpl. lia.
  - intros i field Hi. apply lookup_app_Some in Hi as [Hi|[Hge Hi]].
    + exact (Hfields i field Hi).
    + apply list_lookup_singleton_Some in Hi as [Hi <-].
      exists column. rewrite Hcount. do 3 f_equal. lia.
Qed.

(** X16: in the statement [PUT /:hash] builds, whatever fields the request
    brings, the assignments of the [SET] clause are numbered [$1], [$2], ...
    in the order of the parameters, [updated_at] last; the [WHERE] clause
    then names the placeholder of [updated_at] once more, so that
    [chart_hash] is compared with the parameter holding the timestamp, and
    the chart hash is passed as one parameter more than the statement has
    placeholders. *)
Theorem update_statement_numbers_the_hash_as_the_timestamp
    (requestData : UpdateChartRequest) (hash : string) :
  let st := updateStatement requestData hash in
  (forall i field, set_clause st !! i = Some field ->
                   exists column, field = column +:+ " = $" +:+ pretty (S i))
  /\ last (set_clause st) = Some ("updated_at = $" +:+ pretty (where_placeholder st))
  /\ where_placeholder st = length (set_clause st)
  /\ length (parameters st) = S (where_placeholder st)
  /\ parameters st !! (where_placeholder st - 1)%nat = Some Now
  /\ parameters st !! where_placeholder st = Some (Plain (JS.VStr hash)).
Proof.
  unfold updateStatement. cbn zeta. cbn [set_clause where_placeholder parameters].
  match goal with
  | |- context [paramCount ?b] =>
      assert (Hb : aligned b) by (repeat apply assign_aligned; apply empty_aligned);
      revert Hb; generalize b; intros b' (Hlen & Hcount & Hfields)
  end.
  split; [|split; [|split; [|split; [|split]]]].
  - intros i field Hi. apply lookup_app_Some in Hi as [Hi|[Hge Hi]].
    + exact (Hfields i field Hi).
    + apply list_lookup_singleton_Some in Hi as [Hi <-].
      exists "updated_at". rewrite Hcount.
      replace i with (length (updateFields b')) by lia. reflexivity.
  - rewrite last_snoc. reflexivity.
  - rewrite length_app, Hcount. simpl. lia.
  - rewrite !length_app, Hlen, Hcount. simpl. lia.
  - rewrite Hcount, <- app_assoc. cbn [Nat.sub].
    rewrite Nat.sub_0_r, <- Hlen. rewrite lookup_app_r by lia.
    rewrite Nat.sub_diag. reflexivity.
  - rewrite Hcount, <- Hlen.
    rewrite lookup_app_r by (rewrite length_app; simpl; lia).
    rewrite length_app. simpl.
    replace (S (length (updateValues b')) - (length (updateValues b') + 1))%nat with 0%nat
      by lia.
    reflexivity.
Qed.

End RouteFacts.

(** ** Authentication *)

Section MiddlewareFacts.
Import Middleware.

(** X17: [authenticateApiKey] hands a request on exactly when an API key is
    configured, is not empty, and the [x-api-key] header equals it. *)
Theorem api_key_is_required_and_exact (apiKey expectedApiKey : option string) :
  authenticateApiKey apiKey expectedApiKey = Next
  <-> exists key, key <> "" /\ apiKey = Some key /\ expectedApiKey = Some key.
Proof.
  unfold authenticateApiKey. split.
  - destruct expectedApiKey as [expected|]; cbn [text JS.truthy]; [|discriminate].
    destruct (String.eqb_spec expected "") as [->|Hne]; cbn [negb]; [discriminate|].
    destruct apiKey as [key|]; cbn [text JS.truthy orb negb]; [|discriminate].
    destruct (String.eqb key ""); cbn [negb orb]; [discriminate|].
    destruct (bool_decide_reflect (Some key = Some expected)) as [[= ->]|];
      [|discriminate].
    eauto.
  - intros (key & Hne & -> & ->). cbn [text JS.truthy].
    rewrite (proj2 (String.eqb_neq _ _) Hne). cbn [negb orb].
    rewrite bool_decide_eq_true_2 by reflexivity. reflexivity.
Qed.

Lemma split_nonempty (sep : ascii) (s : string) : split sep s <> [].
Proof.
  destruct s as [|c rest]; [discriminate|]. simpl.
  destruct (Ascii.eqb c sep); [discriminate|]. destruct (split sep rest); discriminate.
Qed.

(** No part of a split text holds the separator. *)
Lemma split_parts (s part : string) :
  In part (split " " s) -> spaceless part = true.
Proof.
  revert part. induction s as [|c rest IH]; intros part.
  - intros [<-|[]]. reflexivity.
  - simpl. destruct (Ascii.eqb c " ") eqn:Hc.
    + intros [<-|Hin]; [reflexivity | apply IH; exact Hin].
    + pose proof (split_nonempty " " rest) as Hne.
      destruct (split " " rest) as [|head tail]; [contradiction|].
      intros [<-|Hin].
      * unfold spaceless. simpl. rewrite Hc. apply (IH head). left. reflexivity.
      * apply IH. right. exact Hin.
Qed.

Lemma split_spaceless (s rest : string) :
  spaceless s = true -> split " " (s +:+ " " +:+ rest) = s :: split " " rest.
Proof.
  unfold spaceless. induction s as [|c s IH]; [reflexivity|].
  cbn [list_ascii_of_string forallb]. intros H. apply andb_prop in H as [Hc Hs].
  change (split " " (String c (s +:+ " " +:+ rest)) = String c s :: split " " rest).
  cbn [split]. rewrite (negb_true_iff _) in Hc. rewrite Hc, (IH Hs). reflexivity.
Qed.

Lemma split_single (s : string) : spaceless s = true -> split " " s = [s].
Proof.
  unfold spaceless. induction s as [|c s IH]; [reflexivity|].
  cbn [list_ascii_of_string forallb]. intros H. apply andb_prop in H as [Hc Hs].
  cbn [split]. rewrite (negb_true_iff _) in Hc. rewrite Hc, (IH Hs). reflexivity.
Qed.

(** X18: [authenticateBearerToken] never looks at the scheme: whatever
    stands before the first space of the [Authorization] header, [Bearer]
    or not, a request whose header carries the configured token after that
    space is handed on. *)
Theorem bearer_scheme_is_not_checked (scheme token : string) :
  spaceless scheme = true -> spaceless token = true -> token <> "" ->
  authenticateBearerToken (Some (scheme +:+ " " +:+ token)) (Some token) = Next.
Proof.
  intros Hscheme Htoken Hne. unfold authenticateBearerToken, bearer.
  assert (Hheader : JS.truthy (JS.VStr (scheme +:+ " " +:+ token)) = true).
  { destruct scheme; reflexivity. }
  rewrite Hheader, (split_spaceless _ _ Hscheme), (split_single _ Htoken).
  cbn [lookup list_lookup text JS.truthy].
  rewrite (proj2 (String.eqb_neq _ _) Hne). cbn [negb].
  rewrite bool_decide_eq_true_2 by reflexivity. reflexivity.
Qed.

Lemma bearer_scheme_is_not_checked_witness :
  authenticateBearerToken (Some ("Basic" +:+ " " +:+ "s3cret")) (Some "s3cret") = Next.
Proof.
  apply (bearer_scheme_is_not_checked "Basic" "s3cret"); [reflexivity | reflexivity|].
  discriminate.
Defined.

(** X19: a configured bearer token that contains a space can be presented
    by no request: the token read from the header ends at the next space,
    so every request is answered with an error status. *)
Theorem bearer_token_with_a_space_is_never_accepted
    (authHeader : option string) (expectedToken : string) :
  spaceless expectedToken = false ->
  exists status error,
    authenticateBearerToken authHeader (Some expectedToken) = Respond status error.
Proof.
  intros Hspace. unfold authenticateBearerToken.
  destruct (negb (JS.truthy (text (bearer authHeader)))) eqn:Htoken; [eauto|].
  destruct (negb (JS.truthy (text (Some expectedToken)))); [eauto|].
  destruct (bool_decide_reflect (bearer authHeader = Some expectedToken)) as [Heq|];
    [|cbn [negb]; eauto].
  exfalso. unfold bearer in Heq, Htoken.
  destruct authHeader as [header|]; [|discriminate].
  destruct (JS.truthy (JS.VStr header)) eqn:Hheader.
  - apply list_elem_of_lookup_2, list_elem_of_In, split_parts in Heq. congruence.
  - injection Heq as ->. cbn [text] in Htoken. rewrite Hheader in Htoken. discriminate.
Qed.

Lemma bearer_token_with_a_space_is_never_accepted_witness :
  exists status error,
    authenticateBearerToken (Some "Bearer my token") (Some "my token")
    = Respond status error.
Proof.
  apply (bearer_token_with_a_space_is_never_accepted (Some "Bearer my token") "my token").
  reflexivity.
Defined.

End MiddlewareFacts.

(** ** The default colours of the embed page *)

Section EmbedFacts.
Import ChartGeneratorService Embed.

(** X20: the embed script decides by the first dataset alone.  When that one
    has a background colour, every dataset is left as it is, coloured or
    not; when it has none, every dataset, whatever colours it brought, gets
    the background and border colour at its position modulo 6 and border
    width 2, and keeps its other properties. *)
Theorem embed_colors_follow_the_first_dataset (first : JS.object)
    (rest : list JS.object) :
  exists items,
    defaultColors (Some (first :: rest)) = JS.Return (Some items)
    /\ length items = S (length rest)
    /\ forall index dataset,
         (first :: rest) !! index = Some dataset ->
         exists painted,
           items !! index = Some painted
           /\ if JS.truthy (JS.get first "backgroundColor") then painted = dataset
              else exists color border,
                     colors !! (index mod 6)%nat = Some color
                     /\ borderColors !! (index mod 6)%nat = Some border
                     /\ JS.get painted "backgroundColor" = JS.VStr color
                     /\ JS.get painted "borderColor" = JS.VStr border
                     /\ JS.get painted "borderWidth" = JS.VNum 2
                     /\ forall key,
                          ~ In key ["backgroundColor"; "borderColor"; "borderWidth"] ->
                          JS.own_property painted key = JS.own_property dataset key.
Proof.
  unfold defaultColors. change ((first :: rest) !! 0%nat) with (Some first).
  cbn [member mbind completion_bind]. cbn beta.
  destruct (JS.truthy (JS.get first "backgroundColor")); cbn [negb].
  - eexists. split; [reflexivity|]. split; [reflexivity|]. eauto.
  - eexists. split; [reflexivity|]. split; [rewrite length_imap; reflexivity|].
    intros index dataset Hi. exists (paint index dataset).
    split; [rewrite list_lookup_imap, Hi; reflexivity|].
    assert (Hlt : (index mod 6 < 6)%nat) by (apply Nat.mod_upper_bound; discriminate).
    destruct (lookup_lt_is_Some_2 colors (index mod 6)%nat Hlt) as [color Hcolor].
    destruct (lookup_lt_is_Some_2 borderColors (index mod 6)%nat Hlt) as [border Hborder].
    exists color, border. split; [exact Hcolor|]. split; [exact Hborder|].
    unfold paint, pick. change (length colors) with 6%nat.
    change (length borderColors) with 6%nat. rewrite Hcolor, Hborder.
    split; [apply get_own; rewrite !own_property_set_ne by discriminate;
            apply own_property_set_eq|].
    split; [apply get_own; rewrite own_property_set_ne by discriminate;
            apply own_property_set_eq|].
    split; [apply get_own; apply own_property_set_eq|].
    intros key Hkey. rewrite !own_property_set_ne; try reflexivity;
      intros <-; apply Hkey; cbn [In]; auto.
Qed.

End EmbedFacts.

(** ** What the outcome of a render depends on *)

Section Blindness.
Import Runtime Observe ChartGeneratorService Footprint.

Lemma blind_ret {A : Type} (a : A) : blind (mret a : M A).
Proof. intros w w' H. split; [reflexivity | exact H]. Qed.

Lemma blind_throw {A : Type} (e : JS.error) : blind (throw e : M A).
Proof. intros w w' H. split; [reflexivity | exact H]. Qed.

Lemma blind_lift {A : Type} (c : JS.completion A) : blind (lift c).
Proof. intros w w' H. split; [reflexivity | exact H]. Qed.

Lemma blind_bind {A B : Type} (m : M A) (f : A -> M B) :
  blind m -> (forall a, blind (f a)) -> blind (m ≫= f).
Proof.
  intros Hm Hf w w' H. rewrite !bind_run. destruct (Hm w w' H) as [Hr Hw].
  destruct (m w) as [r w1], (m w') as [r' w1']. cbn [fst snd] in *. subst r'.
  destruct r as [a|e|]; [apply Hf; exact Hw | |]; split; auto.
Qed.

Lemma blind_try_catch {A : Type} (body : M A) (handler : JS.error -> M A) :
  blind body -> (forall e, blind (handler e)) -> blind (try_catch body handler).
Proof.
  intros Hb Hh w w' H. unfold try_catch. destruct (Hb w w' H) as [Hr Hw].
  destruct (body w) as [r w1], (body w') as [r' w1']. cbn [fst snd] in *. subst r'.
  destruct r as [a|e|]; [|apply Hh; exact Hw|]; split; auto.
Qed.

(** A step of the browser whose outcome [alike] worlds share. *)
Lemma blind_call (ev : bool -> event) (outcome : world -> step) :
  (forall w w', alike w w' -> outcome w = outcome w') ->
  blind (fun w => call ev (outcome w) w).
Proof.
  intros Hout w w' H. unfold call. rewrite (Hout w w' H).
  destruct (outcome w'); split; try reflexivity; exact H.
Qed.

(** A step whose failure is caught and dropped. *)
Lemma blind_tolerated (ev : bool -> event) (outcome : world -> step) :
  blind (try_catch (fun w => call ev (outcome w) w) (fun _ => mret tt)).
Proof.
  intros w w' H. unfold try_catch, call.
  destruct (outcome w), (outcome w'); split; try reflexivity; exact H.
Qed.

Lemma blind_poll (selector : string) (timeout : Z) :
  blind (page_waitForSelector selector timeout).
Proof.
  intros w w' H. unfold page_waitForSelector, call.
  destruct H as [Hpage Hpolls]. pose proof Hpage as (_ & _ & _ & _ & Hsel & _).
  cbn [chromium polls polled]. rewrite Hpolls, Hsel.
  destruct (on_waitForSelector (chromium w') (polls w'));
    (split; [reflexivity|]); (split; [exact Hpage|]); cbn [snd polls log polled];
    congruence.
Qed.

Lemma blind_sleep (ms : Z) : blind (sleep ms).
Proof. intros w w' H. split; [reflexivity | exact H]. Qed.

Lemma blind_screenshot : blind page_screenshot.
Proof.
  intros w w' H. unfold page_screenshot.
  pose proof H as [(_ & _ & _ & _ & _ & Hshot) _]. rewrite Hshot.
  destruct (on_screenshot (chromium w')); split; try reflexivity; exact H.
Qed.

Lemma blind_waitForChart (fuel : nat) (chartRendered : bool) (retryCount : nat) :
  blind (waitForChart fuel chartRendered retryCount).
Proof.
  revert chartRendered retryCount.
  induction fuel as [|fuel IH]; intros chartRendered retryCount; cbn [waitForChart];
    destruct (negb chartRendered && (retryCount <? maxRetries)%nat);
    try apply blind_ret.
  - intros w w' H. split; [reflexivity | exact H].
  - apply blind_bind; [|intros [rendered count]; apply IH].
    apply blind_try_catch.
    + apply blind_bind; [apply blind_poll | intros _; apply blind_ret].
    + intros _. destruct (maxRetries <=? S retryCount)%nat; [apply blind_throw|].
      apply blind_bind; [apply blind_sleep | intros _; apply blind_ret].
Qed.

Lemma blind_remember (key key' : string) (png : buffer) (w w' : world) :
  alike w w' ->
  fst (remember key png w) = fst (remember key' png w')
  /\ alike (snd (remember key png w)) (snd (remember key' png w')).
Proof.
  intros H. rewrite !remember_run, !set_run.
  destruct (faults w (calls w)), (faults w' (calls w')); cbn [faults calls log tick];
    try destruct (faults w (S (calls w))); try destruct (faults w' (S (calls w')));
    split; try reflexivity; exact H.
Qed.

Lemma blind_render (chartType : string) (data : JS.value) (options : Options)
    (key : string) :
  blind (render chartType data options key).
Proof.
  unfold render.
  apply blind_bind; [|intros _].
  { apply (blind_call NewPage (fun w => on_newPage (chromium w))).
    intros w w' [(_ & Hpage & _) _]. exact Hpage. }
  apply blind_bind; [|intros _].
  { apply (blind_tolerated (SetViewport _ _) (fun w => on_setViewport (chromium w))). }
  apply blind_bind; [apply blind_lift | intros chartJsConfig].
  apply blind_bind; [|intros _].
  { apply blind_try_catch; [|intros _].
    - apply (blind_call (SetContent _ _) (fun w => on_networkidle0 (chromium w))).
      intros w w' [(_ & _ & Hidle & _) _]. exact Hidle.
    - apply (blind_call (SetContent _ _) (fun w => on_domcontentloaded (chromium w))).
      intros w w' [(_ & _ & _ & Hdom & _) _]. exact Hdom. }
  apply blind_bind; [apply blind_waitForChart | intros _].
  apply blind_bind; [|intros screenshotBuffer].
  { apply blind_try_catch; [apply blind_screenshot | intros e; apply blind_throw]. }
  apply blind_bind; [|intros _; apply blind_ret].
  intros w w' H. apply blind_remember. exact H.
Qed.

Lemma blind_engine (chartType : string) (data : JS.value) (options : Options)
    (key : string) :
  blind (engine chartType data options key).
Proof.
  intros w w' H. unfold engine. rewrite !launch_run.
  destruct (_ ≫= _) as [v|e|]; [| split; [reflexivity | exact H]
                                | split; [reflexivity | exact H]].
  pose proof H as [(Hlaunch & _) _]. rewrite Hlaunch.
  destruct (on_launch (chromium w')); [|split; [reflexivity | exact H]].
  rewrite !finally_close_run. cbn [fst snd].
  destruct (blind_try_catch (render chartType data options key)
              (fun message => throw (describe message))
              (blind_render _ _ _ _) (fun e => blind_throw _)
              (log (Launch true) w) (log (Launch true) w') H) as [Hr Hw].
  split; [exact Hr | exact Hw].
Qed.

(** X21: what a request that misses the cache returns or throws depends on
    the browser's launch, page, content load, selector polls and screenshot
    alone.  Two worlds that agree on these give the same outcome, however
    they differ in the state and the faults of Redis, in the clock, and in
    whether [setViewport] and [browser.close] succeed. *)
Theorem render_outcome_ignores_cache_viewport_and_close (chartType : string)
    (data : JS.value) (options : RequestOptions) (w w' : world) :
  alike w w' ->
  fst (lookup (generateCacheKey chartType data (resolve options)) w) = JS.Return None ->
  fst (lookup (generateCacheKey chartType data (resolve options)) w') = JS.Return None ->
  fst (generateChart chartType data options w)
  = fst (generateChart chartType data options w').
Proof.
  unfold generateChart. generalize (generateCacheKey chartType data (resolve options)).
  intros key H Hmiss Hmiss'. rewrite !bind_run.
  destruct (lookup_frame key w) as [Hc Hp], (lookup_frame key w') as [Hc' Hp'].
  destruct (lookup key w) as [r w0], (lookup key w') as [r' w0'].
  cbn [fst snd] in *. subst r r'.
  apply blind_engine. destruct H as [Hpage Hpolls].
  split; [rewrite Hc, Hc'; exact Hpage | congruence].
Qed.

Lemma render_outcome_ignores_cache_viewport_and_close_witness :
  fst (generateChart "bar" (JS.VObj Samples.bar_data) Samples.request_800_600
         (Samples.fresh Samples.healthy))
  = fst (generateChart "bar" (JS.VObj Samples.bar_data) Samples.request_800_600
           (Samples.unreachable Cases.clumsy)).
Proof.
  apply (render_outcome_ignores_cache_viewport_and_close "bar"
           (JS.VObj Samples.bar_data) Samples.request_800_600
           (Samples.fresh Samples.healthy) (Samples.unreachable Cases.clumsy)).
  - repeat split; reflexivity.
  - vm_compute. reflexivity.
  - vm_compute. reflexivity.
Defined.

End Blindness.

(** ** The fields of a cache key *)

Section KeyFields.
Import ChartGeneratorService Footprint.

Lemma first_colon (l1 l2 r1 r2 : list ascii) :
  plain l1 -> plain l2 -> l1 ++ ":"%char :: r1 = l2 ++ ":"%char :: r2 ->
  l1 = l2 /\ r1 = r2.
Proof.
  revert l2. induction l1 as [|c l1 IH]; intros l2 H1 H2 Heq.
  - destruct l2 as [|c' l2]; [injection Heq as <-; auto|].
    injection Heq as <- _. inversion H2; congruence.
  - destruct l2 as [|c' l2].
    + injection Heq as -> _. inversion H1; congruence.
    + injection Heq as <- Heq. inversion H1; inversion H2; subst.
      destruct (IH l2) as [<- <-]; auto.
Qed.

Lemma last_colon (x1 x2 t1 t2 : list ascii) :
  plain t1 -> plain t2 -> x1 ++ ":"%char :: t1 = x2 ++ ":"%char :: t2 ->
  x1 = x2 /\ t1 = t2.
Proof.
  intros H1 H2 Heq. apply (f_equal (@rev ascii)) in Heq.
  rewrite !rev_app_distr in Heq. cbn [rev] in Heq. rewrite <- !app_assoc in Heq.
  cbn [app] in Heq.
  apply first_colon in Heq as [Ht Hx]; try (apply Forall_rev; assumption).
  split; [apply rev_inj in Hx | apply rev_inj in Ht]; assumption.
Qed.

Lemma pretty_N_go_plain (x : N) (s : string) :
  plain (list_ascii_of_string s) -> plain (list_ascii_of_string (pretty_N_go x s)).
Proof.
  revert s. induction (N.lt_wf_0 x) as [x _ IH]; intros s Hs.
  assert (x = 0 \/ 0 < x)%N as [->|Hpos] by lia.
  - rewrite pretty_N_go_0. exact Hs.
  - rewrite pretty_N_go_step by exact Hpos. apply IH.
    + apply N.div_lt; [exact Hpos | reflexivity].
    + cbn [list_ascii_of_string]. constructor; [|exact Hs].
      unfold pretty_N_char. repeat case_match; discriminate.
Qed.

Lemma pretty_Z_plain (z : Z) : plain (list_ascii_of_string (pretty z)).
Proof.
  assert (HN : forall n : N, plain (list_ascii_of_string (pretty n))).
  { intros n. unfold pretty, pretty_N. destruct (decide (n = 0%N)).
    - repeat constructor; discriminate.
    - apply pretty_N_go_plain. constructor. }
  destruct z as [|p|p]; unfold pretty, pretty_Z.
  - repeat constructor; discriminate.
  - apply HN.
  - cbn [String.append list_ascii_of_string].
    constructor; [discriminate | apply HN].
Qed.

Lemma theme_name_plain (t : Theme) : plain (list_ascii_of_string (theme_name t)).
Proof. destruct t; repeat constructor; discriminate. Qed.

Lemma theme_name_inj (t t' : Theme) : theme_name t = theme_name t' -> t = t'.
Proof. destruct t, t'; try reflexivity; discriminate. Qed.

Lemma list_ascii_of_string_inj (a b : string) :
  list_ascii_of_string a = list_ascii_of_string b -> a = b.
Proof.
  intros H. rewrite <- (string_of_list_ascii_of_string a),
    <- (string_of_list_ascii_of_string b), H. reflexivity.
Qed.

Lemma length_list_ascii_of_string (s : string) :
  length (list_ascii_of_string s) = String.length s.
Proof. induction s as [|c s IH]; [reflexivity|]. simpl. rewrite IH. reflexivity. Qed.

(** X22: the cache key tells the chart type, the width, the height and the
    theme of its request apart, whatever the digest: two requests with the
    same key agree on all four, so requests that differ in one of them never
    share a cache entry. *)
Theorem cache_key_tells_type_size_and_theme (chartType chartType' : string)
    (data data' : JS.value) (options options' : Options) :
  generateCacheKey chartType data options = generateCacheKey chartType' data' options' ->
  chartType = chartType' /\ width options = width options'
  /\ height options = height options' /\ theme options = theme options'.
Proof.
  destruct (generateCacheKey_shape chartType data options) as (d & Hd & ->).
  destruct (generateCacheKey_shape chartType' data' options') as (d' & Hd' & ->).
  intros Heq. apply (f_equal list_ascii_of_string) in Heq.
  rewrite !list_ascii_of_string_append in Heq.
  change (list_ascii_of_string ":") with [":"%char] in Heq.
  change (list_ascii_of_string "chart_cache:") with
    (list_ascii_of_string "chart_cache" ++ [":"%char]) in Heq.
  rewrite <- !app_assoc in Heq. cbn [app] in Heq.
  apply app_inv_head in Heq. injection Heq as Heq.
  assert (H4 : list_ascii_of_string chartType ++ ":"%char
                 :: list_ascii_of_string (pretty (width options)) ++ ":"%char
                 :: list_ascii_of_string (pretty (height options)) ++ ":"%char
                 :: list_ascii_of_string (theme_name (theme options))
               = list_ascii_of_string chartType' ++ ":"%char
                 :: list_ascii_of_string (pretty (width options')) ++ ":"%char
                 :: list_ascii_of_string (pretty (height options')) ++ ":"%char
                 :: list_ascii_of_string (theme_name (theme options'))).
  { enough (Hsplit : forall (a a' : list ascii),
              a ++ ":"%char :: list_ascii_of_string d
              = a' ++ ":"%char :: list_ascii_of_string d' -> a = a').
    { apply Hsplit. rewrite <- !app_assoc. cbn [app].
      repeat (rewrite <- !app_assoc; cbn [app]). exact Heq. }
    intros a a' H. apply app_inj_2 in H as [H _]; [exact H|].
    cbn [length]. rewrite !length_list_ascii_of_string. congruence. }
  clear Heq.
  rewrite !app_comm_cons, !app_assoc in H4.
  apply last_colon in H4 as [H3 Ht]; try apply theme_name_plain.
  apply last_colon in H3 as [H2 Hh]; try apply pretty_Z_plain.
  apply last_colon in H2 as [H1 Hw]; try apply pretty_Z_plain.
  split; [apply list_ascii_of_string_inj; exact H1|].
  split; [apply (inj pretty), list_ascii_of_string_inj; exact Hw|].
  split; [apply (inj pretty), list_ascii_of_string_inj; exact Hh|].
  apply theme_name_inj, list_ascii_of_string_inj. exact Ht.
Qed.

Lemma cache_key_tells_type_size_and_theme_witness :
  "bar" = "bar"
  /\ width Samples.light_800_600 = width Samples.light_800_600
  /\ height Samples.light_800_600 = height Samples.light_800_600
  /\ theme Samples.light_800_600 = theme Samples.light_800_600.
Proof.
  apply (cache_key_tells_type_size_and_theme "bar" "bar"
           (JS.VObj (Samples.bar_data ++ [("comment", JS.VUndefined)]))
           (JS.VObj Samples.bar_data) Samples.light_800_600 Samples.light_800_600).
  vm_compute. reflexivity.
Defined.

End KeyFields.

(** ** What [invalidateChartCache] removes *)

Section Removal.
Import Runtime Observe ChartGeneratorService.

(** X23: when [KEYS] and [DEL] both go through, [invalidateChartCache]
    removes the live keys that its pattern matches and no other; for a
    chart hash of hexadecimal digits a key that is removed contains the
    hash. *)
Theorem invalidateChartCache_removes_what_its_pattern_matches
    (chartHash key : string) (w : world) :
  faults w (calls w) = None -> faults w (S (calls w)) = None ->
  forallb hex_char (list_ascii_of_string chartHash) = true ->
  live (snd (invalidateChartCache chartHash w)) key
  = (if Glob.glob ("chart_cache:*:*:*:*:*" +:+ chartHash +:+ "*") key then None
     else live w key)
  /\ (Glob.glob ("chart_cache:*:*:*:*:*" +:+ chartHash +:+ "*") key = true ->
      exists before after,
        list_ascii_of_string key = before ++ list_ascii_of_string chartHash ++ after).
Proof.
  intros Hkeys Hdel Hhex. split.
  - rewrite invalidateChartCache_run. apply delPattern_live; assumption.
  - apply invalidation_pattern_contains. exact Hhex.
Qed.

Lemma invalidateChartCache_removes_what_its_pattern_matches_witness :
  live (snd (invalidateChartCache "7ddfca51edc3cd6f5445f5ac882fdc13" Cases.rendered))
       Cases.bar_key
  = (if Glob.glob ("chart_cache:*:*:*:*:*" +:+ "7ddfca51edc3cd6f5445f5ac882fdc13" +:+ "*")
                  Cases.bar_key
     then None else live Cases.rendered Cases.bar_key)
  /\ (Glob.glob ("chart_cache:*:*:*:*:*" +:+ "7ddfca51edc3cd6f5445f5ac882fdc13" +:+ "*")
                Cases.bar_key = true ->
      exists before after,
        list_ascii_of_string Cases.bar_key
        = before ++ list_ascii_of_string "7ddfca51edc3cd6f5445f5ac882fdc13" ++ after).
Proof.
  apply (invalidateChartCache_removes_what_its_pattern_matches
           "7ddfca51edc3cd6f5445f5ac882fdc13" Cases.bar_key Cases.rendered);
    vm_compute; reflexivity.
Defined.

End Removal.

(** ** What a request does to the store *)

Section Frame.
Import Runtime Observe ChartGeneratorService Footprint.

Lemma steady_call (ev : bool -> event) (outcome : world -> step)
    (before : world -> world) :
  (forall w, store (before w) = store w) ->
  steady (fun w => call ev (outcome w) (before w)).
Proof. intros Hb w. unfold call. destruct (outcome w); cbn [snd store log]; apply Hb. Qed.

Lemma steady_ret {A : Type} (a : A) : steady (mret a : M A).
Proof. intros w. reflexivity. Qed.

Lemma steady_throw {A : Type} (e : JS.error) : steady (throw e : M A).
Proof. intros w. reflexivity. Qed.

Lemma steady_lift {A : Type} (c : JS.completion A) : steady (lift c).
Proof. intros w. reflexivity. Qed.

Lemma steady_bind {A B : Type} (m : M A) (f : A -> M B) :
  steady m -> (forall a, steady (f a)) -> steady (m ≫= f).
Proof.
  intros Hm Hf w. rewrite bind_run. specialize (Hm w).
  destruct (m w) as [[a|e|] w1]; cbn [snd] in *; [|exact Hm|exact Hm].
  rewrite Hf. exact Hm.
Qed.

Lemma steady_try_catch {A : Type} (body : M A) (handler : JS.error -> M A) :
  steady body -> (forall e, steady (handler e)) -> steady (try_catch body handler).
Proof.
  intros Hb Hh w. unfold try_catch. specialize (Hb w).
  destruct (body w) as [[a|e|] w1]; cbn [snd] in *; [exact Hb| |exact Hb].
  rewrite Hh. exact Hb.
Qed.

Lemma steady_waitForChart : steady (waitForChart maxRetries false 0).
Proof.
  intros w. rewrite waitForChart_run.
  destruct (on_waitForSelector (chromium w) (polls w)); [reflexivity|].
  destruct (on_waitForSelector (chromium w) (S (polls w))); [reflexivity|].
  destruct (on_waitForSelector (chromium w) (S (S (polls w)))); reflexivity.
Qed.

Lemma steady_screenshot : steady page_screenshot.
Proof. intros w. unfold page_screenshot. destruct (on_screenshot _); reflexivity. Qed.

Lemma steady_lookup (key : string) : steady (lookup key).
Proof.
  intros w. rewrite lookup_run, get_run.
  destruct (faults w (calls w)); [reflexivity|]. cbn [faults calls log tick].
  destruct (faults w (S (calls w))); reflexivity.
Qed.

Lemma own_write_bind {A : Type} (key : string) (m : M A) (f : A -> M buffer) :
  steady m -> (forall a w, own_write key w (f a w)) ->
  forall w, own_write key w ((m ≫= f) w).
Proof.
  intros Hm Hf w. rewrite bind_run. specialize (Hm w).
  destruct (m w) as [[a|e|] w1]; cbn [snd] in *; [|left; exact Hm|left; exact Hm].
  destruct (Hf a w1) as [H|(png & deadline & Hr & H)]; [left|right].
  - rewrite H. exact Hm.
  - exists png, deadline. split; [exact Hr|]. rewrite H, Hm. reflexivity.
Qed.

Lemma own_write_render (chartType : string) (data : JS.value) (options : Options)
    (key : string) (w : world) :
  own_write key w (render chartType data options key w).
Proof.
  revert w. unfold render.
  apply own_write_bind; [|intros _].
  { apply (steady_call NewPage (fun w => on_newPage (chromium w)) (fun w => w)). auto. }
  apply own_write_bind; [|intros _].
  { apply steady_try_catch; [|intros _; apply steady_ret].
    apply (steady_call (SetViewport _ _) (fun w => on_setViewport (chromium w))
             (fun w => w)). auto. }
  apply own_write_bind; [apply steady_lift | intros chartJsConfig].
  apply own_write_bind; [|intros _].
  { apply steady_try_catch; [|intros _].
    - apply (steady_call (SetContent _ _) (fun w => on_networkidle0 (chromium w))
               (fun w => w)). auto.
    - apply (steady_call (SetContent _ _) (fun w => on_domcontentloaded (chromium w))
               (fun w => w)). auto. }
  apply own_write_bind; [apply steady_waitForChart | intros _].
  apply own_write_bind; [|intros screenshotBuffer].
  { apply steady_try_catch; [apply steady_screenshot | intros e; apply steady_throw]. }
  intros w. rewrite bind_run, remember_run, set_run.
  destruct (faults w (calls w)); [left; reflexivity|]. cbn [faults calls log tick].
  destruct (faults w (S (calls w))); [left; reflexivity|].
  right. eexists _, _. split; reflexivity.
Qed.

(** X24: all a request can do to the store is to put the image it returns
    under its own cache key; a request that fails, at whatever step, leaves
    the store exactly as it was; and so does a request that is answered from
    the cache: whenever the lookup under the key finds an image, that image
    is returned and the store is not written. *)
Theorem generateChart_writes_only_its_own_image (chartType : string)
    (data : JS.value) (options : RequestOptions) (w : world) :
  (store (snd (generateChart chartType data options w)) = store w
   \/ exists png deadline,
        fst (generateChart chartType data options w) = JS.Return png
        /\ store (snd (generateChart chartType data options w))
           = <[generateCacheKey chartType data (resolve options)
               := (Base64.to_string png, deadline)]> (store w))
  /\ (forall e,
       fst (generateChart chartType data options w) = JS.Throw e ->
       store (snd (generateChart chartType data options w)) = store w)
  /\ (forall cached,
       fst (lookup (generateCacheKey chartType data (resolve options)) w)
       = JS.Return (Some cached) ->
       fst (generateChart chartType data options w) = JS.Return cached
       /\ store (snd (generateChart chartType data options w)) = store w).
Proof.
  assert (Hhit : forall cached,
             fst (lookup (generateCacheKey chartType data (resolve options)) w)
             = JS.Return (Some cached) ->
             fst (generateChart chartType data options w) = JS.Return cached
             /\ store (snd (generateChart chartType data options w)) = store w).
  { unfold generateChart. generalize (generateCacheKey chartType data (resolve options)).
    intros key cached Hfound. rewrite bind_run.
    pose proof (steady_lookup key w) as Hsame.
    destruct (lookup key w) as [r w1]. cbn [fst snd] in *. subst r.
    split; [reflexivity | exact Hsame]. }
  assert (Hown : own_write (generateCacheKey chartType data (resolve options)) w
                   (generateChart chartType data options w)).
  { clear Hhit. unfold generateChart.
    generalize (generateCacheKey chartType data (resolve options)).
    intros key. revert w. apply own_write_bind; [apply steady_lookup|].
    intros [cached|] w; [left; reflexivity|].
    unfold engine. rewrite launch_run.
    destruct (_ ≫= _) as [v|e|]; [|left; reflexivity|left; reflexivity].
    destruct (on_launch (chromium w)); [|left; reflexivity].
    rewrite finally_close_run. unfold try_catch.
    destruct (own_write_render chartType data (resolve options) key (log (Launch true) w))
      as [H|(png & deadline & Hr & H)].
    - left. destruct (render _ _ _ _ _) as [[png|e|] w1]; exact H.
    - right. exists png, deadline.
      destruct (render _ _ _ _ _) as [r w1]. cbn [fst snd] in *. subst r.
      split; [reflexivity | exact H]. }
  split; [exact Hown|]. split; [|exact Hhit].
  intros e He. destruct Hown as [H|(png & deadline & Hr & _)]; [exact H|].
  rewrite He in Hr. discriminate.
Qed.

End Frame.

(** ** Where the two generators part *)

Section Viewport.
Import Runtime Observe ChartGeneratorService.

(** X25: in the generator without cache a [setViewport] that fails fails
    the request, with the words [Chart generation failed: ] before the
    browser's message; the page is not loaded and the browser is closed. *)
Theorem uncached_viewport_failure_is_fatal (chartType : string)
    (data : JS.value) (options : RequestOptions) (w : world)
    (items : list JS.value) (e : JS.error) :
  member data "datasets" = JS.Return (JS.VArr items) ->
  on_launch (chromium w) = Succeeds ->
  on_newPage (chromium w) = Succeeds ->
  on_setViewport (chromium w) = Fails e ->
  on_close (chromium w) = Succeeds ->
  Uncached.generateChart chartType data options w
  = (JS.Throw ("Chart generation failed: " +:+ e),
     log (Close true)
       (log (SetViewport (width (resolve options)) (height (resolve options)) false)
          (log (NewPage true) (log (Launch true) w)))).
Proof.
  intros Hdata Hlaunch Hpage Hview Hclose. unfold Uncached.generateChart.
  rewrite launch_run, Hdata. cbn [mbind completion_bind member].
  rewrite Hlaunch, finally_raw_close_run.
  assert (Hrun : try_catch (Uncached.render chartType data (resolve options))
                   (fun message => throw (Uncached.describe message))
                   (log (Launch true) w)
                 = (JS.Throw ("Chart generation failed: " +:+ e),
                    log (SetViewport (width (resolve options))
                           (height (resolve options)) false)
                      (log (NewPage true) (log (Launch true) w)))).
  { unfold try_catch, Uncached.render. rewrite bind_run.
    unfold browser_newPage, call. cbn [chromium log]. rewrite Hpage.
    rewrite bind_run. unfold page_setViewport, call. cbn [chromium log].
    rewrite Hview. reflexivity. }
  rewrite Hrun. cbn [fst snd chromium log]. rewrite Hclose. reflexivity.
Qed.

Lemma uncached_viewport_failure_is_fatal_witness :
  Uncached.generateChart "bar" (JS.VObj Samples.bar_data) Samples.request_800_600
    (Samples.fresh Cases.fixed_size)
  = (JS.Throw ("Chart generation failed: "
               +:+ "Protocol error (Emulation.setDeviceMetricsOverride)"),
     log (Close true)
       (log (SetViewport (width (resolve Samples.request_800_600))
               (height (resolve Samples.request_800_600)) false)
          (log (NewPage true) (log (Launch true) (Samples.fresh Cases.fixed_size))))).
Proof.
  apply (uncached_viewport_failure_is_fatal "bar" (JS.VObj Samples.bar_data)
           Samples.request_800_600 (Samples.fresh Cases.fixed_size) [Samples.sales]);
    reflexivity.
Defined.

End Viewport.
